(** * Invoice Automation Tool frontend: the API layer and the UI logic

    The development embeds the browser client of the invoice generator:
    the API layer ([generateInvoice], [checkHealth]) and the view
    controller (drop zones, file lists, the generate button, the result and
    error surfaces, the health indicator).

    Conventions.
    - A JavaScript Number is represented by its exact value in [Q]; the
      values [NaN], the infinities and the negative zero are not represented.
    - An abrupt completion carries the [message] of the thrown exception,
      the only part of an exception the program ever reads.
    - What the engine or the browser decides ([JSON.parse], the shortest
      decimal of a Number, the wording of its own [TypeError]s, the reading
      of markup that is not plain text) is a field of the record [Engine];
      every definition takes the engine as a parameter.
    - An [await] splits a function in two: the part that runs up to the
      network call, and the part that runs when the call settles.
    - The highlight of a drop zone under a drag, the reset of a file input
      after a change and the two download helpers, which the UI logic calls
      and does not define, are left out. *)

From Stdlib Require Import ZArith QArith Qabs Qround String Ascii List Sorted Lia ZifyNat
  DecimalString.
From stdpp Require Import base list strings.

Set Warnings "-register-all".

Open Scope string_scope.
Open Scope Z_scope.

(** [lia] reasons about division by a constant. *)
Ltac Zify.zify_post_hook ::= Z.to_euclidean_division_equations.

(** ** Completions *)

Inductive Completion (A : Type) : Type :=
| Normal (a : A)
| Throw (message : string).
Arguments Normal {A} a.
Arguments Throw {A} message.

#[global] Instance Completion_ret : MRet Completion := fun A a => Normal a.
#[global] Instance Completion_bind : MBind Completion := fun A B k c =>
  match c with
  | Normal a => k a
  | Throw m => Throw m
  end.
#[global] Instance Completion_fmap : FMap Completion := fun A B f c =>
  match c with
  | Normal a => Normal (f a)
  | Throw m => Throw m
  end.

(** [try { c } catch { handler }] on a computation without state. *)
Definition or_catch {A} (c : Completion A) (handler : string -> Completion A) : Completion A :=
  match c with
  | Normal a => Normal a
  | Throw m => handler m
  end.

(** ** Values *)

Record File := mkFile { name : string; size : Z }.

(** The values that [JSON.parse] and [response.json()] produce, and
    [undefined]. An object is the list of its own properties. *)
Inductive JsVal : Type :=
| VUndefined
| VNull
| VBool (b : bool)
| VNum (q : Q)
| VStr (s : string)
| VArr (l : list JsVal)
| VObj (fields : list (string * JsVal)).

Definition Qis_zero (q : Q) : bool := Z.eqb (Qnum q) 0.

Definition truthy (v : JsVal) : bool :=
  match v with
  | VUndefined | VNull => false
  | VBool b => b
  | VNum q => negb (Qis_zero q)
  | VStr s => negb (String.eqb s "")
  | VArr _ | VObj _ => true
  end.

Definition nullish (v : JsVal) : bool :=
  match v with
  | VUndefined | VNull => true
  | _ => false
  end.

Fixpoint own_property (fields : list (string * JsVal)) (k : string) : option JsVal :=
  match fields with
  | [] => None
  | (k', v) :: rest => if String.eqb k' k then Some v else own_property rest k
  end.

(** The line feed of ["\n"]. *)
Definition LF : string := String (ascii_of_nat 10) EmptyString.

(** A text that the HTML parser reads as it stands when it is interpolated
    into the content of an element: it has no [<] and no [&], which open
    markup, no NUL, which the parser drops, and no carriage return, which
    it reads as a line feed. *)
Definition markup_free (s : string) : bool :=
  forallb (fun c => negb (existsb (Ascii.eqb c)
                            ["<"%char; "&"%char; ascii_of_nat 0; ascii_of_nat 13]))
    (list_ascii_of_string s).

(** ** Decimal text of numbers *)

Definition digits (n : Z) : string := NilZero.string_of_uint (N.to_uint (Z.to_N n)).

Definition digit (n : Z) : ascii := ascii_of_N (48 + Z.to_N (n mod 10)).

(** The [w] lowest decimal digits of [n], zero padded. *)
Fixpoint digits_fixed (w : nat) (n : Z) : string :=
  match w with
  | O => ""
  | S w' => digits_fixed w' (n / 10) ++ String (digit n) ""
  end.

(** floor (|q| * 10^d + 1/2): the integer nearest to |q| * 10^d, the larger
    one of two. *)
Definition round_scaled (q : Q) (d : nat) : Z :=
  let num := Z.abs (Qnum q) * 10 ^ Z.of_nat d in
  let den := Z.pos (Qden q) in
  (2 * num + den) / (2 * den).

Definition Qnegative (q : Q) : bool := Qnum q <? 0.

Definition sign_text (q : Q) : string := if Qnegative q then "-" else "".

(** Digits in reverse order, a comma after every third. *)
Fixpoint group_rev (ds : list ascii) (k : nat) : list ascii :=
  match ds with
  | [] => []
  | d :: rest =>
      if Nat.eqb k 3 then ","%char :: d :: group_rev rest 1
      else d :: group_rev rest (S k)
  end.

Definition grouped (s : string) : string :=
  string_of_list_ascii (rev (group_rev (rev (list_ascii_of_string s)) 0)).

(** The fraction digits of [n] thousandths under
    [{ minimumFractionDigits: 2 }]: the maximum defaults to 3, a trailing
    zero of the third digit is dropped. *)
Definition fraction_min2 (n : Z) : string :=
  let fp := n mod 1000 in
  if fp mod 10 =? 0 then digits_fixed 2 (fp / 10) else digits_fixed 3 fp.

Definition zeros (n : Z) : string := digits_fixed (Z.to_nat n) 0.

(** The value of the decimal [s * 10^e]. *)
Definition decimal_value (d : Z * Z) : Q :=
  let '(s, e) := d in
  if 0 <=? e then (s * 10 ^ e # 1)%Q else (s # Z.to_pos (10 ^ (- e)))%Q.

(** The text [Number::toString] builds from the digits [s] of a positive
    Number and their exponent: with [k] the number of digits and
    [n = e + k], the digits and [n - k] zeros, the digits with a point
    after the first [n], the digits behind [0.] and [- n] zeros, or the
    exponential form. *)
Definition decimal_text (d : Z * Z) : string :=
  let '(s, e) := d in
  let ds := digits s in
  let k := Z.of_nat (String.length ds) in
  let n := e + k in
  if (k <=? n) && (n <=? 21) then ds ++ zeros (n - k)
  else if (0 <? n) && (n <=? 21) then
    substring 0 (Z.to_nat n) ds ++ "." ++ substring (Z.to_nat n) (Z.to_nat (k - n)) ds
  else if (-6 <? n) && (n <=? 0) then "0." ++ zeros (- n) ++ ds
  else
    let x := n - 1 in
    let exponent := (if x <? 0 then "-" else "+") ++ digits (Z.abs x) in
    if k =? 1 then ds ++ "e" ++ exponent
    else substring 0 1 ds ++ "." ++ substring 1 (Z.to_nat (k - 1)) ds ++ "e" ++ exponent.

(** ** The engine *)

(** The places where the engine raises a [TypeError] of its own. *)
Inductive TypeErrorAt : Type :=
| ReadOfNull (property : string)      (* a property is read from null *)
| ReadOfUndefined (property : string) (* a property is read from undefined *)
| NotAFunction (method : string)      (* the value called is not a function *)
| NotIterable                         (* the value iterated has no iterator *)
| NoPrimitive.                        (* the object converts to no primitive value *)

Record Engine := mkEngine {
  (** [JSON.parse(text)]: the value, or the message of the [SyntaxError] *)
  JSON_parse : string -> Completion JsVal;
  (** [JSON.stringify(value)] *)
  JSON_stringify : JsVal -> string;
  (** the shortest decimal [s * 10^e] that reads back as the positive
      Number: the digits [Number::toString] prints *)
  Number_shortest : Q -> Z * Z;
  (** the message of a [TypeError] of the engine *)
  TypeError_message : TypeErrorAt -> string;
  (** the markup of a file item with a name and a size interpolated, as
      the HTML parser reads it: the texts of the elements of class
      [file-name] and [file-size], or nothing when no element of class
      [file-remove] is left *)
  innerHTML_file_item : string -> string -> option (string * string);
}.

Definition Qintegral (q : Q) : bool := Z.abs (Qnum q) mod Z.pos (Qden q) =? 0.

(** |q| >= 10^21 *)
Definition Qhuge (q : Q) : bool := 10 ^ 21 * Z.pos (Qden q) <=? Z.abs (Qnum q).

Section Language.

Context (engine : Engine).

(** The decimal of the magnitude of a Number that [Number::toString]
    prints and the number formatter rounds: an integer up to 2^53, where
    every integer is a Number, is its own shortest decimal up to zeros at
    its end; beyond, the engine tells the shortest digits. *)
Definition Number_decimal (q : Q) : Z * Z :=
  let whole := Z.abs (Qnum q) / Z.pos (Qden q) in
  if Qintegral q && (whole <=? 2 ^ 53) then (whole, 0)
  else Number_shortest engine (Qabs q).

(** [Number::toString] *)
Definition Number_text (q : Q) : string :=
  sign_text q ++ decimal_text (Number_decimal q).

(** [x.toLocaleString("en-US", { minimumFractionDigits: 2 })] on a Number:
    the formatter rounds the decimal of the Number, not its binary value,
    half away from zero to at most three fraction digits. *)
Definition Number_toLocaleString (q : Q) : string :=
  let n := round_scaled (decimal_value (Number_decimal q)) 3 in
  sign_text q ++ grouped (digits (n / 1000)) ++ "." ++ fraction_min2 n.

(** [x.toFixed(d)] on a Number. *)
Definition Number_toFixed (q : Q) (d : nat) : string :=
  if Qhuge q then Number_text q
  else
    let n := round_scaled q d in
    sign_text q ++ digits (n / 10 ^ Z.of_nat d)
      ++ match d with O => "" | S _ => "." ++ digits_fixed d n end.

(** [ToString(v)]. An element of an array that is [null] or [undefined]
    contributes the empty text; an object whose own property shadows
    [toString] has no primitive value. *)
Fixpoint ToString (v : JsVal) : Completion string :=
  match v with
  | VUndefined => Normal "undefined"
  | VNull => Normal "null"
  | VBool b => Normal (if b then "true" else "false")
  | VNum q => Normal (Number_text q)
  | VStr s => Normal s
  | VArr l =>
      parts ← (fix elements (l : list JsVal) : Completion (list string) :=
                 match l with
                 | [] => Normal []
                 | x :: rest =>
                     s ← (if nullish x then Normal "" else ToString x);
                     r ← elements rest;
                     Normal (s :: r)
                 end) l;
      Normal (String.concat "," parts)
  | VObj fields =>
      match own_property fields "toString" with
      | Some _ => Throw (TypeError_message engine NoPrimitive)
      | None => Normal "[object Object]"
      end
  end.

Definition element_text (x : JsVal) : Completion string :=
  if nullish x then Normal "" else ToString x.

(** [l.join(sep)] *)
Definition Array_join (l : list JsVal) (sep : string) : Completion string :=
  parts ← mapM element_text l;
  Normal (String.concat sep parts).

(** [v.k], for the data properties the program reads: none of them is a
    property of a primitive, of an array or of [Object.prototype]. *)
Definition Get (v : JsVal) (k : string) : Completion JsVal :=
  match v with
  | VUndefined => Throw (TypeError_message engine (ReadOfUndefined k))
  | VNull => Throw (TypeError_message engine (ReadOfNull k))
  | VObj fields => Normal (default VUndefined (own_property fields k))
  | _ => Normal VUndefined
  end.

(** [v?.join(sep)]: only an array has a callable [join]. *)
Definition optional_join (v : JsVal) (sep : string) : Completion JsVal :=
  match v with
  | VUndefined | VNull => Normal VUndefined
  | VArr l => s ← Array_join l sep; Normal (VStr s)
  | _ => Throw (TypeError_message engine (NotAFunction "join"))
  end.

(** [a || b], the right operand evaluated on demand. *)
Definition js_or (a : JsVal) (b : Completion JsVal) : Completion JsVal :=
  if truthy a then Normal a else b.

(** [v.toFixed(d)]: only a Number has [toFixed]. *)
Definition toFixed (v : JsVal) (d : nat) : Completion string :=
  match v with
  | VUndefined => Throw (TypeError_message engine (ReadOfUndefined "toFixed"))
  | VNull => Throw (TypeError_message engine (ReadOfNull "toFixed"))
  | VNum q => Normal (Number_toFixed q d)
  | _ => Throw (TypeError_message engine (NotAFunction "toFixed"))
  end.

(** [v.toLocaleString("en-US", { minimumFractionDigits: 2 })]. A string and
    a boolean inherit [Object.prototype.toLocaleString], which calls
    [toString]; an array formats its elements with the same arguments. *)
Fixpoint toLocaleString (v : JsVal) : Completion string :=
  match v with
  | VUndefined => Throw (TypeError_message engine (ReadOfUndefined "toLocaleString"))
  | VNull => Throw (TypeError_message engine (ReadOfNull "toLocaleString"))
  | VBool b => Normal (if b then "true" else "false")
  | VNum q => Normal (Number_toLocaleString q)
  | VStr s => Normal s
  | VArr l =>
      parts ← (fix elements (l : list JsVal) : Completion (list string) :=
                 match l with
                 | [] => Normal []
                 | x :: rest =>
                     s ← (if nullish x then Normal "" else toLocaleString x);
                     r ← elements rest;
                     Normal (s :: r)
                 end) l;
      Normal (String.concat "," parts)
  | VObj fields =>
      match own_property fields "toLocaleString", own_property fields "toString" with
      | None, None => Normal "[object Object]"
      | _, _ => Throw (TypeError_message engine (NotAFunction "toLocaleString"))
      end
  end.

(** The text an element shows after [element.textContent = v]. *)
Definition textContent_of (v : JsVal) : Completion string :=
  if nullish v then Normal "" else ToString v.

End Language.

(** ** The page *)

(** The functions the program passes as [onRemove]. *)
Inductive Callback : Type :=
| PoRemove      (* () => { poPdf = null; ... } *)
| TsRemove      (* (idx) => { timesheetFiles.splice(idx, 1); ... } *)
| TplRemove     (* () => { templateFile = null; ... } *)
| NoOp.         (* () => {} *)

(** A rendered [div.file-item]: the name and size it shows, and the click
    listener of its remove button, which calls [item_onRemove] with
    [item_index]. *)
Record FileItem := mkFileItem {
  item_name : string;
  item_size : string;
  item_index : nat;
  item_onRemove : Callback;
}.

(** The row of an hour category in an engineer card. *)
Record Row := mkRow { row_hours : string; row_rate : string; row_cost : string }.

(** What [card.innerHTML] interpolates for one engineer. *)
Record Card := mkCard {
  card_name : string;
  card_category : string;
  card_total : string;
  card_normal : Row;
  card_overtime : Row;
  card_hot : Row;
}.

(** The button, the status line and the two result surfaces; a section is
    hidden when its class list has [hidden]. *)
Record Surfaces := mkSurfaces {
  generateBtn_disabled : bool;
  statusSection_hidden : bool;
  statusText : string;
  resultsSection_hidden : bool;
  errorSection_hidden : bool;
  errorText : string;
}.

(** The elements [showResults] fills; a download button holds the value
    its [onclick] closure saves. *)
Record ResultsView := mkResultsView {
  grand_total : string;
  contract_number : string;
  total_hours : string;
  total_engineers : string;
  normal_hours : string;
  ot_hours : string;
  hot_hours : string;
  engineer_cards : list Card;
  dl_excel : option JsVal;
  dl_audit : option JsVal;
}.

(** The module-level variables of the UI logic and the elements they refer
    to. *)
Record State := mkState {
  poPdf : option File;
  timesheetFiles : list File;
  templateFile : option File;
  lastResult : JsVal;
  poFileList : list FileItem;
  tsFileList : list FileItem;
  tplFileList : list FileItem;
  configTextarea : string;
  strictCheckbox : bool;
  surfaces : Surfaces;
  view : ResultsView;
  healthDot : string;
  healthLabel : string;
}.

Definition set_generateBtn_disabled (v : bool) (s : Surfaces) : Surfaces :=
  mkSurfaces v (statusSection_hidden s) (statusText s) (resultsSection_hidden s)
    (errorSection_hidden s) (errorText s).

Definition set_statusSection_hidden (v : bool) (s : Surfaces) : Surfaces :=
  mkSurfaces (generateBtn_disabled s) v (statusText s) (resultsSection_hidden s)
    (errorSection_hidden s) (errorText s).

Definition set_statusText (v : string) (s : Surfaces) : Surfaces :=
  mkSurfaces (generateBtn_disabled s) (statusSection_hidden s) v (resultsSection_hidden s)
    (errorSection_hidden s) (errorText s).

Definition set_resultsSection_hidden (v : bool) (s : Surfaces) : Surfaces :=
  mkSurfaces (generateBtn_disabled s) (statusSection_hidden s) (statusText s) v
    (errorSection_hidden s) (errorText s).

Definition set_errorSection_hidden (v : bool) (s : Surfaces) : Surfaces :=
  mkSurfaces (generateBtn_disabled s) (statusSection_hidden s) (statusText s)
    (resultsSection_hidden s) v (errorText s).

Definition set_errorText (v : string) (s : Surfaces) : Surfaces :=
  mkSurfaces (generateBtn_disabled s) (statusSection_hidden s) (statusText s)
    (resultsSection_hidden s) (errorSection_hidden s) v.

Definition set_grand_total (v : string) (s : ResultsView) : ResultsView :=
  mkResultsView v (contract_number s) (total_hours s) (total_engineers s) (normal_hours s)
    (ot_hours s) (hot_hours s) (engineer_cards s) (dl_excel s) (dl_audit s).

Definition set_contract_number (v : string) (s : ResultsView) : ResultsView :=
  mkResultsView (grand_total s) v (total_hours s) (total_engineers s) (normal_hours s)
    (ot_hours s) (hot_hours s) (engineer_cards s) (dl_excel s) (dl_audit s).

Definition set_total_hours (v : string) (s : ResultsView) : ResultsView :=
  mkResultsView (grand_total s) (contract_number s) v (total_engineers s) (normal_hours s)
    (ot_hours s) (hot_hours s) (engineer_cards s) (dl_excel s) (dl_audit s).

Definition set_total_engineers (v : string) (s : ResultsView) : ResultsView :=
  mkResultsView (grand_total s) (contract_number s) (total_hours s) v (normal_hours s)
    (ot_hours s) (hot_hours s) (engineer_cards s) (dl_excel s) (dl_audit s).

Definition set_normal_hours (v : string) (s : ResultsView) : ResultsView :=
  mkResultsView (grand_total s) (contract_number s) (total_hours s) (total_engineers s) v
    (ot_hours s) (hot_hours s) (engineer_cards s) (dl_excel s) (dl_audit s).

Definition set_ot_hours (v : string) (s : ResultsView) : ResultsView :=
  mkResultsView (grand_total s) (contract_number s) (total_hours s) (total_engineers s)
    (normal_hours s) v (hot_hours s) (engineer_cards s) (dl_excel s) (dl_audit s).

Definition set_hot_hours (v : string) (s : ResultsView) : ResultsView :=
  mkResultsView (grand_total s) (contract_number s) (total_hours s) (total_engineers s)
    (normal_hours s) (ot_hours s) v (engineer_cards s) (dl_excel s) (dl_audit s).

Definition set_engineer_cards (v : list Card) (s : ResultsView) : ResultsView :=
  mkResultsView (grand_total s) (contract_number s) (total_hours s) (total_engineers s)
    (normal_hours s) (ot_hours s) (hot_hours s) v (dl_excel s) (dl_audit s).

Definition set_dl_excel (v : option JsVal) (s : ResultsView) : ResultsView :=
  mkResultsView (grand_total s) (contract_number s) (total_hours s) (total_engineers s)
    (normal_hours s) (ot_hours s) (hot_hours s) (engineer_cards s) v (dl_audit s).

Definition set_dl_audit (v : option JsVal) (s : ResultsView) : ResultsView :=
  mkResultsView (grand_total s) (contract_number s) (total_hours s) (total_engineers s)
    (normal_hours s) (ot_hours s) (hot_hours s) (engineer_cards s) (dl_excel s) v.

Definition set_poPdf (v : option File) (s : State) : State :=
  mkState v (timesheetFiles s) (templateFile s) (lastResult s) (poFileList s) (tsFileList s)
    (tplFileList s) (configTextarea s) (strictCheckbox s) (surfaces s) (view s)
    (healthDot s) (healthLabel s).

Definition set_timesheetFiles (v : list File) (s : State) : State :=
  mkState (poPdf s) v (templateFile s) (lastResult s) (poFileList s) (tsFileList s)
    (tplFileList s) (configTextarea s) (strictCheckbox s) (surfaces s) (view s)
    (healthDot s) (healthLabel s).

Definition set_templateFile (v : option File) (s : State) : State :=
  mkState (poPdf s) (timesheetFiles s) v (lastResult s) (poFileList s) (tsFileList s)
    (tplFileList s) (configTextarea s) (strictCheckbox s) (surfaces s) (view s)
    (healthDot s) (healthLabel s).

Definition set_lastResult (v : JsVal) (s : State) : State :=
  mkState (poPdf s) (timesheetFiles s) (templateFile s) v (poFileList s) (tsFileList s)
    (tplFileList s) (configTextarea s) (strictCheckbox s) (surfaces s) (view s)
    (healthDot s) (healthLabel s).

Definition set_poFileList (v : list FileItem) (s : State) : State :=
  mkState (poPdf s) (timesheetFiles s) (templateFile s) (lastResult s) v (tsFileList s)
    (tplFileList s) (configTextarea s) (strictCheckbox s) (surfaces s) (view s)
    (healthDot s) (healthLabel s).

Definition set_tsFileList (v : list FileItem) (s : State) : State :=
  mkState (poPdf s) (timesheetFiles s) (templateFile s) (lastResult s) (poFileList s) v
    (tplFileList s) (configTextarea s) (strictCheckbox s) (surfaces s) (view s)
    (healthDot s) (healthLabel s).

Definition set_tplFileList (v : list FileItem) (s : State) : State :=
  mkState (poPdf s) (timesheetFiles s) (templateFile s) (lastResult s) (poFileList s)
    (tsFileList s) v (configTextarea s) (strictCheckbox s) (surfaces s) (view s)
    (healthDot s) (healthLabel s).

Definition set_configTextarea (v : string) (s : State) : State :=
  mkState (poPdf s) (timesheetFiles s) (templateFile s) (lastResult s) (poFileList s)
    (tsFileList s) (tplFileList s) v (strictCheckbox s) (surfaces s) (view s) (healthDot s)
    (healthLabel s).

Definition set_strictCheckbox (v : bool) (s : State) : State :=
  mkState (poPdf s) (timesheetFiles s) (templateFile s) (lastResult s) (poFileList s)
    (tsFileList s) (tplFileList s) (configTextarea s) v (surfaces s) (view s) (healthDot s)
    (healthLabel s).

Definition set_surfaces (v : Surfaces) (s : State) : State :=
  mkState (poPdf s) (timesheetFiles s) (templateFile s) (lastResult s) (poFileList s)
    (tsFileList s) (tplFileList s) (configTextarea s) (strictCheckbox s) v (view s)
    (healthDot s) (healthLabel s).

Definition set_view (v : ResultsView) (s : State) : State :=
  mkState (poPdf s) (timesheetFiles s) (templateFile s) (lastResult s) (poFileList s)
    (tsFileList s) (tplFileList s) (configTextarea s) (strictCheckbox s) (surfaces s) v
    (healthDot s) (healthLabel s).

Definition set_healthDot (v : string) (s : State) : State :=
  mkState (poPdf s) (timesheetFiles s) (templateFile s) (lastResult s) (poFileList s)
    (tsFileList s) (tplFileList s) (configTextarea s) (strictCheckbox s) (surfaces s)
    (view s) v (healthLabel s).

Definition set_healthLabel (v : string) (s : State) : State :=
  mkState (poPdf s) (timesheetFiles s) (templateFile s) (lastResult s) (poFileList s)
    (tsFileList s) (tplFileList s) (configTextarea s) (strictCheckbox s) (surfaces s)
    (view s) (healthDot s) v.

(** ** Statements: state and abrupt completion *)

Definition Js (A : Type) : Type := State -> State * Completion A.

#[global] Instance Js_ret : MRet Js := fun A a s => (s, Normal a).
#[global] Instance Js_bind : MBind Js := fun A B k c s =>
  match c s with
  | (s', Normal a) => k a s'
  | (s', Throw m) => (s', Throw m)
  end.

Definition modify (f : State -> State) : Js unit := fun s => (f s, Normal tt).
Definition eval {A} (c : Completion A) : Js A := fun s => (s, c).
Definition read {A} (f : State -> A) : Js A := fun s => (s, Normal (f s)).

(** [try { body } catch (e) { handler(e.message) }] *)
Definition try_catch {A} (body : Js A) (handler : string -> Js A) : Js A := fun s =>
  match body s with
  | (s', Normal a) => (s', Normal a)
  | (s', Throw m) => handler m s'
  end.

(** [try { body } finally { cleanup }] *)
Definition try_finally {A} (body : Js A) (cleanup : Js unit) : Js A := fun s =>
  match body s with
  | (s', c) =>
      match cleanup s' with
      | (s'', Normal _) => (s'', c)
      | (s'', Throw m) => (s'', Throw m)
      end
  end.

(** The state a handler leaves behind; an exception it does not catch is
    reported by the browser and changes nothing more. *)
Definition after {A} (c : Js A) (s : State) : State := fst (c s).

Definition modify_surfaces (f : Surfaces -> Surfaces) : Js unit :=
  modify (fun s => set_surfaces (f (surfaces s)) s).
Definition modify_view (f : ResultsView -> ResultsView) : Js unit :=
  modify (fun s => set_view (f (view s)) s).

(** The three drop zones, each with its list of rendered items. *)
Inductive Zone : Type := PoZone | TsZone | TplZone.

Definition file_list (z : Zone) (s : State) : list FileItem :=
  match z with
  | PoZone => poFileList s
  | TsZone => tsFileList s
  | TplZone => tplFileList s
  end.

Definition set_file_list (z : Zone) (l : list FileItem) (s : State) : State :=
  match z with
  | PoZone => set_poFileList l s
  | TsZone => set_tsFileList l s
  | TplZone => set_tplFileList l s
  end.

(** ** The API communication layer *)

(** What [fetch] hands back: the status and what [response.json()] settles
    to, the parsed body or the message of its rejection. *)
Record Response := mkResponse { status : Z; body_json : Completion JsVal }.

Definition ok (r : Response) : bool := (200 <=? status r) && (status r <=? 299).

Inductive FetchOutcome : Type :=
| Fulfilled (response : Response)
| Rejected (message : string).

(** The multipart form [generateInvoice] posts to [/api/v1/generate]. *)
Record Request := mkRequest {
  po_pdf : option File;
  timesheets : list File;
  template : option File;
  engineer_config : string;
  strict : string;
}.

Section Api.

Context (engine : Engine).

(** [generateInvoice], up to the call of [fetch]. *)
Definition generateInvoice_request (poPdf : option File) (timesheets : list File)
    (template : option File) (engineerConfig : JsVal) (strict : bool) : Request :=
  mkRequest poPdf timesheets template (JSON_stringify engine engineerConfig)
    (if strict then "true" else "false").

(** The message of [new Error(v)]. *)
Definition Error_message (v : JsVal) : Completion string :=
  match v with
  | VUndefined => Normal ""
  | _ => ToString engine v
  end.

(** [err.detail || err.errors?.join("\n") || detail] *)
Definition error_detail (err : JsVal) (detail : JsVal) : Completion JsVal :=
  d ← Get engine err "detail";
  js_or d (es ← Get engine err "errors";
           j ← optional_join engine es LF;
           js_or j (Normal detail)).

(** [generateInvoice], from the moment [fetch] settles. *)
Definition generateInvoice (outcome : FetchOutcome) : Completion JsVal :=
  match outcome with
  | Rejected m => Throw m
  | Fulfilled response =>
      if negb (ok response) then
        let detail := VStr ("HTTP " ++ Number_text engine (inject_Z (status response))) in
        detail ← or_catch (err ← body_json response; error_detail err detail)
                          (fun _ => Normal detail);   (* ignore parse errors *)
        m ← Error_message detail;
        Throw m
      else body_json response
  end.

(** [checkHealth], from the moment [fetch] settles. *)
Definition checkHealth (outcome : FetchOutcome) : Completion bool :=
  or_catch (match outcome with
            | Fulfilled res => Normal (ok res)
            | Rejected m => Throw m
            end)
           (fun _ => Normal false).

End Api.

(** ** The main UI logic *)

(** The operands of the readiness expression: a slot holds [null] or a
    [File] object, the length test is a boolean. *)
Inductive Operand : Type :=
| ONull
| OFile (f : File)
| OBool (b : bool).

Definition operand_truthy (o : Operand) : bool :=
  match o with
  | ONull => false
  | OFile _ => true
  | OBool b => b
  end.

(** [a && b] *)
Definition js_and (a b : Operand) : Operand := if operand_truthy a then b else a.

Definition slot (o : option File) : Operand :=
  match o with
  | None => ONull
  | Some f => OFile f
  end.

(** The functions that enclose an expression, innermost first; the top
    level of the script is the end of the list. *)
Inductive FunctionKind : Type :=
| Arrow
| Ordinary (self : Callback).

(** [arguments.callee]: an arrow function has no [arguments] of its own, and
    the top level of a script has none at all. *)
Fixpoint arguments_callee (enclosing : list FunctionKind) : Completion Callback :=
  match enclosing with
  | [] => Throw "arguments is not defined"
  | Arrow :: outer => arguments_callee outer
  | Ordinary self :: _ => Normal self
  end.

Section App.

Context (engine : Engine).

Definition size_label (f : File) : string :=
  if size f <? 1024 * 1024
  then Number_toFixed engine (size f # 1024) 1 ++ " KB"
  else Number_toFixed engine (size f # (1024 * 1024)) 1 ++ " MB".

(** What the item of a file shows once [div.innerHTML] is set, if the
    markup has kept its remove button. The name is interpolated as markup:
    a name that is plain text is shown as it stands and leaves the markup
    around it alone; any other name is read by the parser of the browser.
    The size is a numeral and has no markup. Script that the markup of a
    name may carry is not run in this model. *)
Definition file_item_texts (f : File) : option (string * string) :=
  if markup_free (name f) then Some (name f, size_label f)
  else innerHTML_file_item engine (name f) (size_label f).

(** The body of the loop up to [appendChild]: when
    [div.querySelector(".file-remove")] finds no button, the call of
    [addEventListener] on [null] throws. *)
Definition render_item (i : nat) (f : File) (onRemove : Callback) : Completion FileItem :=
  match file_item_texts f with
  | Some (shown_name, shown_size) => Normal (mkFileItem shown_name shown_size i onRemove)
  | None => Throw (TypeError_message engine (ReadOfNull "addEventListener"))
  end.

(** [arr.forEach((f, i) => ...)] from the index [i] on: an entry that is
    not a file is skipped and keeps its index; each item is appended as
    soon as it is built. *)
Fixpoint append_items (container : Zone) (i : nat) (files : list (option File))
    (onRemove : Callback) : Js unit :=
  match files with
  | [] => mret tt
  | None :: rest => append_items container (S i) rest onRemove
  | Some f :: rest =>
      item ← eval (render_item i f onRemove);
      modify (fun s => set_file_list container (file_list container s ++ [item]) s);;
      append_items container (S i) rest onRemove
  end.

(** [renderFileList(container, files, onRemove)]; every caller passes an
    array as [files]. *)
Definition renderFileList (container : Zone) (files : list (option File))
    (onRemove : Callback) : Js unit :=
  modify (set_file_list container []);;
  append_items container 0 files onRemove.

Definition updateGenerateBtn : Js unit :=
  modify (fun s =>
    let ready :=
      js_and (js_and (slot (poPdf s)) (OBool (0 <? length (timesheetFiles s))%nat))
             (slot (templateFile s)) in
    set_surfaces (set_generateBtn_disabled (negb (operand_truthy ready)) (surfaces s)) s).

(** The drop zone of the purchase order *)
Definition po_onFiles (files : list File) : Js unit :=
  match files with
  | [] => mret tt
  | f :: _ =>
      modify (set_poPdf (Some f));;
      renderFileList PoZone [Some f] PoRemove;;
      updateGenerateBtn
  end.

(** The drop zone of the timesheets *)
Definition ts_onFiles (files : list File) : Js unit :=
  modify (fun s => set_timesheetFiles (timesheetFiles s ++ files) s);;
  held ← read timesheetFiles;
  renderFileList TsZone (Some <$> held) TsRemove;;
  updateGenerateBtn.

(** The drop zone of the template *)
Definition tpl_onFiles (files : list File) : Js unit :=
  match files with
  | [] => mret tt
  | f :: _ =>
      modify (set_templateFile (Some f));;
      renderFileList TplZone [Some f] TplRemove;;
      updateGenerateBtn
  end.

(** The functions nested around the body of the timesheet removal callback:
    the callback and the [onFiles] function it is written in, both arrow
    functions at the top level of the script. *)
Definition ts_remove_enclosing : list FunctionKind := [Arrow; Arrow].

(** [onRemove(idx)] *)
Definition call_onRemove (cb : Callback) (idx : nat) : Js unit :=
  match cb with
  | PoRemove =>
      modify (set_poPdf None);;
      renderFileList PoZone [] NoOp;;
      updateGenerateBtn
  | TsRemove =>
      modify (fun s => set_timesheetFiles (delete idx (timesheetFiles s)) s);;
      held ← read timesheetFiles;
      callee ← eval (arguments_callee ts_remove_enclosing);
      renderFileList TsZone (Some <$> held) callee;;
      updateGenerateBtn
  | TplRemove =>
      modify (set_templateFile None);;
      renderFileList TplZone [] NoOp;;
      updateGenerateBtn
  | NoOp => mret tt
  end.

(** The click listener of the remove button of a rendered item. *)
Definition remove_click (item : FileItem) : Js unit :=
  call_onRemove (item_onRemove item) (item_index item).

Definition showError (msg : JsVal) : Js unit :=
  modify_surfaces (set_errorSection_hidden false);;
  modify_surfaces (set_resultsSection_hidden true);;
  text ← eval (textContent_of engine msg);
  modify_surfaces (set_errorText text).

(** [`$${v.toLocaleString("en-US", { minimumFractionDigits: 2 })}`] *)
Definition dollars (v : JsVal) : Completion string :=
  text ← toLocaleString engine v;
  Normal ("$" ++ text).

(** One table row of an engineer card. *)
Definition engineer_row (eng : JsVal) (hours rate cost : string) : Completion Row :=
  h ← Get engine eng hours;
  hours_text ← ToString engine h;
  r ← Get engine eng rate;
  rate_text ← toFixed engine r 2;
  c ← Get engine eng cost;
  cost_text ← dollars c;
  Normal (mkRow hours_text ("$" ++ rate_text) cost_text).

(** The values interpolated into the markup of one engineer card, in the
    order the template evaluates them. *)
Definition engineer_card (eng : JsVal) : Completion Card :=
  n ← Get engine eng "name";
  name_text ← ToString engine n;
  c ← Get engine eng "category";
  category_text ← ToString engine c;
  t ← Get engine eng "total_cost";
  total_text ← dollars t;
  normal ← engineer_row eng "normal_hours" "normal_rate" "normal_cost";
  overtime ← engineer_row eng "ot_hours" "ot_rate" "ot_cost";
  hot ← engineer_row eng "hot_hours" "hot_rate" "hot_cost";
  Normal (mkCard name_text category_text total_text normal overtime hot).

(** The values [for (const eng of v)] visits: the elements of an array, the
    characters of a string; nothing else the parser produces is iterable. *)
Definition iterate (v : JsVal) : Completion (list JsVal) :=
  match v with
  | VArr l => Normal l
  | VStr s => Normal ((fun c => VStr (String c "")) <$> list_ascii_of_string s)
  | _ => Throw (TypeError_message engine NotIterable)
  end.

(** The body of the loop over the engineers: each card is appended as soon
    as its markup is built. *)
Fixpoint append_cards (engs : list JsVal) : Js unit :=
  match engs with
  | [] => mret tt
  | eng :: rest =>
      card ← eval (engineer_card eng);
      modify_view (fun v => set_engineer_cards (engineer_cards v ++ [card]) v);;
      append_cards rest
  end.

(** [document.getElementById(id).textContent = summary[k].toFixed(0)] *)
Definition show_hours (summary : JsVal) (k : string)
    (set : string -> ResultsView -> ResultsView) : Js unit :=
  h ← eval (Get engine summary k);
  text ← eval (toFixed engine h 0);
  modify_view (set text).

(** [document.getElementById(id).textContent = summary[k]] *)
Definition show_field (summary : JsVal) (k : string)
    (set : string -> ResultsView -> ResultsView) : Js unit :=
  x ← eval (Get engine summary k);
  text ← eval (textContent_of engine x);
  modify_view (set text).

Definition showResults (result : JsVal) : Js unit :=
  modify_surfaces (set_resultsSection_hidden false);;
  modify_surfaces (set_errorSection_hidden true);;
  (* Grand total *)
  summary ← eval (Get engine result "summary");
  total ← eval (Get engine summary "grand_total_usd");
  text ← eval (dollars total);
  modify_view (set_grand_total text);;
  show_field summary "contract_number" set_contract_number;;
  show_hours summary "total_hours" set_total_hours;;
  show_field summary "total_engineers" set_total_engineers;;
  (* Hours breakdown *)
  show_hours summary "total_normal_hours" set_normal_hours;;
  show_hours summary "total_ot_hours" set_ot_hours;;
  show_hours summary "total_hot_hours" set_hot_hours;;
  (* Engineer cards *)
  modify_view (set_engineer_cards []);;
  engineers ← eval (Get engine result "engineers");
  engs ← eval (iterate engineers);
  append_cards engs;;
  (* Download buttons *)
  modify_view (set_dl_excel (Some result));;
  modify_view (set_dl_audit (Some result)).

(** The click listener of the generate button, up to the [await]: the
    request it sends, if any. *)
Definition generate_click (s : State) : State * option Request :=
  match JSON_parse engine (configTextarea s) with
  | Throw message =>
      (after (showError (VStr ("Invalid JSON config: " ++ message))) s, None)
  | Normal config =>
      let strict := strictCheckbox s in
      let s' :=
        after (modify_surfaces (set_statusSection_hidden false);;
               modify_surfaces (set_resultsSection_hidden true);;
               modify_surfaces (set_errorSection_hidden true);;
               modify_surfaces (set_statusText "Processing... This may take 10-30 seconds.");;
               modify_surfaces (set_generateBtn_disabled true)) s in
      (s', Some (generateInvoice_request engine (poPdf s') (timesheetFiles s')
                   (templateFile s') config strict))
  end.

(** [result.errors?.join("\n") || "Unknown error"] *)
Definition error_list (result : JsVal) : Completion JsVal :=
  es ← Get engine result "errors";
  j ← optional_join engine es LF;
  js_or j (Normal (VStr "Unknown error")).

(** The click listener of the generate button, from the moment the request
    settles. *)
Definition generate_settle (outcome : FetchOutcome) : Js unit :=
  try_finally
    (try_catch
       (result ← eval (generateInvoice engine outcome);
        modify (set_lastResult result);;
        success ← eval (Get engine result "success");
        if truthy success then showResults result
        else (msg ← eval (error_list result); showError msg))
       (fun message => showError (VStr ("Request failed: " ++ message))))
    (modify_surfaces (set_statusSection_hidden true);;
     updateGenerateBtn).

(** [checkBackendHealth], from the moment the health request settles. *)
Definition checkBackendHealth (outcome : FetchOutcome) : Js unit :=
  healthy ← eval (checkHealth outcome);
  modify (set_healthDot ("health-dot " ++ (if healthy : bool then "healthy" else "unhealthy")));;
  modify (set_healthLabel (if healthy : bool then "API Connected" else "API Offline")).

End App.

(** ** The page under events *)

Inductive Event : Type :=
| SelectFiles (z : Zone) (files : list File)   (* a drop on the zone, or a change of its input *)
| ClickRemove (z : Zone) (k : nat)             (* the remove button of the k-th rendered item *)
| EditConfig (text : string)
| SetStrict (checked : bool)
| ClickGenerate
| Settle (k : nat) (outcome : FetchOutcome)    (* the k-th request in flight settles *)
| HealthSettle (outcome : FetchOutcome).       (* a health poll settles *)

(** The page and the generation requests that have been sent and have not
    settled. *)
Record World := mkWorld { page : State; in_flight : list Request }.

Section Events.

Context (engine : Engine).

Definition onFiles (z : Zone) : list File -> Js unit :=
  match z with
  | PoZone => po_onFiles engine
  | TsZone => ts_onFiles engine
  | TplZone => tpl_onFiles engine
  end.

(** One event. A disabled button does not receive clicks. *)
Definition step (w : World) (e : Event) : World :=
  let s := page w in
  match e with
  | SelectFiles z files => mkWorld (after (onFiles z files) s) (in_flight w)
  | ClickRemove z k =>
      match file_list z s !! k with
      | Some item => mkWorld (after (remove_click engine item) s) (in_flight w)
      | None => w
      end
  | EditConfig text => mkWorld (set_configTextarea text s) (in_flight w)
  | SetStrict checked => mkWorld (set_strictCheckbox checked s) (in_flight w)
  | ClickGenerate =>
      if generateBtn_disabled (surfaces s) then w
      else
        match generate_click engine s with
        | (s', Some request) => mkWorld s' (in_flight w ++ [request])
        | (s', None) => mkWorld s' (in_flight w)
        end
  | Settle k outcome =>
      match in_flight w !! k with
      | Some _ => mkWorld (after (generate_settle engine outcome) s) (delete k (in_flight w))
      | None => w
      end
  | HealthSettle outcome => mkWorld (after (checkBackendHealth outcome) s) (in_flight w)
  end.

Definition run (w : World) (events : list Event) : World := fold_left step events w.

End Events.

(** ** A reference engine

    An executable engine for the examples: [JSON.parse] and
    [JSON.stringify] after ECMA-404 on texts and strings given as UTF-8
    bytes, Numbers rounded to the nearest binary64 value, [Number::toString]
    by the shortest digits that read back as the same value, one wording
    for each kind of message, and a reader of the markup of a file item
    for names within a fragment of HTML. A numeral beyond the largest
    Number denotes an infinity, which has no representation here: the
    reference parser has no value for such a text. *)
Module Reference.

(** *** binary64 *)

Definition round_half_even (n d : Z) : Z :=
  let fl := n / d in
  let twice := 2 * (n mod d) in
  if twice <? d then fl
  else if d <? twice then fl + 1
  else fl + fl mod 2.

(** The binary64 value nearest to [n / d], for [0 <= n]. *)
Definition nearest_double (n : Z) (d : positive) : option Q :=
  if n <=? 0 then Some (0 # 1)%Q
  else
    let e := Z.log2 n - Z.log2 (Z.pos d) in
    let at_least := if 0 <=? e then Z.pos d * 2 ^ e <=? n else Z.pos d <=? n * 2 ^ (- e) in
    let E := if at_least then e else e - 1 in
    let q := Z.max (E - 52) (-1074) in
    let m := if 0 <=? q then round_half_even n (Z.pos d * 2 ^ q)
             else round_half_even (n * 2 ^ (- q)) (Z.pos d) in
    if 0 <=? q then
      if 2 ^ 1024 <=? m * 2 ^ q then None else Some (m * 2 ^ q # 1)%Q
    else Some (m # Z.to_pos (2 ^ (- q)))%Q.

Definition same_double (v : Q) (c : option Q) : bool :=
  match c with
  | Some w => Qeq_bool v w
  | None => false
  end.

(** *** Number::toString *)

(** The [n] with 10^(n-1) <= v < 10^n, searched from [n] downwards. *)
Fixpoint decimal_exponent (fuel : nat) (v : Q) (n : Z) : Z :=
  match fuel with
  | O => n
  | S fuel' =>
      if Qle_bool (10 ^ (n - 1))%Q v then n
      else decimal_exponent fuel' v (n - 1)
  end.

(** [s * 10^e] as a fraction. *)
Definition scaled (s e : Z) : Z * positive :=
  if 0 <=? e then (s * 10 ^ e, 1%positive) else (s, Z.to_pos (10 ^ (- e))).

Definition reads_back (v : Q) (s e : Z) : bool :=
  let '(n, d) := scaled s e in same_double v (nearest_double n d).

Definition distance (v : Q) (s e : Z) : Q :=
  let '(n, d) := scaled s e in Qabs (v - (n # d)).

(** The shortest digits [s], their number [k] and the exponent [n] with
    [s * 10^(n-k)] reading back as [v]; [k] is tried from the given one
    upwards, the nearer of two candidates wins, the even one on a tie. *)
Fixpoint shortest_digits (fuel : nat) (v : Q) (n : Z) (k : Z) : Z * Z * Z :=
  let e := n - k in
  let '(sn, sd) := scaled 1 e in
  let lo := Qfloor (v * (Z.pos sd # Z.to_pos sn)) in
  let hi := lo + 1 in
  let lo_ok := reads_back v lo e in
  let hi_ok := reads_back v hi e in
  let pick s := if s =? 10 ^ k then (1, 1, n + 1) else (s, k, n) in
  match fuel with
  | O => (lo, k, n)
  | S fuel' =>
      if lo_ok && hi_ok then
        match (distance v lo e ?= distance v hi e)%Q with
        | Lt => pick lo
        | Gt => pick hi
        | Eq => pick (if Z.even lo then lo else hi)
        end
      else if lo_ok then pick lo
      else if hi_ok then pick hi
      else shortest_digits fuel' v n (k + 1)
  end.

Definition Number_shortest (v : Q) : Z * Z :=
  let n0 := Z.log2 (Qnum v) / 3 + 2 in
  let '(s, k, n) := shortest_digits 17 v (decimal_exponent 700 v n0) 1 in
  (s, n - k).

Definition Number_toString (q : Q) : string :=
  if Qis_zero q then "0"
  else sign_text q ++ decimal_text (Number_shortest (Qabs q)).

(** *** JSON.parse *)

Definition code (c : ascii) : Z := Z.of_N (N_of_ascii c).
Definition char (n : Z) : ascii := ascii_of_N (Z.to_N n).

Definition is_space (c : ascii) : bool :=
  (code c =? 32) || (code c =? 9) || (code c =? 10) || (code c =? 13).

Fixpoint skip_space (l : list ascii) : list ascii :=
  match l with
  | c :: rest => if is_space c then skip_space rest else l
  | [] => []
  end.

Definition is_digit (c : ascii) : bool := (48 <=? code c) && (code c <=? 57).

Fixpoint span_digits (l : list ascii) : list ascii * list ascii :=
  match l with
  | c :: rest =>
      if is_digit c then let '(ds, tail) := span_digits rest in (c :: ds, tail)
      else ([], l)
  | [] => ([], [])
  end.

Definition decimal (ds : list ascii) : Z :=
  fold_left (fun acc c => 10 * acc + (code c - 48)) ds 0.

Definition nonempty {A} (l : list A) : option (list A) :=
  match l with
  | [] => None
  | _ => Some l
  end.

(** The integer part: a single zero, or digits that do not start with one. *)
Definition parse_int (l : list ascii) : option (list ascii * list ascii) :=
  match l with
  | c :: rest =>
      if code c =? 48 then Some ([c], rest)
      else let '(ds, tail) := span_digits l in ds' ← nonempty ds; Some (ds', tail)
  | [] => None
  end.

Definition parse_frac (l : list ascii) : option (list ascii * list ascii) :=
  match l with
  | c :: rest =>
      if code c =? 46 then let '(ds, tail) := span_digits rest in ds' ← nonempty ds; Some (ds', tail)
      else Some ([], l)
  | [] => Some ([], [])
  end.

Definition parse_exp (l : list ascii) : option (Z * list ascii) :=
  match l with
  | c :: rest =>
      if (code c =? 101) || (code c =? 69) then
        let '(negative, rest') :=
          match rest with
          | s :: r => if code s =? 45 then (true, r) else if code s =? 43 then (false, r) else (false, rest)
          | [] => (false, [])
          end in
        let '(ds, tail) := span_digits rest' in
        ds' ← nonempty ds;
        Some (if negative : bool then - decimal ds' else decimal ds', tail)
      else Some (0, l)
  | [] => Some (0, [])
  end.

Definition parse_number (l : list ascii) : option (JsVal * list ascii) :=
  let '(negative, l1) :=
    match l with
    | c :: rest => if code c =? 45 then (true, rest) else (false, l)
    | [] => (false, [])
    end in
  '(int, l2) ← parse_int l1;
  '(frac, l3) ← parse_frac l2;
  '(exp, l4) ← parse_exp l3;
  let '(n, d) := scaled (decimal (int ++ frac)) (exp - Z.of_nat (length frac)) in
  v ← nearest_double n d;
  Some (VNum (if negative : bool then Qopp v else v), l4).

Definition hex (c : ascii) : option Z :=
  let n := code c in
  if is_digit c then Some (n - 48)
  else if (97 <=? n) && (n <=? 102) then Some (n - 87)
  else if (65 <=? n) && (n <=? 70) then Some (n - 55)
  else None.

(** The UTF-8 bytes of a code unit, in reverse. *)
Definition utf8_rev (n : Z) : list ascii :=
  if n <? 128 then [char n]
  else if n <? 2048 then [char (128 + n mod 64); char (192 + n / 64)]
  else [char (128 + n mod 64); char (128 + (n / 64) mod 64); char (224 + n / 4096)].

Definition escape (c : ascii) : option ascii :=
  let n := code c in
  if (n =? 34) || (n =? 92) || (n =? 47) then Some c
  else if n =? 98 then Some (char 8)
  else if n =? 102 then Some (char 12)
  else if n =? 110 then Some (char 10)
  else if n =? 114 then Some (char 13)
  else if n =? 116 then Some (char 9)
  else None.

(** The characters of a string up to its closing quote. *)
Fixpoint parse_chars (l : list ascii) (acc : list ascii) : option (string * list ascii) :=
  match l with
  | [] => None
  | c :: rest =>
      if code c =? 34 then Some (string_of_list_ascii (rev acc), rest)
      else if code c <? 32 then None
      else if code c =? 92 then
        match rest with
        | e :: rest' =>
            match escape e with
            | Some x => parse_chars rest' (x :: acc)
            | None =>
                if code e =? 117 then
                  match rest' with
                  | h1 :: h2 :: h3 :: h4 :: rest'' =>
                      match hex h1, hex h2, hex h3, hex h4 with
                      | Some a, Some b, Some c, Some d =>
                          parse_chars rest'' (utf8_rev (4096 * a + 256 * b + 16 * c + d) ++ acc)
                      | _, _, _, _ => None
                      end
                  | _ => None
                  end
                else None
            end
        | [] => None
        end
      else parse_chars rest (c :: acc)
  end.

(** An array index as a property key: the digits of an integer below
    2^32 - 1, without a leading zero. *)
Definition array_index (k : string) : option Z :=
  match list_ascii_of_string k with
  | [] => None
  | c :: rest =>
      if forallb is_digit (c :: rest)
         && (negb (code c =? 48) || match rest with [] => true | _ => false end)
         && (decimal (c :: rest) <? 2 ^ 32 - 1)
      then Some (decimal (c :: rest))
      else None
  end.

Fixpoint replace_member (k : string) (v : JsVal) (fields : list (string * JsVal)) :=
  match fields with
  | [] => []
  | (k', v') :: rest =>
      if String.eqb k' k then (k, v) :: rest else (k', v') :: replace_member k v rest
  end.

(** The own properties of an object are listed with the array indices
    first, in ascending order, and the other keys after them in the order
    of their creation. *)
Fixpoint insert_member (k : string) (v : JsVal) (fields : list (string * JsVal)) :=
  match fields with
  | [] => [(k, v)]
  | (k', v') :: rest =>
      match array_index k, array_index k' with
      | Some n, Some n' =>
          if n <? n' then (k, v) :: fields else (k', v') :: insert_member k v rest
      | Some _, None => (k, v) :: fields
      | None, _ => (k', v') :: insert_member k v rest
      end
  end.

(** A later member of the same name replaces the value of the earlier. *)
Definition set_member (k : string) (v : JsVal) (fields : list (string * JsVal)) :=
  if existsb (fun e => String.eqb (fst e) k) fields then replace_member k v fields
  else insert_member k v fields.

Definition keyword (w : string) (l : list ascii) : option (list ascii) :=
  let n := String.length w in
  if String.eqb (string_of_list_ascii (take n l)) w then Some (drop n l) else None.

Fixpoint parse_value (fuel : nat) (l : list ascii) : option (JsVal * list ascii) :=
  match fuel with
  | O => None
  | S fuel' =>
      match skip_space l with
      | [] => None
      | c :: rest =>
          let n := code c in
          if n =? 110 then r ← keyword "ull" rest; Some (VNull, r)
          else if n =? 116 then r ← keyword "rue" rest; Some (VBool true, r)
          else if n =? 102 then r ← keyword "alse" rest; Some (VBool false, r)
          else if n =? 34 then '(s, r) ← parse_chars rest []; Some (VStr s, r)
          else if n =? 91 then
            match skip_space rest with
            | c' :: rest' =>
                if code c' =? 93 then Some (VArr [], rest')
                else '(vs, r) ← parse_elements fuel' (c' :: rest'); Some (VArr vs, r)
            | [] => None
            end
          else if n =? 123 then
            match skip_space rest with
            | c' :: rest' =>
                if code c' =? 125 then Some (VObj [], rest')
                else '(ms, r) ← parse_members fuel' (c' :: rest') []; Some (VObj ms, r)
            | [] => None
            end
          else parse_number (c :: rest)
      end
  end
with parse_elements (fuel : nat) (l : list ascii) : option (list JsVal * list ascii) :=
  match fuel with
  | O => None
  | S fuel' =>
      '(v, r) ← parse_value fuel' l;
      match skip_space r with
      | c :: rest =>
          if code c =? 44 then '(vs, r') ← parse_elements fuel' rest; Some (v :: vs, r')
          else if code c =? 93 then Some ([v], rest)
          else None
      | [] => None
      end
  end
with parse_members (fuel : nat) (l : list ascii) (acc : list (string * JsVal))
    : option (list (string * JsVal) * list ascii) :=
  match fuel with
  | O => None
  | S fuel' =>
      match skip_space l with
      | q :: rest =>
          if code q =? 34 then
            '(k, r) ← parse_chars rest [];
            match skip_space r with
            | colon :: r1 =>
                if code colon =? 58 then
                  '(v, r2) ← parse_value fuel' r1;
                  let acc' := set_member k v acc in
                  match skip_space r2 with
                  | c :: r3 =>
                      if code c =? 44 then parse_members fuel' r3 acc'
                      else if code c =? 125 then Some (acc', r3)
                      else None
                  | [] => None
                  end
                else None
            | [] => None
            end
          else None
      | [] => None
      end
  end.

(** The engine words every syntax error the same way. *)
Definition JSON_parse (text : string) : Completion JsVal :=
  let l := list_ascii_of_string text in
  match parse_value (2 * length l + 2) l with
  | Some (v, rest) =>
      match skip_space rest with
      | [] => Normal v
      | _ => Throw "Unexpected token in JSON"
      end
  | None => Throw "Unexpected token in JSON"
  end.

(** *** JSON.stringify *)

Definition hex_digit (n : Z) : ascii := if n <? 10 then char (48 + n) else char (87 + n).

Definition quote_char (c : ascii) : list ascii :=
  let n := code c in
  let backslash := char 92 in
  if (n =? 34) || (n =? 92) then [backslash; c]
  else if n =? 8 then [backslash; char 98]
  else if n =? 12 then [backslash; char 102]
  else if n =? 10 then [backslash; char 110]
  else if n =? 13 then [backslash; char 114]
  else if n =? 9 then [backslash; char 116]
  else if n <? 32 then [backslash; char 117; char 48; char 48; hex_digit (n / 16); hex_digit (n mod 16)]
  else [c].

Definition quote (s : string) : string :=
  string_of_list_ascii ([char 34] ++ concat (quote_char <$> list_ascii_of_string s) ++ [char 34]).

Fixpoint JSON_stringify (v : JsVal) : string :=
  match v with
  | VUndefined => "undefined"
  | VNull => "null"
  | VBool b => if b then "true" else "false"
  | VNum q => Number_toString q
  | VStr s => quote s
  | VArr l =>
      "[" ++ String.concat ","
               ((fix elements (l : list JsVal) : list string :=
                   match l with
                   | [] => []
                   | x :: rest =>
                       (match x with VUndefined => "null" | _ => JSON_stringify x end)
                         :: elements rest
                   end) l) ++ "]"
  | VObj fields =>
      "{" ++ String.concat ","
               ((fix members (fields : list (string * JsVal)) : list string :=
                   match fields with
                   | [] => []
                   | (k, x) :: rest =>
                       match x with
                       | VUndefined => members rest
                       | _ => (quote k ++ ":" ++ JSON_stringify x) :: members rest
                       end
                   end) fields) ++ "}"
  end.

Definition TypeError_message (at_ : TypeErrorAt) : string :=
  match at_ with
  | ReadOfNull property =>
      "Cannot read properties of null (reading '" ++ property ++ "')"
  | ReadOfUndefined property =>
      "Cannot read properties of undefined (reading '" ++ property ++ "')"
  | NotAFunction method => method ++ " is not a function"
  | NotIterable => "object is not iterable"
  | NoPrimitive => "Cannot convert object to primitive value"
  end.

(** *** The markup of a file item

    The reference reader takes the text of a name as the HTML tokenizer
    does within this fragment: NUL is dropped and a carriage return is read
    as a line feed; a [<] that opens nothing (the next character is no
    letter and none of [/], [!], [?]) and an [&] that starts no character
    reference (the next character is no letter, digit or [#]) stand for
    themselves; [&amp;], [&lt;], [&gt;] and [&quot;] are decoded. A comment
    that the name opens with [<!--] and does not close runs to the end of
    the markup and takes the remove button with it. The reader does not
    read tags, declarations and other references: for a name with one of
    them it answers as for a lost button. *)

Definition is_letter (c : ascii) : bool :=
  ((65 <=? code c) && (code c <=? 90)) || ((97 <=? code c) && (code c <=? 122)).

Definition opens_markup (c : ascii) : bool :=
  is_letter c || (code c =? 47) || (code c =? 33) || (code c =? 63).

Definition known_references : list (string * Z) :=
  [("amp;", 38); ("lt;", 60); ("gt;", 62); ("quot;", 34)].

Fixpoint reference (table : list (string * Z)) (l : list ascii) : option (ascii * list ascii) :=
  match table with
  | [] => None
  | (w, n) :: rest =>
      match keyword w l with
      | Some tail => Some (char n, tail)
      | None => reference rest l
      end
  end.

Fixpoint name_text (fuel : nat) (l : list ascii) : option (list ascii) :=
  match fuel, l with
  | _, [] => Some []
  | O, _ => None
  | S fuel', c :: rest =>
      if code c =? 0 then name_text fuel' rest
      else if code c =? 13 then
        match rest with
        | c' :: _ => if code c' =? 10 then name_text fuel' rest
                     else t ← name_text fuel' rest; Some (char 10 :: t)
        | [] => Some [char 10]
        end
      else if code c =? 60 then
        match rest with
        | c' :: _ => if opens_markup c' then None
                     else t ← name_text fuel' rest; Some (c :: t)
        | [] => Some [c]
        end
      else if code c =? 38 then
        match rest with
        | c' :: _ =>
            if is_letter c' || is_digit c' || (code c' =? 35) then
              '(x, tail) ← reference known_references rest;
              t ← name_text fuel' tail; Some (x :: t)
            else t ← name_text fuel' rest; Some (c :: t)
        | [] => Some [c]
        end
      else t ← name_text fuel' rest; Some (c :: t)
  end.

Definition innerHTML_file_item (name size : string) : option (string * string) :=
  let l := list_ascii_of_string name in
  t ← name_text (length l) l;
  Some (string_of_list_ascii t, size).

Definition engine : Engine :=
  mkEngine JSON_parse JSON_stringify Number_shortest TypeError_message innerHTML_file_item.

End Reference.

(** ** Fixtures of the examples *)

(** The page as it loads, before any event: the variables as the UI logic
    initialises them; the markup is assumed to start with the button
    disabled and the status, result and error sections hidden. *)
Definition loaded_page : State :=
  mkState None [] None VNull [] [] [] "" false
    (mkSurfaces true true "" true true "")
    (mkResultsView "" "" "" "" "" "" "" [] None None)
    "health-dot" "".

Definition loaded : World := mkWorld loaded_page [].

Definition sheet_a : File := mkFile "a.pdf" 2048.
Definition sheet_b : File := mkFile "b.pdf" 4096.
Definition sheet_c : File := mkFile "c.pdf" 1572864.

(** The page with a purchase order, one timesheet and a template selected,
    and the given configuration text. *)
Definition ready_world (config : string) : World :=
  run Reference.engine loaded
    [ SelectFiles PoZone [mkFile "po.pdf" 300000];
      SelectFiles TsZone [sheet_a];
      SelectFiles TplZone [mkFile "template.xlsx" 20000];
      EditConfig config ].

(** A response of the backend for one engineer. *)
Definition sample_engineer : JsVal :=
  VObj [("name", VStr "Ada"); ("category", VStr "senior"); ("total_cost", VNum 1234.5);
        ("normal_hours", VNum 32); ("normal_rate", VNum 25); ("normal_cost", VNum 800);
        ("ot_hours", VNum 6); ("ot_rate", VNum 50); ("ot_cost", VNum 300);
        ("hot_hours", VNum 2); ("hot_rate", VNum 67.25); ("hot_cost", VNum 134.5)].

Definition sample_summary : list (string * JsVal) :=
  [("grand_total_usd", VNum 1234.5); ("contract_number", VStr "C-17");
   ("total_hours", VNum 40); ("total_engineers", VNum 1);
   ("total_normal_hours", VNum 32); ("total_ot_hours", VNum 6);
   ("total_hot_hours", VNum 2)].

Definition sample_result : list (string * JsVal) :=
  [("success", VBool true); ("summary", VObj sample_summary);
   ("engineers", VArr [sample_engineer]); ("excel_base64", VStr "UEsDBA==");
   ("audit", VObj [])].

Definition sample_success : FetchOutcome :=
  Fulfilled (mkResponse 200 (Normal (VObj sample_result))).

(** A response that reports what is wrong with the documents. *)
Definition rejected_result : JsVal :=
  VObj [("success", VBool false); ("errors", VArr [VStr "A"; VStr "B"])].

(** The same report under a status that is not ok. *)
Definition validation_failure : FetchOutcome :=
  Fulfilled (mkResponse 422
               (Normal (VObj [("success", VBool false);
                              ("errors", VArr [VStr "PO number missing"])]))).

(** A report whose only error is the empty string. *)
Definition empty_error : JsVal :=
  VObj [("success", VBool false); ("errors", VArr [VStr ""])].

(** ** Vocabulary of the properties *)

(** [c] does not change the part [proj] of the state, however it completes. *)
Definition frames {B : Type} (proj : State -> B) {A : Type} (c : Js A) : Prop :=
  forall s, proj (fst (c s)) = proj s.

(** The property [k] of an error body is absent or falsy. *)
Definition falsy (fields : list (string * JsVal)) (k : string) : Prop :=
  truthy (default VUndefined (own_property fields k)) = false.

(** The text of a value as the message of an error shows it, or the
    message of the [TypeError] when the value has no text. *)
Definition shown_text (engine : Engine) (v : JsVal) : string :=
  match ToString engine v with
  | Normal t => t
  | Throw m => m
  end.

(** The message that names the status code. *)
Definition status_message (engine : Engine) (response : Response) : string :=
  "HTTP " ++ Number_text engine (inject_Z (status response)).

(** The fallback chain in the words of the specification: the detail of the
    JSON error body if present, otherwise the message that names the status
    code; the raw message when the call fails without a response. *)
Definition documented_failure_message (engine : Engine) (outcome : FetchOutcome) : string :=
  match outcome with
  | Rejected m => m
  | Fulfilled response =>
      match body_json response with
      | Normal (VObj fields) =>
          match own_property fields "detail" with
          | Some d => shown_text engine d
          | None => status_message engine response
          end
      | _ => status_message engine response
      end
  end.

(** The fallback chain as amended, for a response whose status is not ok:
    the [detail] of the JSON error body when it is truthy, as text;
    otherwise the [errors] of the body when they are a list whose texts,
    joined by line feeds, are not empty; otherwise the message that names
    the status code. The last also stands in when the body is no JSON or
    no object, and when the [errors] are no list or have no text. *)
Definition error_body_message (engine : Engine) (response : Response) : string :=
  match body_json response with
  | Normal (VObj fields) =>
      let detail := default VUndefined (own_property fields "detail") in
      if truthy detail then shown_text engine detail
      else
        match own_property fields "errors" with
        | Some (VArr l) =>
            match Array_join engine l LF with
            | Normal joined =>
                if String.eqb joined "" then status_message engine response else joined
            | Throw _ => status_message engine response
            end
        | _ => status_message engine response
        end
  | _ => status_message engine response
  end.

(** The message of a failed generation call as amended: the message of the
    exception when [fetch] rejects or the body of an ok response cannot be
    read, the message of the error body for a status that is not ok; none
    when the call returns a result. *)
Definition amended_failure_message (engine : Engine) (outcome : FetchOutcome) : option string :=
  match outcome with
  | Rejected m => Some m
  | Fulfilled response =>
      if ok response then
        match body_json response with
        | Normal _ => None
        | Throw m => Some m
        end
      else Some (error_body_message engine response)
  end.

(** The text of [result.errors?.join("\n") || "Unknown error"] for a list of
    error strings. *)
Definition reported_text (errors : list string) : string :=
  let joined := String.concat LF errors in
  if String.eqb joined "" then "Unknown error" else joined.

(** The result section and the error banner are not both shown. *)
Definition exclusive (s : State) : Prop :=
  resultsSection_hidden (surfaces s) = true \/ errorSection_hidden (surfaces s) = true.

(** The two class lists. *)
Definition hidden_flags (s : State) : bool * bool :=
  (resultsSection_hidden (surfaces s), errorSection_hidden (surfaces s)).

(** A call of one of the two operations that show a surface. *)
Inductive Show : Type :=
| ShowResults (result : JsVal)
| ShowError (msg : JsVal).

Definition show (engine : Engine) (s : State) (op : Show) : State :=
  match op with
  | ShowResults result => after (showResults engine result) s
  | ShowError msg => after (showError engine msg) s
  end.

(** ** The multipart form *)

(** A value of a form entry: a file, or a text. *)
Inductive FormValue : Type :=
| FormFile (f : File)
| FormText (s : string).

(** [formData.append(name, v)] for a slot: a file is appended as it is,
    [null] as the text of [null]. *)
Definition form_slot (o : option File) : FormValue :=
  match o with
  | Some f => FormFile f
  | None => FormText "null"
  end.

(** The entries [generateInvoice] appends, in the order it appends them. *)
Definition generateInvoice_formData (engine : Engine) (poPdf : option File)
    (timesheets : list File) (template : option File) (engineerConfig : JsVal)
    (strict : bool) : list (string * FormValue) :=
  [("po_pdf", form_slot poPdf)]
    ++ ((fun ts => ("timesheets", FormFile ts)) <$> timesheets)
    ++ [("template", form_slot template);
        ("engineer_config", FormText (JSON_stringify engine engineerConfig));
        ("strict", FormText (if strict then "true" else "false"))].

(** [formData.getAll(name)] *)
Definition getAll (name : string) (entries : list (string * FormValue)) : list FormValue :=
  omap (fun e => if String.eqb (fst e) name then Some (snd e) else None) entries.

(** ** A response as the backend documents it *)

Record HoursData := mkHoursData { hours_worked : Q; hours_rate : Q; hours_cost : Q }.

Record EngineerData := mkEngineerData {
  eng_name : string;
  eng_category : string;
  eng_total_cost : Q;
  eng_normal : HoursData;
  eng_overtime : HoursData;
  eng_hot : HoursData;
}.

Record SummaryData := mkSummaryData {
  sum_grand_total_usd : Q;
  sum_contract_number : string;
  sum_total_hours : Q;
  sum_total_engineers : Q;
  sum_total_normal_hours : Q;
  sum_total_ot_hours : Q;
  sum_total_hot_hours : Q;
}.

Definition has_number (fields : list (string * JsVal)) (k : string) (q : Q) : Prop :=
  own_property fields k = Some (VNum q).

Definition has_string (fields : list (string * JsVal)) (k : string) (t : string) : Prop :=
  own_property fields k = Some (VStr t).

(** The object has the three Numbers of an hour category. *)
Definition has_hours (fields : list (string * JsVal)) (hours rate cost : string)
    (h : HoursData) : Prop :=
  has_number fields hours (hours_worked h) /\
  has_number fields rate (hours_rate h) /\
  has_number fields cost (hours_cost h).

(** The value is an object with the properties of an engineer record;
    further properties are allowed. *)
Definition is_engineer (v : JsVal) (e : EngineerData) : Prop :=
  exists fields,
    v = VObj fields /\
    has_string fields "name" (eng_name e) /\
    has_string fields "category" (eng_category e) /\
    has_number fields "total_cost" (eng_total_cost e) /\
    has_hours fields "normal_hours" "normal_rate" "normal_cost" (eng_normal e) /\
    has_hours fields "ot_hours" "ot_rate" "ot_cost" (eng_overtime e) /\
    has_hours fields "hot_hours" "hot_rate" "hot_cost" (eng_hot e).

Definition is_summary (v : JsVal) (d : SummaryData) : Prop :=
  exists fields,
    v = VObj fields /\
    has_number fields "grand_total_usd" (sum_grand_total_usd d) /\
    has_string fields "contract_number" (sum_contract_number d) /\
    has_number fields "total_hours" (sum_total_hours d) /\
    has_number fields "total_engineers" (sum_total_engineers d) /\
    has_number fields "total_normal_hours" (sum_total_normal_hours d) /\
    has_number fields "total_ot_hours" (sum_total_ot_hours d) /\
    has_number fields "total_hot_hours" (sum_total_hot_hours d).

(** [text] is the en-US text of an amount: a minus sign if asked for, and
    the thousandths [N] nearest to the magnitude [d], the larger of two:
    the whole part with a comma at every fourth place from the right, a
    point, and the hundredths in two digits, or the thousandths in three
    when the third is not zero. *)
Definition amount_text (negative : bool) (d : Q) (text : string) : Prop :=
  exists N : Z,
    0 <= N /\
    (inject_Z N - (1 # 2) <= 1000 * d)%Q /\
    (1000 * d < inject_Z N + (1 # 2))%Q /\
    text = (if negative then "-" else "") ++ grouped (digits (N / 1000)) ++ "." ++
           (if N mod 10 =? 0 then digits_fixed 2 (N mod 1000 / 10)
            else digits_fixed 3 (N mod 1000)).

(** [text] is a minus sign if asked for and the digits of the integer [N]
    nearest to the magnitude [d], the larger of two. *)
Definition whole_text (negative : bool) (d : Q) (text : string) : Prop :=
  exists N : Z,
    0 <= N /\
    (inject_Z N - (1 # 2) <= d)%Q /\
    (d < inject_Z N + (1 # 2))%Q /\
    text = (if negative then "-" else "") ++ digits N.

Section Rendered.

Context (engine : Engine).

(** The row [engineer_row] builds from the three Numbers. *)
Definition row_of (h : HoursData) : Row :=
  mkRow (Number_text engine (hours_worked h))
        ("$" ++ Number_toFixed engine (hours_rate h) 2)
        ("$" ++ Number_toLocaleString engine (hours_cost h)).

Definition card_of (e : EngineerData) : Card :=
  mkCard (eng_name e) (eng_category e) ("$" ++ Number_toLocaleString engine (eng_total_cost e))
    (row_of (eng_normal e)) (row_of (eng_overtime e)) (row_of (eng_hot e)).

(** The result view of a summary, a list of engineers and the result the
    download buttons save. *)
Definition view_of (d : SummaryData) (es : list EngineerData) (result : JsVal) : ResultsView :=
  mkResultsView
    ("$" ++ Number_toLocaleString engine (sum_grand_total_usd d))
    (sum_contract_number d)
    (Number_toFixed engine (sum_total_hours d) 0)
    (Number_text engine (sum_total_engineers d))
    (Number_toFixed engine (sum_total_normal_hours d) 0)
    (Number_toFixed engine (sum_total_ot_hours d) 0)
    (Number_toFixed engine (sum_total_hot_hours d) 0)
    (card_of <$> es)
    (Some result) (Some result).

End Rendered.

(** The sample response, as data. *)
Definition sample_engineer_data : EngineerData :=
  mkEngineerData "Ada" "senior" 1234.5
    (mkHoursData 32 25 800) (mkHoursData 6 50 300) (mkHoursData 2 67.25 134.5).

Definition sample_summary_data : SummaryData :=
  mkSummaryData 1234.5 "C-17" 40 1 32 6 2.

(** ** Rendered lists *)

Section Invariants.

Context (engine : Engine).

(** The items a pass of [renderFileList] over [files] appends from the
    index [i] on, and how the pass completes. *)
Fixpoint rendered (i : nat) (files : list (option File)) (onRemove : Callback)
    : list FileItem * Completion unit :=
  match files with
  | [] => ([], Normal tt)
  | None :: rest => rendered (S i) rest onRemove
  | Some f :: rest =>
      match render_item engine i f onRemove with
      | Normal item =>
          let '(items, c) := rendered (S i) rest onRemove in (item :: items, c)
      | Throw m => ([], Throw m)
      end
  end.

(** The markup of every file of the list keeps its remove button. *)
Definition all_render (files : list (option File)) : Prop :=
  forall j f, files !! j = Some (Some f) -> file_item_texts engine f <> None.

Definition plain_name (f : File) : Prop := markup_free (name f) = true.

(** ** Invariants of the page *)

(** The list of a single-file slot shows what a rendering of the file in
    the slot shows: one item, or nothing when the markup of the name has
    lost the remove button; and nothing when the slot is empty. *)
Definition slot_shown (o : option File) (onRemove : Callback) (l : list FileItem) : Prop :=
  l = match o with
      | Some f => fst (rendered 0 [Some f] onRemove)
      | None => []
      end.

Definition slots_in_sync (s : State) : Prop :=
  slot_shown (poPdf s) PoRemove (poFileList s) /\
  slot_shown (templateFile s) TplRemove (tplFileList s).

(** What an item shows of its file: a name and a size. *)
Definition shown_of_item (item : FileItem) : string * string := (item_name item, item_size item).

(** Every timesheet held is shown, in the order held; the page may show
    more. *)
Definition held_is_shown (s : State) : Prop :=
  sublist (file_item_texts engine <$> timesheetFiles s)
    (Some ∘ shown_of_item <$> tsFileList s).

End Invariants.

(** The timesheets an event selects have plain names. *)
Definition selects_plain_timesheets (e : Event) : Prop :=
  match e with
  | SelectFiles TsZone files => Forall plain_name files
  | _ => True
  end.

(** ** Readiness of the selection *)

Definition ready (s : State) : Prop :=
  poPdf s <> None /\ templateFile s <> None /\ timesheetFiles s <> [].

Definition enabled (s : State) : Prop := generateBtn_disabled (surfaces s) = false.

(** The events whose handler ends with [updateGenerateBtn]: a selection
    that is rendered in full (of the timesheets, or of at least one file),
    a click on a remove button of the purchase order or of the template,
    and a generation request that settles. *)
Definition recomputes (engine : Engine) (w : World) (e : Event) : Prop :=
  match e with
  | SelectFiles z files =>
      (z = TsZone \/ files <> []) /\ snd (onFiles engine z files (page w)) = Normal tt
  | ClickRemove z k =>
      exists item, file_list z (page w) !! k = Some item /\
                   (item_onRemove item = PoRemove \/ item_onRemove item = TplRemove)
  | Settle k _ => is_Some (in_flight w !! k)
  | _ => False
  end.

(** [c] establishes [P] whenever it completes normally. *)
Definition ensures {A : Type} (P : State -> Prop) (c : Js A) : Prop :=
  forall s s' a, c s = (s', Normal a) -> P s'.

(** What the page shows of a generation attempt, and the result it keeps. *)
Definition attempt_part (s : State) : bool * bool * string * ResultsView * JsVal :=
  (resultsSection_hidden (surfaces s), errorSection_hidden (surfaces s),
   errorText (surfaces s), view s, lastResult s).

(** While the result section is shown, both download buttons save the
    stored result. *)
Definition downloads_bound (s : State) : Prop :=
  resultsSection_hidden (surfaces s) = false ->
  dl_excel (view s) = Some (lastResult s) /\ dl_audit (view s) = Some (lastResult s).

(** While the error banner is shown, it has a text. *)
Definition banner_filled (s : State) : Prop :=
  errorSection_hidden (surfaces s) = false -> errorText (surfaces s) <> "".

(** * Properties *)

(** ** The reference engine at work *)

Example parse_empty_object : JSON_parse Reference.engine "{}" = Normal (VObj []).
Proof. reflexivity. Qed.

Example parse_unclosed_object :
  JSON_parse Reference.engine "{" = Throw "Unexpected token in JSON".
Proof. reflexivity. Qed.

Example parse_and_stringify_numbers :
  JSON_stringify Reference.engine <$> JSON_parse Reference.engine "[1234.5, -3e2, 0.1, 1e21]"
  = Normal "[1234.5,-300,0.1,1e+21]".
Proof. vm_compute. reflexivity. Qed.

Example stringify_object :
  JSON_stringify Reference.engine (VObj [("rates", VArr [VNum 25; VNull; VBool true])])
  = "{" ++ Reference.quote "rates" ++ ":[25,null,true]}".
Proof. vm_compute. reflexivity. Qed.

(** The members of a parsed object are listed with the array indices
    first; a repeated member keeps its place and takes the later value. *)
Example parse_orders_members :
  let q := Reference.quote in
  JSON_stringify Reference.engine
    <$> JSON_parse Reference.engine
          ("{" ++ q "b" ++ ":1," ++ q "10" ++ ":2," ++ q "a" ++ ":3," ++ q "2" ++ ":4,"
               ++ q "b" ++ ":5," ++ q "07" ++ ":6}")
  = Normal ("{" ++ q "2" ++ ":4," ++ q "10" ++ ":2," ++ q "b" ++ ":5," ++ q "a" ++ ":3,"
                ++ q "07" ++ ":6}").
Proof. vm_compute. reflexivity. Qed.

(** A name that is plain text is shown as it stands; a character reference
    in a name is decoded; a [<] before a digit opens nothing; a comment that
    the name opens swallows the remove button. *)
Example file_item_markup :
  file_item_texts Reference.engine
    <$> [mkFile "a.pdf" 2048; mkFile "R&amp;D.pdf" 2048; mkFile "a<3.pdf" 2048;
         mkFile "a<!--b.pdf" 2048]
  = [Some ("a.pdf", "2.0 KB"); Some ("R&D.pdf", "2.0 KB"); Some ("a<3.pdf", "2.0 KB"); None].
Proof. vm_compute. reflexivity. Qed.

(** Three timesheets are dropped on the ready page and the second has a
    name that swallows the remove button: the three are held, the first
    (after the one held before) is shown, the handler throws, and the
    generate button is not recomputed. *)
Example broken_name_stops_rendering :
  let w := step Reference.engine (ready_world "{}") (ClickRemove TsZone 0) in
  let dropped := [sheet_b; mkFile "a<!--b.pdf" 10; sheet_c] in
  let s' := page (step Reference.engine w (SelectFiles TsZone dropped)) in
  timesheetFiles (page w) = [] /\
  timesheetFiles s' = dropped /\
  tsFileList s' = [mkFileItem "b.pdf" "4.0 KB" 0 TsRemove] /\
  snd (onFiles Reference.engine TsZone dropped (page w))
  = Throw "Cannot read properties of null (reading 'addEventListener')" /\
  generateBtn_disabled (surfaces s') = generateBtn_disabled (surfaces (page w)).
Proof. vm_compute. repeat split. Qed.

(** ** What a statement leaves alone *)

Section Frames.

Context {B : Type} (proj : State -> B).

Lemma frames_ret {A} (a : A) : frames proj (mret a).
Proof. intros s. reflexivity. Qed.

Lemma frames_eval {A} (c : Completion A) : frames proj (eval c).
Proof. intros s. reflexivity. Qed.

Lemma frames_read {A} (f : State -> A) : frames proj (read f).
Proof. intros s. reflexivity. Qed.

Lemma frames_modify (f : State -> State) :
  (forall s, proj (f s) = proj s) -> frames proj (modify f).
Proof. intros Hf s. apply Hf. Qed.

Lemma frames_bind {A C} (c : Js A) (k : A -> Js C) :
  frames proj c -> (forall a, frames proj (k a)) -> frames proj (c ≫= k).
Proof.
  intros Hc Hk s. unfold mbind, Js_bind.
  specialize (Hc s). destruct (c s) as [s' [a | m]]; simpl in *.
  - rewrite Hk. exact Hc.
  - exact Hc.
Qed.

Lemma frames_try_catch {A} (body : Js A) (handler : string -> Js A) :
  frames proj body -> (forall m, frames proj (handler m)) -> frames proj (try_catch body handler).
Proof.
  intros Hb Hh s. unfold try_catch.
  specialize (Hb s). destruct (body s) as [s' [a | m]]; simpl in *.
  - exact Hb.
  - rewrite Hh. exact Hb.
Qed.

Lemma frames_try_finally {A} (body : Js A) (cleanup : Js unit) :
  frames proj body -> frames proj cleanup -> frames proj (try_finally body cleanup).
Proof.
  intros Hb Hc s. unfold try_finally.
  specialize (Hb s). destruct (body s) as [s' c].
  specialize (Hc s'). destruct (cleanup s') as [s'' [u | m]]; simpl in *; congruence.
Qed.

Lemma frames_after {A} (c : Js A) (s : State) : frames proj c -> proj (after c s) = proj s.
Proof. intros H. apply H. Qed.

End Frames.

Lemma bind_modify {A} (f : State -> State) (k : unit -> Js A) (s : State) :
  (modify f ≫= k) s = k tt (f s).
Proof. reflexivity. Qed.

Lemma bind_eval_Normal {A C} (a : A) (k : A -> Js C) (s : State) :
  (eval (Normal a) ≫= k) s = k a s.
Proof. reflexivity. Qed.

Lemma bind_eval_Throw {A C} (m : string) (k : A -> Js C) (s : State) :
  (eval (Throw m) ≫= k) s = (s, Throw m).
Proof. reflexivity. Qed.

Lemma bind_read {A C} (f : State -> A) (k : A -> Js C) (s : State) :
  (read f ≫= k) s = k (f s) s.
Proof. reflexivity. Qed.

Lemma bind_result {A C} (c : Js A) (k : A -> Js C) (s s' : State) (a : A) :
  c s = (s', Normal a) -> (c ≫= k) s = k a s'.
Proof. intros H. unfold mbind, Js_bind. rewrite H. reflexivity. Qed.

Lemma bind_thrown {A C} (c : Js A) (k : A -> Js C) (s s' : State) (m : string) :
  c s = (s', Throw m) -> (c ≫= k) s = (s', Throw m).
Proof. intros H. unfold mbind, Js_bind. rewrite H. reflexivity. Qed.

Lemma ensures_bind {A C} (P : State -> Prop) (c : Js A) (k : A -> Js C) :
  (forall a, ensures P (k a)) -> ensures P (c ≫= k).
Proof.
  intros Hk s s' b H. unfold mbind, Js_bind in H.
  destruct (c s) as [s1 [a | m] ]; [ | discriminate H]. exact (Hk a s1 s' b H).
Qed.

(** ** Rendering a list of files *)

Lemma set_file_list_same (z : Zone) (s : State) : set_file_list z (file_list z s) s = s.
Proof. destruct z, s; reflexivity. Qed.

Lemma set_file_list_twice (z : Zone) (l l' : list FileItem) (s : State) :
  set_file_list z l (set_file_list z l' s) = set_file_list z l s.
Proof. destruct z; reflexivity. Qed.

Lemma file_list_set (z : Zone) (l : list FileItem) (s : State) :
  file_list z (set_file_list z l s) = l.
Proof. destruct z; reflexivity. Qed.

(** The loop appends the items of [rendered] and completes as it does. *)
Lemma append_items_rendered (engine : Engine) (z : Zone) (files : list (option File)) :
  forall (i : nat) (cb : Callback) (s : State),
    append_items engine z i files cb s =
    (set_file_list z (file_list z s ++ fst (rendered engine i files cb)) s,
     snd (rendered engine i files cb)).
Proof.
  induction files as [ | [f | ] files IH]; intros i cb s; cbn [append_items rendered].
  - cbn [fst snd]. rewrite app_nil_r, set_file_list_same. reflexivity.
  - destruct (render_item engine i f cb) as [item | m].
    + rewrite bind_eval_Normal, bind_modify, IH.
      destruct (rendered engine (S i) files cb) as [items c]. cbn [fst snd].
      rewrite file_list_set, set_file_list_twice, <- app_assoc. reflexivity.
    + rewrite bind_eval_Throw. cbn [fst snd].
      rewrite app_nil_r, set_file_list_same. reflexivity.
  - apply IH.
Qed.

Lemma renderFileList_rendered (engine : Engine) (z : Zone) (files : list (option File))
    (cb : Callback) (s : State) :
  renderFileList engine z files cb s =
  (set_file_list z (fst (rendered engine 0 files cb)) s, snd (rendered engine 0 files cb)).
Proof.
  unfold renderFileList. rewrite bind_modify, append_items_rendered.
  rewrite file_list_set, set_file_list_twice. reflexivity.
Qed.

(** A rendering writes its container, and nothing else. *)
Lemma renderFileList_frames {B : Type} (proj : State -> B) (engine : Engine) (z : Zone)
    (files : list (option File)) (cb : Callback) :
  (forall l s, proj (set_file_list z l s) = proj s) ->
  frames proj (renderFileList engine z files cb).
Proof. intros H s. rewrite renderFileList_rendered. apply H. Qed.

(** Files whose markup keeps the remove button are all rendered: one item
    per file, bound to the index of the file. *)
Lemma rendered_texts (engine : Engine) (cb : Callback) (files : list File)
    (texts : list (string * string)) :
  Forall2 (fun f t => file_item_texts engine f = Some t) files texts ->
  forall i,
    rendered engine i (Some <$> files) cb
    = (imap (fun j t => mkFileItem (fst t) (snd t) (i + j) cb) texts, Normal tt).
Proof.
  induction 1 as [ | f t files texts Hf _ IH]; intros i; [reflexivity | ].
  cbn [fmap list_fmap rendered]. unfold render_item. rewrite Hf. destruct t as [n sz].
  change (list_fmap File (option File) Some files) with (Some <$> files).
  rewrite IH, imap_cons. cbn [fst snd]. rewrite Nat.add_0_r. do 2 f_equal.
  apply imap_ext. intros j x _. cbn. f_equal. lia.
Qed.

Lemma plain_name_texts (engine : Engine) (f : File) :
  plain_name f -> file_item_texts engine f = Some (name f, size_label engine f).
Proof. unfold plain_name, file_item_texts. intros ->. reflexivity. Qed.

Lemma plain_names_texts (engine : Engine) (files : list File) :
  Forall plain_name files ->
  Forall2 (fun f t => file_item_texts engine f = Some t) files
    ((fun f => (name f, size_label engine f)) <$> files).
Proof.
  induction 1 as [ | f files Hf _ IH]; constructor; [ | exact IH].
  apply plain_name_texts. exact Hf.
Qed.

(** Files with plain names are shown as they are named. *)
Lemma rendered_plain (engine : Engine) (cb : Callback) (files : list File) (i : nat) :
  Forall plain_name files ->
  rendered engine i (Some <$> files) cb
  = (imap (fun j f => mkFileItem (name f) (size_label engine f) (i + j) cb) files, Normal tt).
Proof.
  intros H. rewrite (rendered_texts engine cb files _ (plain_names_texts engine files H)).
  rewrite imap_fmap. reflexivity.
Qed.

Create HintDb frame discriminated.

#[export] Hint Resolve frames_ret frames_eval frames_read frames_bind frames_try_catch
  frames_try_finally : frame.

(** Walks through a statement; what it finds written must leave [proj]
    alone by computation or by a hypothesis. *)
Ltac frame_step :=
  lazymatch goal with
  | |- frames _ (mret _) => apply frames_ret
  | |- frames _ (eval _) => apply frames_eval
  | |- frames _ (read _) => apply frames_read
  | |- frames _ (mbind _ _) => apply frames_bind; [ | intros ? ]
  | |- frames _ (try_catch _ _) => apply frames_try_catch; [ | intros ? ]
  | |- frames _ (try_finally _ _) => apply frames_try_finally
  | |- frames _ (modify _) =>
      apply frames_modify; intros ?; cbv beta; first [ reflexivity | solve [ auto with frame ] ]
  | |- frames _ (renderFileList _ _ _ _) =>
      apply renderFileList_frames; intros ? ?; first [ reflexivity | solve [ auto with frame ] ]
  | |- frames _ (if ?b then _ else _) => destruct b
  end.

Ltac frame := repeat frame_step.

(** *** What the handlers write *)

Section Writes.

Context {B : Type} (proj : State -> B) (engine : Engine).

Hypothesis proj_view : forall v s, proj (set_view v s) = proj s.
Hypothesis proj_surfaces : forall u s, proj (set_surfaces u s) = proj s.

Lemma append_cards_frames (engs : list JsVal) : frames proj (append_cards engine engs).
Proof.
  induction engs as [ | eng engs IH]; cbn [append_cards]; unfold modify_view; frame.
  exact IH.
Qed.

Lemma showResults_frames (result : JsVal) : frames proj (showResults engine result).
Proof.
  unfold showResults, show_field, show_hours, modify_view, modify_surfaces. frame.
  apply append_cards_frames.
Qed.

Lemma showError_frames (msg : JsVal) : frames proj (showError engine msg).
Proof. unfold showError, modify_surfaces. frame. Qed.

Lemma updateGenerateBtn_frames : frames proj updateGenerateBtn.
Proof. unfold updateGenerateBtn. frame. Qed.

(** A generation attempt writes the stored result, the surfaces and the
    result view, and nothing else. *)
Lemma generate_settle_frames (outcome : FetchOutcome) :
  (forall r s, proj (set_lastResult r s) = proj s) ->
  frames proj (generate_settle engine outcome).
Proof.
  intros proj_lastResult. unfold generate_settle, modify_surfaces. frame.
  - apply showResults_frames.
  - apply showError_frames.
  - apply showError_frames.
  - apply updateGenerateBtn_frames.
Qed.

Lemma generate_click_frames (s : State) : proj (fst (generate_click engine s)) = proj s.
Proof.
  unfold generate_click. destruct (JSON_parse engine (configTextarea s)) as [config | m].
  - cbv zeta. cbn [fst]. apply (frames_after proj). unfold modify_surfaces. frame.
  - cbn [fst]. apply (frames_after proj). apply showError_frames.
Qed.

End Writes.


(** ** The two surfaces *)

(** However [showResults] completes, it leaves the result section shown and
    the error banner hidden. *)
Lemma showResults_flags (engine : Engine) (result : JsVal) (s : State) :
  hidden_flags (after (showResults engine result) s) = (false, true).
Proof.
  unfold after, showResults, modify_surfaces. rewrite !bind_modify.
  match goal with
  | |- hidden_flags (fst (?rest ?s0)) = _ =>
      transitivity (hidden_flags s0); [ | reflexivity ];
      apply (f_equal (fun x => (resultsSection_hidden x, errorSection_hidden x)));
      apply (frames_after surfaces rest s0)
  end.
  unfold show_field, show_hours, modify_view. frame.
  apply append_cards_frames. reflexivity.
Qed.

(** However [showError] completes, it leaves the error banner shown and the
    result section hidden. *)
Lemma showError_flags (engine : Engine) (msg : JsVal) (s : State) :
  hidden_flags (after (showError engine msg) s) = (true, false).
Proof.
  unfold after, showError, modify_surfaces. rewrite !bind_modify.
  destruct (textContent_of engine msg) as [text | m]; reflexivity.
Qed.

Lemma hidden_flags_exclusive (s : State) :
  hidden_flags s = (false, true) \/ hidden_flags s = (true, false) -> exclusive s.
Proof.
  unfold hidden_flags, exclusive. intros [H | H]; injection H as H1 H2; auto.
Qed.

Lemma exclusive_flags (s s' : State) :
  hidden_flags s' = hidden_flags s -> exclusive s -> exclusive s'.
Proof.
  unfold hidden_flags, exclusive. intros H. injection H as -> ->. auto.
Qed.

(** ** The generation call settles *)

Lemma generateInvoice_ok (engine : Engine) (response : Response) :
  ok response = true -> generateInvoice engine (Fulfilled response) = body_json response.
Proof. intros H. unfold generateInvoice. rewrite H. reflexivity. Qed.

(** [generateInvoice] returns exactly the body of an ok response that reads
    as JSON. *)
Lemma generateInvoice_returns (engine : Engine) (outcome : FetchOutcome) (result : JsVal) :
  generateInvoice engine outcome = Normal result <->
  exists response,
    outcome = Fulfilled response /\ ok response = true /\ body_json response = Normal result.
Proof.
  destruct outcome as [response | m]; unfold generateInvoice.
  - destruct (ok response) eqn:Hok; cbn [negb].
    + split.
      * intros H. exists response. repeat split; assumption.
      * intros (r & Hr & _ & Hbody). injection Hr as <-. exact Hbody.
    + split.
      * cbv zeta. destruct (or_catch _ _) as [d | m0]; cbn;
          [destruct (Error_message engine d) | ]; discriminate.
      * intros (r & Hr & Hok' & _). injection Hr as <-. congruence.
  - split; [discriminate | ]. intros (r & Hr & _). discriminate.
Qed.

(** When [generateInvoice] throws, the banner shows the message after
    ["Request failed: "] and the stored result stays. *)
Lemma generate_settle_failure (engine : Engine) (outcome : FetchOutcome) (m : string)
    (s : State) :
  generateInvoice engine outcome = Throw m ->
  after (generate_settle engine outcome) s =
  after updateGenerateBtn
    (set_surfaces
       (set_statusSection_hidden true
          (set_errorText ("Request failed: " ++ m)
             (set_resultsSection_hidden true
                (set_errorSection_hidden false (surfaces s))))) s).
Proof.
  intros H. unfold after, generate_settle, try_finally, try_catch.
  unfold mbind at 3. unfold Js_bind, eval. rewrite H. reflexivity.
Qed.

(** The response arrived: the handler stores it and goes on to show it. *)
Lemma generate_settle_response (engine : Engine) (outcome : FetchOutcome) (result : JsVal)
    (s : State) :
  generateInvoice engine outcome = Normal result ->
  generate_settle engine outcome s =
  try_finally
    (try_catch
       (success ← eval (Get engine result "success");
        if truthy success then showResults engine result
        else (msg ← eval (error_list engine result); showError engine msg))
       (fun message => showError engine (VStr ("Request failed: " ++ message))))
    (modify_surfaces (set_statusSection_hidden true);; updateGenerateBtn)
    (set_lastResult result s).
Proof.
  intros H. unfold generate_settle, try_finally, try_catch.
  unfold mbind at 3. unfold Js_bind, eval. rewrite H. reflexivity.
Qed.

(** The response arrived, its [success] is falsy and its error text is
    [text]: the result is stored and the banner shows the text. *)
Lemma generate_settle_reported (engine : Engine) (outcome : FetchOutcome)
    (fields : list (string * JsVal)) (text : string) (s : State) :
  generateInvoice engine outcome = Normal (VObj fields) ->
  falsy fields "success" ->
  error_list engine (VObj fields) = Normal (VStr text) ->
  after (generate_settle engine outcome) s =
  after updateGenerateBtn
    (set_surfaces
       (set_statusSection_hidden true
          (set_errorText text
             (set_resultsSection_hidden true
                (set_errorSection_hidden false (surfaces s)))))
       (set_lastResult (VObj fields) s)).
Proof.
  intros Hgen Hsuccess Herrors.
  unfold falsy in Hsuccess.
  unfold after, generate_settle, try_finally, try_catch, mbind, Js_bind, eval, modify.
  rewrite Hgen. cbv beta iota. cbn [Get]. rewrite Hsuccess.
  cbv beta iota. rewrite Herrors. reflexivity.
Qed.


(** ** The generate button *)

Lemma updateGenerateBtn_disabled (s : State) :
  generateBtn_disabled (surfaces (after updateGenerateBtn s)) =
  negb (bool_decide (poPdf s <> None) && negb (bool_decide (timesheetFiles s = []))
        && bool_decide (templateFile s <> None)).
Proof.
  unfold after, updateGenerateBtn, modify. cbn.
  destruct (poPdf s), (timesheetFiles s), (templateFile s); reflexivity.
Qed.

(** The readiness of a selection. *)
Lemma updateGenerateBtn_enabled (s : State) :
  generateBtn_disabled (surfaces (after updateGenerateBtn s)) = false <->
  poPdf s <> None /\ templateFile s <> None /\ timesheetFiles s <> [].
Proof.
  rewrite updateGenerateBtn_disabled.
  destruct (poPdf s), (timesheetFiles s), (templateFile s); cbn;
    split; try discriminate; try (intros (? & ? & ?); congruence);
    intros _; repeat split; discriminate.
Qed.

Lemma updateGenerateBtn_tells (s s' : State) (u : unit) :
  updateGenerateBtn s = (s', Normal u) -> (enabled s' <-> ready s').
Proof.
  intros H. injection H as <-.
  exact (updateGenerateBtn_enabled s).
Qed.

(** *** The handlers of a selection, step by step *)

Lemma bind_pair {A C} (c : Js A) (k : A -> Js C) (s s1 : State) (r : Completion A) :
  c s = (s1, r) ->
  (c ≫= k) s = match r with
                | Normal a => k a s1
                | Throw m => (s1, Throw m)
                end.
Proof. intros H. unfold mbind, Js_bind. rewrite H. destruct r; reflexivity. Qed.

(** A selection for the purchase order sets the slot, renders its list and,
    if the rendering completes, recomputes the button. *)
Lemma po_onFiles_run (engine : Engine) (f : File) (rest : list File) (s : State) :
  po_onFiles engine (f :: rest) s =
  let s1 := set_poFileList (fst (rendered engine 0 [Some f] PoRemove)) (set_poPdf (Some f) s) in
  match snd (rendered engine 0 [Some f] PoRemove) with
  | Normal _ => updateGenerateBtn s1
  | Throw m => (s1, Throw m)
  end.
Proof.
  unfold po_onFiles. rewrite bind_modify.
  rewrite (bind_pair _ _ _ _ _ (renderFileList_rendered engine PoZone _ _ _)).
  reflexivity.
Qed.

Lemma tpl_onFiles_run (engine : Engine) (f : File) (rest : list File) (s : State) :
  tpl_onFiles engine (f :: rest) s =
  let s1 :=
    set_tplFileList (fst (rendered engine 0 [Some f] TplRemove)) (set_templateFile (Some f) s) in
  match snd (rendered engine 0 [Some f] TplRemove) with
  | Normal _ => updateGenerateBtn s1
  | Throw m => (s1, Throw m)
  end.
Proof.
  unfold tpl_onFiles. rewrite bind_modify.
  rewrite (bind_pair _ _ _ _ _ (renderFileList_rendered engine TplZone _ _ _)).
  reflexivity.
Qed.

(** A selection of timesheets appends to the list held, renders the whole
    list and, if the rendering completes, recomputes the button. *)
Lemma ts_onFiles_run (engine : Engine) (files : list File) (s : State) :
  ts_onFiles engine files s =
  let held := (timesheetFiles s ++ files)%list in
  let s1 :=
    set_tsFileList (fst (rendered engine 0 (Some <$> held) TsRemove))
      (set_timesheetFiles held s) in
  match snd (rendered engine 0 (Some <$> held) TsRemove) with
  | Normal _ => updateGenerateBtn s1
  | Throw m => (s1, Throw m)
  end.
Proof.
  unfold ts_onFiles. rewrite bind_modify, bind_read.
  rewrite (bind_pair _ _ _ _ _ (renderFileList_rendered engine TsZone _ _ _)).
  reflexivity.
Qed.



Lemma try_finally_after {A} (body : Js A) (cleanup : Js unit) (s : State) :
  after (try_finally body cleanup) s = after cleanup (after body s).
Proof.
  unfold after, try_finally. destruct (body s) as [s1 c]. cbn.
  destruct (cleanup s1) as [s2 [u | m]]; reflexivity.
Qed.

(** Every selection that is rendered in full ends with
    [updateGenerateBtn]: the button then tells the readiness of the new
    selection. *)
Lemma onFiles_recomputes (engine : Engine) (z : Zone) (files : list File) (s : State) :
  z = TsZone \/ files <> [] ->
  snd (onFiles engine z files s) = Normal tt ->
  let s' := after (onFiles engine z files) s in
  enabled s' <-> ready s'.
Proof.
  intros H Hdone. cbv zeta. unfold after. revert Hdone.
  destruct z; cbn [onFiles];
    try (destruct files as [ | f files]; [destruct H; [discriminate | contradiction] | ]);
    rewrite ?po_onFiles_run, ?ts_onFiles_run, ?tpl_onFiles_run; cbv zeta;
    match goal with
    | |- context [snd (rendered ?e ?i ?l ?cb)] => destruct (snd (rendered e i l cb)) as [u | m]
    end;
    try (intros Hdone; discriminate Hdone); intros _;
    match goal with
    | |- context [updateGenerateBtn ?s0] => exact (updateGenerateBtn_enabled s0)
    end.
Qed.



(** *** An enabled button has a purchase order and a template *)







(** The removal of the only timesheet, which stops before
    [updateGenerateBtn], leaves the button enabled. *)
Example removal_leaves_button_enabled :
  let removed := page (step Reference.engine (ready_world "{}") (ClickRemove TsZone 0)) in
  timesheetFiles removed = [] /\ generateBtn_disabled (surfaces removed) = false.
Proof. vm_compute. repeat split. Qed.

(** The selection that completes the three slots ends with
    [updateGenerateBtn] and leaves the button enabled; the removal of the
    purchase order ends with it too and leaves the button disabled. *)
Example selection_and_removal_recompute :
  let two_slots :=
    run Reference.engine loaded
      [SelectFiles PoZone [mkFile "po.pdf" 300000]; SelectFiles TsZone [sheet_a]] in
  let select := SelectFiles TplZone [mkFile "template.xlsx" 20000] in
  (recomputes Reference.engine two_slots select /\
   generateBtn_disabled (surfaces (page two_slots)) = true /\
   generateBtn_disabled (surfaces (page (step Reference.engine two_slots select))) = false) /\
  (recomputes Reference.engine (ready_world "{}") (ClickRemove PoZone 0) /\
   poPdf (page (step Reference.engine (ready_world "{}") (ClickRemove PoZone 0))) = None /\
   generateBtn_disabled
     (surfaces (page (step Reference.engine (ready_world "{}") (ClickRemove PoZone 0)))) = true).
Proof.
  cbv zeta. split; split.
  - split; [right; discriminate | vm_compute; reflexivity].
  - vm_compute. split; reflexivity.
  - eexists. split; [vm_compute; reflexivity | left; reflexivity].
  - vm_compute. split; reflexivity.
Qed.


(** ** Removal of a timesheet *)

(** The removal callback of the timesheets stops at [arguments.callee]:
    the file is spliced out, nothing is rendered again and the button is
    not recomputed. *)
Lemma ts_remove_stops (engine : Engine) (idx : nat) (s : State) :
  call_onRemove engine TsRemove idx s =
  (set_timesheetFiles (delete idx (timesheetFiles s)) s, Throw "arguments is not defined").
Proof. reflexivity. Qed.

(** A click on the remove button of a rendered timesheet splices the list
    of timesheets at the index the button is bound to, and changes nothing
    else: the rendered items and the generate button stay as they are. *)
Lemma ts_remove_click (engine : Engine) (w : World) (k : nat) (item : FileItem) :
  tsFileList (page w) !! k = Some item ->
  item_onRemove item = TsRemove ->
  step engine w (ClickRemove TsZone k)
  = mkWorld (set_timesheetFiles (delete (item_index item) (timesheetFiles (page w))) (page w))
      (in_flight w).
Proof.
  intros Hitem Hcb. cbn [step file_list]. rewrite Hitem.
  unfold after, remove_click. rewrite Hcb, ts_remove_stops. reflexivity.
Qed.

(** C2. Three timesheets are selected and the first is removed: the file
    leaves the list of timesheets, the callback stops with an exception,
    and the page keeps showing the three items with the indices of the list
    before the removal. A click on the remove button of [b.pdf], still bound
    to index 1, then removes [c.pdf]. *)
Theorem ts_remove_keeps_stale_items :
  let w1 := step Reference.engine loaded (SelectFiles TsZone [sheet_a; sheet_b; sheet_c]) in
  let w2 := step Reference.engine w1 (ClickRemove TsZone 0) in
  let w3 := step Reference.engine w2 (ClickRemove TsZone 1) in
  tsFileList (page w1)
    = [ mkFileItem "a.pdf" "2.0 KB" 0 TsRemove;
        mkFileItem "b.pdf" "4.0 KB" 1 TsRemove;
        mkFileItem "c.pdf" "1.5 MB" 2 TsRemove ] /\
  snd (remove_click Reference.engine (mkFileItem "a.pdf" "2.0 KB" 0 TsRemove) (page w1))
    = Throw "arguments is not defined" /\
  timesheetFiles (page w2) = [sheet_b; sheet_c] /\
  tsFileList (page w2) = tsFileList (page w1) /\
  timesheetFiles (page w3) = [sheet_b] /\
  tsFileList (page w3) = tsFileList (page w1).
Proof. vm_compute. repeat split. Qed.

(** ** The generate button is clicked *)

(** C3. The generate button is clicked while the configuration text is not
    JSON: no request is sent, the error banner shows the message of the
    parser after ["Invalid JSON config: "], the result section is hidden,
    and nothing else on the page changes: the selected files and the stored
    result are as before. *)
Theorem invalid_config_sends_nothing :
  forall (engine : Engine) (w : World) (message : string),
    generateBtn_disabled (surfaces (page w)) = false ->
    JSON_parse engine (configTextarea (page w)) = Throw message ->
    let w' := step engine w ClickGenerate in
    in_flight w' = in_flight w /\
    errorText (surfaces (page w')) = "Invalid JSON config: " ++ message /\
    errorSection_hidden (surfaces (page w')) = false /\
    poPdf (page w') = poPdf (page w) /\
    timesheetFiles (page w') = timesheetFiles (page w) /\
    templateFile (page w') = templateFile (page w) /\
    lastResult (page w') = lastResult (page w) /\
    page w' =
      set_surfaces
        (set_errorText ("Invalid JSON config: " ++ message)
           (set_resultsSection_hidden true
              (set_errorSection_hidden false (surfaces (page w)))))
        (page w).
Proof.
  intros engine w message Henabled Hparse. cbn zeta.
  unfold step. rewrite Henabled. unfold generate_click. rewrite Hparse.
  cbn. repeat split.
Qed.

(** The text [{] is not JSON: the click on the ready page sends nothing. *)
Lemma invalid_config_sends_nothing_witness :
  let w := ready_world "{" in
  let w' := step Reference.engine w ClickGenerate in
  JSON_parse Reference.engine (configTextarea (page w)) = Throw "Unexpected token in JSON" /\
  in_flight w' = [] /\
  errorText (surfaces (page w')) = "Invalid JSON config: Unexpected token in JSON" /\
  lastResult (page w') = VNull.
Proof.
  pose proof (invalid_config_sends_nothing Reference.engine (ready_world "{")
                "Unexpected token in JSON" eq_refl eq_refl) as H.
  cbn zeta in H. destruct H as (H1 & H2 & _ & _ & _ & _ & H7 & _).
  split; [reflexivity | ].
  split; [exact H1 | ].
  split; [exact H2 | exact H7].
Defined.

(** ** Failures of the generation call *)

Lemma truthy_VStr (s : string) : s <> "" -> truthy (VStr s) = true.
Proof.
  intros H. cbn. destruct (String.eqb_spec s ""); [contradiction | reflexivity].
Qed.

Lemma forallb_elem_of {A} (f : A -> bool) (l : list A) (x : A) :
  forallb f l = true -> x ∈ l -> f x = true.
Proof.
  induction l as [ | a l IH]; intros H Hx; [inversion Hx | ].
  cbn in H. apply andb_true_iff in H. destruct H as [Ha Hl].
  apply elem_of_cons in Hx. destruct Hx as [-> | Hx]; [exact Ha | exact (IH Hl Hx)].
Qed.

(** The text of a status code is its decimal digits. *)
Lemma Number_text_status (engine : Engine) (z : Z) :
  0 <= z <= 999 -> Number_text engine (inject_Z z) = digits z.
Proof.
  intros Hz.
  assert (Hall : forallb (fun z => String.eqb (Number_text engine (inject_Z z)) (digits z))
                   (seqZ 0 1000) = true) by (vm_compute; reflexivity).
  apply String.eqb_eq. apply (forallb_elem_of _ _ z Hall). apply elem_of_seqZ. lia.
Qed.

(** The message [generateInvoice] throws for a status that is not ok is
    the message of the amended chain. *)
Lemma generateInvoice_error_body (engine : Engine) (response : Response) :
  ok response = false ->
  generateInvoice engine (Fulfilled response) = Throw (error_body_message engine response).
Proof.
  intros Hok. unfold generateInvoice, error_body_message, status_message.
  rewrite Hok. cbn [negb].
  destruct (body_json response) as [ [ | | b | q | t | l | fields] | m];
    try reflexivity.
  cbn [or_catch mbind Completion_bind]. unfold error_detail. cbn [Get mbind Completion_bind].
  unfold js_or at 1.
  destruct (truthy (default VUndefined (own_property fields "detail"))) eqn:Hd.
  - cbn [or_catch mbind Completion_bind]. unfold Error_message, shown_text.
    destruct (default VUndefined (own_property fields "detail")) as [ | | b | q | t | l | fs];
      try discriminate Hd;
      match goal with
      | |- context [ToString engine ?v] => destruct (ToString engine v) as [text | m]
      end; reflexivity.
  - destruct (own_property fields "errors") as [ [ | | b | q | t | l | fs] | ];
      try reflexivity.
    cbn [default from_option id optional_join mbind Completion_bind].
    destruct (Array_join engine l LF) as [joined | m]; [ | reflexivity].
    cbn [mbind Completion_bind]. unfold js_or. cbn [truthy].
    destruct (String.eqb joined ""); reflexivity.
Qed.

Lemma generateInvoice_amended (engine : Engine) (outcome : FetchOutcome) (m : string) :
  generateInvoice engine outcome = Throw m <-> amended_failure_message engine outcome = Some m.
Proof.
  destruct outcome as [response | m0]; cbn [amended_failure_message].
  - destruct (ok response) eqn:Hok.
    + unfold generateInvoice. rewrite Hok. cbn [negb].
      destruct (body_json response) as [v | m1]; split; intros H;
        try discriminate H; injection H as ->; reflexivity.
    + rewrite (generateInvoice_error_body engine response Hok).
      split; intros H; injection H as ->; reflexivity.
  - cbn [generateInvoice]. split; intros H; injection H as ->; reflexivity.
Qed.

(** The chain of the specification gives the status-code message where the
    code shows the joined [errors] of the error body, and an empty [detail]
    where the code shows the status-code message. *)
Lemma failure_message_uses_errors :
  let empty_detail := Fulfilled (mkResponse 500 (Normal (VObj [("detail", VStr "")]))) in
  (documented_failure_message Reference.engine validation_failure = "HTTP 422" /\
   generateInvoice Reference.engine validation_failure = Throw "PO number missing" /\
   errorText (surfaces (after (generate_settle Reference.engine validation_failure) loaded_page))
     = "Request failed: PO number missing") /\
  (documented_failure_message Reference.engine empty_detail = "" /\
   generateInvoice Reference.engine empty_detail = Throw "HTTP 500" /\
   errorText (surfaces (after (generate_settle Reference.engine empty_detail) loaded_page))
     = "Request failed: HTTP 500").
Proof. vm_compute. repeat split. Qed.

(** A status 422 whose body carries a list of objects as [detail]. *)
Example detail_list_is_shown :
  let outcome :=
    Fulfilled (mkResponse 422
                 (Normal (VObj [("detail", VArr [VObj [("loc", VStr "body")]; VObj []]);
                                ("errors", VArr [VStr "PO number missing"])]))) in
  let s' := after (generate_settle Reference.engine outcome) loaded_page in
  amended_failure_message Reference.engine outcome = Some "[object Object],[object Object]" /\
  generateInvoice Reference.engine outcome = Throw "[object Object],[object Object]" /\
  errorText (surfaces s') = "Request failed: [object Object],[object Object]".
Proof. vm_compute. repeat split. Qed.

(** C4, amended. A generation call fails exactly when [fetch] rejects, when
    the status is not ok, or when the body of an ok response cannot be
    read. The banner then shows, after ["Request failed: "]: the message of
    the exception when [fetch] rejects or the body of the ok response
    cannot be read; for a status that is not ok, the [detail] of the JSON
    error body when it is truthy, as text, otherwise the [errors] of the
    body joined by line feeds when they are a list and that text is not
    empty, otherwise ["HTTP "] and the status code, in its digits. The
    banner is shown and the result section hidden. *)
Theorem failure_message_chain :
  forall (engine : Engine) (outcome : FetchOutcome) (s : State),
    let s' := after (generate_settle engine outcome) s in
    (forall m,
        generateInvoice engine outcome = Throw m <->
        amended_failure_message engine outcome = Some m) /\
    (forall m,
        amended_failure_message engine outcome = Some m ->
        errorText (surfaces s') = "Request failed: " ++ m /\
        errorSection_hidden (surfaces s') = false /\
        resultsSection_hidden (surfaces s') = true) /\
    (amended_failure_message engine outcome = None <->
     exists response result,
       outcome = Fulfilled response /\ ok response = true /\
       body_json response = Normal result) /\
    (forall response,
        0 <= status response <= 999 ->
        status_message engine response = "HTTP " ++ digits (status response)).
Proof.
  intros engine outcome s. cbv zeta. split; [ | split; [ | split] ].
  - intros m. apply generateInvoice_amended.
  - intros m H. apply (generateInvoice_amended engine outcome m) in H.
    rewrite (generate_settle_failure engine outcome m s H). repeat split.
  - destruct outcome as [response | m0]; cbn [amended_failure_message].
    + destruct (ok response) eqn:Hok.
      * destruct (body_json response) as [v | m1] eqn:Hbody; split.
        -- intros _. exists response, v. repeat split; assumption.
        -- reflexivity.
        -- discriminate.
        -- intros (r & v & Hr & _ & Hv). injection Hr as <-. congruence.
      * split; [discriminate | ].
        intros (r & v & Hr & Hk & _). injection Hr as <-. congruence.
    + split; [discriminate | ]. intros (r & v & Hr & _). discriminate Hr.
  - intros response Hst. unfold status_message.
    rewrite (Number_text_status engine _ Hst). reflexivity.
Qed.

(** ** A response that reports errors *)

Lemma Array_join_strings (engine : Engine) (strs : list string) (sep : string) :
  Array_join engine (VStr <$> strs) sep = Normal (String.concat sep strs).
Proof.
  unfold Array_join.
  assert (H : mapM (element_text engine) (VStr <$> strs) = Normal strs).
  { induction strs as [ | x strs IH]; [reflexivity | ].
    cbn. cbn in IH. rewrite IH. reflexivity. }
  rewrite H. reflexivity.
Qed.

(** A list of errors that is not empty and joins to the empty text: the
    banner shows ["Unknown error"], not the joined text. *)
Lemma empty_error_text_is_replaced :
  Array_join Reference.engine [VStr ""] LF = Normal "" /\
  errorText (surfaces (after (generate_settle Reference.engine
                                (Fulfilled (mkResponse 200 (Normal empty_error))))
                         loaded_page))
    = "Unknown error".
Proof. vm_compute. split; reflexivity. Qed.

(** C5, amended. A response arrives whose [success] is false and whose
    [errors] is a list of strings: the banner shows the strings joined by
    line feeds when that text is not empty, and ["Unknown error"] when it
    is; the banner is shown and the result section is hidden. *)
Theorem reported_errors_are_joined :
  forall (engine : Engine) (response : Response) (fields : list (string * JsVal))
         (errors : list string) (s : State),
    ok response = true ->
    body_json response = Normal (VObj fields) ->
    own_property fields "success" = Some (VBool false) ->
    own_property fields "errors" = Some (VArr (VStr <$> errors)) ->
    let s' := after (generate_settle engine (Fulfilled response)) s in
    errorText (surfaces s') = reported_text errors /\
    (String.concat LF errors <> "" -> errorText (surfaces s') = String.concat LF errors) /\
    errorSection_hidden (surfaces s') = false /\
    resultsSection_hidden (surfaces s') = true.
Proof.
  intros engine response fields errors s Hok Hbody Hsuccess Herrors. cbn zeta.
  assert (Hlist : error_list engine (VObj fields) = Normal (VStr (reported_text errors))).
  { unfold error_list. cbn. rewrite Herrors. cbn.
    rewrite Array_join_strings. cbn. unfold js_or, reported_text. cbn.
    destruct (String.eqb (String.concat LF errors) ""); reflexivity. }
  rewrite (generate_settle_reported engine (Fulfilled response) fields
             (reported_text errors) s).
  - repeat split. cbn. unfold reported_text. intros Hne.
    destruct (String.eqb_spec (String.concat LF errors) ""); [contradiction | reflexivity].
  - rewrite generateInvoice_ok by exact Hok. exact Hbody.
  - unfold falsy. rewrite Hsuccess. reflexivity.
  - exact Hlist.
Qed.

(** The errors [A] and [B] are shown on two lines. *)
Lemma reported_errors_are_joined_witness :
  let response :=
    mkResponse 200 (Normal (VObj [("success", VBool false);
                                  ("errors", VArr [VStr "A"; VStr "B"])])) in
  let s' := after (generate_settle Reference.engine (Fulfilled response)) loaded_page in
  errorText (surfaces s') = "A" ++ LF ++ "B" /\
  errorSection_hidden (surfaces s') = false /\
  resultsSection_hidden (surfaces s') = true.
Proof.
  pose proof (reported_errors_are_joined Reference.engine
                (mkResponse 200 (Normal (VObj [("success", VBool false);
                                               ("errors", VArr [VStr "A"; VStr "B"])])))
                [("success", VBool false); ("errors", VArr [VStr "A"; VStr "B"])]
                ["A"; "B"] loaded_page eq_refl eq_refl eq_refl eq_refl) as H.
  cbn zeta in H. destruct H as (H1 & _ & H3 & H4).
  split; [exact H1 | ]. split; [exact H3 | exact H4].
Defined.

(** ** The grand total *)







(** The formatter rounds the decimal of a Number: the Number nearest to
    1.0005 lies below it and prints as 1.0005, which rounds up. *)
Example amount_1_0005 :
  (v ← JSON_parse Reference.engine "[1234.5, 1234567.8915, 1.0005, -0.0004, 1e21]";
   toLocaleString Reference.engine v)
  = Normal "1,234.50,1,234,567.892,1.001,-0.00,1,000,000,000,000,000,000,000.00".
Proof. vm_compute. reflexivity. Qed.

(** Above 2^53 the text of an integer is its shortest digits and zeros. *)
Example integer_above_2_53 :
  (v ← JSON_parse Reference.engine "[9007199254740992, 36028797018963968, 123456789012345680000]";
   ToString Reference.engine v)
  = Normal "9007199254740992,36028797018963970,123456789012345680000".
Proof. vm_compute. reflexivity. Qed.


(** The thousandths the formatter shows are the integer nearest to a
    thousand times the decimal, the larger one of two. *)
Lemma round_scaled_nearest (d : Q) :
  let N := round_scaled d 3 in
  0 <= N /\
  (inject_Z N - (1 # 2) <= 1000 * Qabs d)%Q /\
  (1000 * Qabs d < inject_Z N + (1 # 2))%Q.
Proof.
  cbv zeta. unfold round_scaled. destruct d as [a b]. cbn [Qnum Qden Qabs].
  change (10 ^ Z.of_nat 3) with 1000.
  pose proof (Z.abs_nonneg a) as Ha. set (x := Z.abs a) in *.
  pose proof (Z.div_mod (2 * (x * 1000) + Z.pos b) (2 * Z.pos b) ltac:(lia)) as Hdiv.
  pose proof (Z.mod_pos_bound (2 * (x * 1000) + Z.pos b) (2 * Z.pos b) ltac:(lia)) as Hmod.
  set (N := (2 * (x * 1000) + Z.pos b) / (2 * Z.pos b)) in *.
  set (r := (2 * (x * 1000) + Z.pos b) mod (2 * Z.pos b)) in *.
  split; [ | split].
  - subst N. apply Z.div_pos; lia.
  - unfold Qle. cbn. nia.
  - unfold Qlt. cbn. nia.
Qed.

(** The formatter shows the thousandths nearest to the decimal of the
    Number. *)
Lemma Number_toLocaleString_nearest (engine : Engine) (q : Q) :
  amount_text (Qnum q <? 0) (Qabs (decimal_value (Number_decimal engine q)))
    (Number_toLocaleString engine q).
Proof.
  exists (round_scaled (decimal_value (Number_decimal engine q)) 3).
  destruct (round_scaled_nearest (decimal_value (Number_decimal engine q)))
    as (Hpos & Hlow & Hhigh).
  split; [exact Hpos | ]. split; [exact Hlow | ]. split; [exact Hhigh | ].
  unfold Number_toLocaleString, fraction_min2, sign_text, Qnegative. cbv zeta.
  set (N := round_scaled (decimal_value (Number_decimal engine q)) 3).
  replace ((N mod 1000) mod 10) with (N mod 10) by lia. reflexivity.
Qed.

Lemma append_empty_r (x : string) : x ++ "" = x.
Proof.
  induction x as [ | c x IH]; [reflexivity | ].
  change (String c (x ++ "") = String c x). f_equal. exact IH.
Qed.

(** [toFixed(0)] shows the integer nearest to the Number. *)
Lemma Number_toFixed_whole (engine : Engine) (q : Q) :
  Qhuge q = false ->
  whole_text (Qnum q <? 0) (Qabs q) (Number_toFixed engine q 0).
Proof.
  intros Hhuge. exists (round_scaled q 0).
  unfold Number_toFixed. rewrite Hhuge. unfold round_scaled, sign_text, Qnegative.
  destruct q as [a b]. cbn [Qnum Qden Qabs].
  change (10 ^ Z.of_nat 0) with 1. rewrite Z.div_1_r, append_empty_r, Z.mul_1_r.
  pose proof (Z.abs_nonneg a) as Ha. set (x := Z.abs a) in *.
  pose proof (Z.div_mod (2 * x + Z.pos b) (2 * Z.pos b) ltac:(lia)) as Hdiv.
  pose proof (Z.mod_pos_bound (2 * x + Z.pos b) (2 * Z.pos b) ltac:(lia)) as Hmod.
  set (N := (2 * x + Z.pos b) / (2 * Z.pos b)) in *.
  set (r := (2 * x + Z.pos b) mod (2 * Z.pos b)) in *.
  split; [subst N; apply Z.div_pos; lia | ].
  split; [unfold Qle; cbn; nia | ]. split; [unfold Qlt; cbn; nia | reflexivity].
Qed.




(** ** The health indicator *)

(** C7. [checkHealth] never throws: it answers [false] whenever the health
    request rejects, whatever the reason, and [true] exactly when the
    request is answered with a status from 200 to 299.
    [checkBackendHealth] then completes normally, and after a rejected
    request the indicator is in its offline state. *)
Theorem checkHealth_total :
  (forall outcome, exists b, checkHealth outcome = Normal b) /\
  (forall m, checkHealth (Rejected m) = Normal false) /\
  (forall outcome,
      checkHealth outcome = Normal true <->
      exists response, outcome = Fulfilled response /\ 200 <= status response <= 299) /\
  (forall outcome s, snd (checkBackendHealth outcome s) = Normal tt) /\
  (forall m s,
      after (checkBackendHealth (Rejected m)) s
      = set_healthLabel "API Offline" (set_healthDot "health-dot unhealthy" s)).
Proof.
  split; [ | split; [ | split; [ | split ] ] ].
  - intros [response | m]; eexists; reflexivity.
  - reflexivity.
  - intros [response | m]; cbn; unfold ok.
    + split.
      * intros H. exists response. split; [reflexivity | ].
        injection H as H. apply andb_true_iff in H. lia.
      * intros (r & Hr & Hstatus). injection Hr as <-. f_equal.
        apply andb_true_iff. lia.
    + split; [discriminate | ]. intros (r & Hr & _). discriminate.
  - intros [response | m] s; reflexivity.
  - reflexivity.
Qed.

(** ** The stored result *)

Lemma generate_settle_lastResult (engine : Engine) (outcome : FetchOutcome) (s : State) :
  lastResult (after (generate_settle engine outcome) s)
  = match generateInvoice engine outcome with
    | Normal result => result
    | Throw _ => lastResult s
    end.
Proof.
  destruct (generateInvoice engine outcome) as [result | m] eqn:Hgen.
  - unfold after. rewrite (generate_settle_response engine outcome result s Hgen).
    transitivity (lastResult (set_lastResult result s)); [ | reflexivity ].
    match goal with
    | |- lastResult (fst (?c ?s0)) = _ => apply (frames_after lastResult c s0)
    end.
    unfold modify_surfaces. frame.
    + apply showResults_frames; reflexivity.
    + apply showError_frames; reflexivity.
    + apply showError_frames; reflexivity.
    + apply updateGenerateBtn_frames; reflexivity.
  - rewrite (generate_settle_failure engine outcome m s Hgen). reflexivity.
Qed.

(** A result is stored, and a later attempt is answered with
    [success = false]: the failed attempt replaces the stored result. *)
Lemma failed_attempt_replaces_lastResult :
  let s := after (generate_settle Reference.engine sample_success) loaded_page in
  let s' := after (generate_settle Reference.engine
                     (Fulfilled (mkResponse 200 (Normal rejected_result)))) s in
  lastResult s = VObj sample_result /\
  lastResult s' = rejected_result /\
  errorText (surfaces s') = "A" ++ LF ++ "B".
Proof. vm_compute. repeat split. Qed.

(** C8, amended. When a generation attempt settles, the stored result is
    the body of the response if [generateInvoice] returned one, whatever
    its [success], and is the previously stored result otherwise.
    [generateInvoice] returns a body exactly for an ok response whose body
    reads as JSON; the click itself, with its check of the configuration,
    never changes the stored result. *)
Theorem lastResult_follows_response :
  forall (engine : Engine) (outcome : FetchOutcome) (s : State),
    lastResult (after (generate_settle engine outcome) s)
    = match generateInvoice engine outcome with
      | Normal result => result
      | Throw _ => lastResult s
      end /\
    (forall result,
        generateInvoice engine outcome = Normal result <->
        exists response,
          outcome = Fulfilled response /\ ok response = true /\
          body_json response = Normal result) /\
    lastResult (fst (generate_click engine s)) = lastResult s.
Proof.
  intros engine outcome s. split; [ | split ].
  - apply generate_settle_lastResult.
  - intros result. apply generateInvoice_returns.
  - apply (generate_click_frames lastResult); reflexivity.
Qed.

(** ** Requests in flight *)

(** A click that passes the check of the configuration sends one request
    and disables the button. *)
Lemma generate_click_sends (engine : Engine) (w : World) (config : JsVal) :
  generateBtn_disabled (surfaces (page w)) = false ->
  JSON_parse engine (configTextarea (page w)) = Normal config ->
  let w' := step engine w ClickGenerate in
  length (in_flight w') = S (length (in_flight w)) /\
  generateBtn_disabled (surfaces (page w')) = true.
Proof.
  intros Henabled Hparse. cbv zeta. unfold step. rewrite Henabled.
  unfold generate_click. rewrite Hparse. cbn [in_flight page].
  split; [ | reflexivity]. rewrite length_app. cbn. lia.
Qed.

(** While a request is in flight, every change of the selection that is
    rendered in full recomputes the button from the selection alone. *)
Lemma selection_enables_button (engine : Engine) (w : World) (files : list File) :
  poPdf (page w) <> None -> templateFile (page w) <> None -> files <> [] ->
  snd (onFiles engine TsZone files (page w)) = Normal tt ->
  let w' := step engine w (SelectFiles TsZone files) in
  in_flight w' = in_flight w /\ generateBtn_disabled (surfaces (page w')) = false.
Proof.
  intros Hpo Htpl Hfiles Hdone. cbv zeta. cbn [step in_flight page].
  split; [reflexivity | ].
  apply (onFiles_recomputes engine TsZone files (page w) (or_introl eq_refl) Hdone).
  clear Hdone. unfold after. cbn [onFiles]. rewrite ts_onFiles_run. cbv zeta.
  destruct (snd (rendered engine 0 (Some <$> (timesheetFiles (page w) ++ files)%list) TsRemove));
    (split; [exact Hpo | split; [exact Htpl | ] ]);
    cbn; intros Hnil; apply app_eq_nil in Hnil; destruct Hnil as [_ Hnil]; contradiction.
Qed.

(** C9. The three files are selected, the configuration is [{}] and the
    button is clicked: one request is in flight and the button is disabled.
    A further timesheet is dropped while the request is in flight: the
    button is enabled again. A second click sends a second request while
    the first has not settled. *)
Theorem second_request_while_in_flight :
  let w0 := ready_world "{}" in
  let w1 := step Reference.engine w0 ClickGenerate in
  let w2 := step Reference.engine w1 (SelectFiles TsZone [sheet_b]) in
  let w3 := step Reference.engine w2 ClickGenerate in
  (length (in_flight w0) = 0%nat /\ generateBtn_disabled (surfaces (page w0)) = false) /\
  (length (in_flight w1) = 1%nat /\ generateBtn_disabled (surfaces (page w1)) = true) /\
  (length (in_flight w2) = 1%nat /\ generateBtn_disabled (surfaces (page w2)) = false) /\
  (length (in_flight w3) = 2%nat /\
   timesheets <$> in_flight w3 = [[sheet_a]; [sheet_a; sheet_b]]).
Proof. vm_compute. repeat split. Qed.


(** ** Result section and error banner exclude each other *)

(** When a generation attempt has settled, exactly one of the two is
    shown. *)
Lemma generate_settle_flags (engine : Engine) (outcome : FetchOutcome) (s : State) :
  hidden_flags (after (generate_settle engine outcome) s) = (false, true) \/
  hidden_flags (after (generate_settle engine outcome) s) = (true, false).
Proof.
  destruct (generateInvoice engine outcome) as [result | m] eqn:Hgen.
  - unfold after. rewrite (generate_settle_response engine outcome result s Hgen).
    generalize (set_lastResult result s). intros s1.
    unfold try_finally, try_catch.
    destruct ((success ← eval (Get engine result "success");
               if truthy success then showResults engine result
               else (msg ← eval (error_list engine result); showError engine msg)) s1)
      as [s2 [u | m]] eqn:E.
    + assert (H2 : hidden_flags s2 = (false, true) \/ hidden_flags s2 = (true, false)).
      { unfold mbind, Js_bind, eval in E.
        destruct (Get engine result "success") as [success | m]; [ | discriminate E].
        destruct (truthy success).
        - left. rewrite <- (showResults_flags engine result s1).
          unfold after. rewrite E. reflexivity.
        - destruct (error_list engine result) as [msg | m]; [ | discriminate E].
          right. rewrite <- (showError_flags engine msg s1).
          unfold after. rewrite E. reflexivity. }
      exact H2.
    + right. reflexivity.
  - right. rewrite (generate_settle_failure engine outcome m s Hgen). reflexivity.
Qed.

Lemma show_exclusive (engine : Engine) (op : Show) (s : State) :
  exclusive (show engine s op).
Proof.
  apply hidden_flags_exclusive. destruct op as [result | msg]; cbn [show].
  - left. apply showResults_flags.
  - right. apply showError_flags.
Qed.

Lemma updateGenerateBtn_flags : frames hidden_flags updateGenerateBtn.
Proof. unfold updateGenerateBtn. frame. Qed.

Lemma onFiles_flags (engine : Engine) (z : Zone) (files : list File) :
  frames hidden_flags (onFiles engine z files).
Proof.
  destruct z; cbn [onFiles]; unfold po_onFiles, ts_onFiles, tpl_onFiles;
    destruct files; frame; apply updateGenerateBtn_flags.
Qed.

Lemma remove_click_flags (engine : Engine) (item : FileItem) :
  frames hidden_flags (remove_click engine item).
Proof.
  unfold remove_click. destruct (item_onRemove item); cbn [call_onRemove];
    frame; apply updateGenerateBtn_flags.
Qed.

Lemma checkBackendHealth_flags (outcome : FetchOutcome) :
  frames hidden_flags (checkBackendHealth outcome).
Proof. unfold checkBackendHealth. frame. Qed.

(** No event shows the result section and the error banner together. *)
Lemma step_exclusive (engine : Engine) (w : World) (e : Event) :
  exclusive (page w) -> exclusive (page (step engine w e)).
Proof.
  intros H. destruct e as [z files | z k | text | checked | | k outcome | outcome];
    cbn [step].
  - cbn [page]. eapply exclusive_flags; [ | exact H]. apply (onFiles_flags engine z files).
  - destruct (file_list z (page w) !! k) as [item | ]; [ | exact H].
    cbn [page]. eapply exclusive_flags; [ | exact H]. apply (remove_click_flags engine item).
  - exact H.
  - exact H.
  - destruct (generateBtn_disabled (surfaces (page w))); [exact H | ].
    unfold generate_click.
    destruct (JSON_parse engine (configTextarea (page w))) as [config | m]; cbn [page].
    + left. reflexivity.
    + apply hidden_flags_exclusive. right. apply showError_flags.
  - destruct (in_flight w !! k); [ | exact H].
    cbn [page]. apply hidden_flags_exclusive. apply generate_settle_flags.
  - cbn [page]. eapply exclusive_flags; [ | exact H]. apply (checkBackendHealth_flags outcome).
Qed.

(** C10. However it completes, [showResults] leaves the result section
    shown and the error banner hidden, and [showError] leaves the banner
    shown and the result section hidden. So after any sequence of these
    operations that is not empty the two are not shown together, and any
    sequence of events of the page (selections, removals, clicks, settled
    requests) that starts where they are not shown together keeps it so. *)
Theorem results_and_error_exclusive :
  forall engine : Engine,
    (forall result s,
        resultsSection_hidden (surfaces (after (showResults engine result) s)) = false /\
        errorSection_hidden (surfaces (after (showResults engine result) s)) = true) /\
    (forall msg s,
        errorSection_hidden (surfaces (after (showError engine msg) s)) = false /\
        resultsSection_hidden (surfaces (after (showError engine msg) s)) = true) /\
    (forall ops s, ops <> [] -> exclusive (fold_left (show engine) ops s)) /\
    (forall ops s, exclusive s -> exclusive (fold_left (show engine) ops s)) /\
    (forall events w, exclusive (page w) -> exclusive (page (run engine w events))).
Proof.
  intros engine. split; [ | split; [ | split; [ | split ] ] ].
  - intros result s. pose proof (showResults_flags engine result s) as H.
    unfold hidden_flags in H. injection H as H1 H2. split; assumption.
  - intros msg s. pose proof (showError_flags engine msg s) as H.
    unfold hidden_flags in H. injection H as H1 H2. split; assumption.
  - intros ops s Hne. destruct ops as [ | op ops] using rev_ind; [contradiction | ].
    rewrite fold_left_app. cbn [fold_left]. apply show_exclusive.
  - intros ops. induction ops as [ | op ops IH]; intros s H; [exact H | ].
    cbn [fold_left]. apply IH. apply show_exclusive.
  - intros events. unfold run.
    induction events as [ | e events IH]; intros w H; [exact H | ].
    cbn [fold_left]. apply IH. apply step_exclusive. exact H.
Qed.

(** * Further properties *)

(** ** Rendering a list of files *)

Lemma rendered_elem (engine : Engine) (cb : Callback) (files : list (option File)) :
  forall (i : nat) (item : FileItem),
    item ∈ fst (rendered engine i files cb) <->
    exists j f t,
      files !! j = Some (Some f) /\
      file_item_texts engine f = Some t /\
      item = mkFileItem (fst t) (snd t) (i + j) cb /\
      (forall j' g, (j' < j)%nat -> files !! j' = Some (Some g) ->
                    file_item_texts engine g <> None).
Proof.
  induction files as [ | [f0 | ] files IH]; intros i item; cbn [rendered].
  - split; [intros H; inversion H | intros (j & f & t & H & _); discriminate H].
  - unfold render_item. destruct (file_item_texts engine f0) as [ [n sz] | ] eqn:Hf0.
    + destruct (rendered engine (S i) files cb) as [items c] eqn:Hrest. cbn [fst].
      rewrite elem_of_cons.
      assert (IH' := IH (S i) item). rewrite Hrest in IH'. cbn [fst] in IH'.
      rewrite IH'. clear IH'. split.
      * intros [-> | (j & f & t & Hj & Ht & -> & Hearlier)].
        -- exists 0%nat, f0, (n, sz). rewrite Nat.add_0_r.
           split; [reflexivity | split; [exact Hf0 | split; [reflexivity | ] ] ].
           intros j' g Hlt. lia.
        -- exists (S j), f, t.
           split; [exact Hj | split; [exact Ht | split; [f_equal; lia | ] ] ].
           intros [ | j'] g Hlt Hg.
           ++ cbn in Hg. injection Hg as <-. rewrite Hf0. discriminate.
           ++ apply (Hearlier j' g); [lia | exact Hg].
      * intros ([ | j] & f & t & Hj & Ht & -> & Hearlier).
        -- left. cbn in Hj. injection Hj as <-. rewrite Hf0 in Ht. injection Ht as <-.
           rewrite Nat.add_0_r. reflexivity.
        -- right. exists j, f, t.
           split; [exact Hj | split; [exact Ht | split; [f_equal; lia | ] ] ].
           intros j' g Hlt Hg. apply (Hearlier (S j') g); [lia | exact Hg].
    + cbn [fst]. split; [intros H; inversion H | ].
      intros ([ | j] & f & t & Hj & Ht & _ & Hearlier).
      * cbn in Hj. injection Hj as <-. congruence.
      * exfalso. apply (Hearlier 0%nat f0); [lia | reflexivity | exact Hf0].
  - rewrite IH. split.
    + intros (j & f & t & Hj & Ht & -> & Hearlier). exists (S j), f, t.
      split; [exact Hj | split; [exact Ht | split; [f_equal; lia | ] ] ].
      intros [ | j'] g Hlt Hg; [discriminate Hg | ].
      apply (Hearlier j' g); [lia | exact Hg].
    + intros ([ | j] & f & t & Hj & Ht & -> & Hearlier); [discriminate Hj | ].
      exists j, f, t.
      split; [exact Hj | split; [exact Ht | split; [f_equal; lia | ] ] ].
      intros j' g Hlt Hg. apply (Hearlier (S j') g); [lia | exact Hg].
Qed.

Lemma rendered_sorted (engine : Engine) (cb : Callback) (files : list (option File)) :
  forall i : nat,
    Forall (fun n => (i <= n)%nat) (item_index <$> fst (rendered engine i files cb)) /\
    StronglySorted lt (item_index <$> fst (rendered engine i files cb)).
Proof.
  induction files as [ | [f0 | ] files IH]; intros i; cbn [rendered].
  - split; constructor.
  - unfold render_item. destruct (file_item_texts engine f0) as [ [n sz] | ].
    + destruct (IH (S i)) as [Hge Hsorted].
      destruct (rendered engine (S i) files cb) as [items c]. cbn [fst] in *.
      rewrite fmap_cons. cbn [item_index]. split.
      * constructor; [lia | ]. eapply Forall_impl; [exact Hge | ]. cbn. intros; lia.
      * constructor; [exact Hsorted | ]. eapply Forall_impl; [exact Hge | ]. cbn. intros; lia.
    + split; constructor.
  - destruct (IH (S i)) as [Hge Hsorted]. split; [ | exact Hsorted].
    eapply Forall_impl; [exact Hge | ]. cbn. intros; lia.
Qed.

(** A rendering completes when the markup of every file keeps its remove
    button, and throws the [TypeError] of the missing button otherwise. *)
Lemma rendered_completes (engine : Engine) (cb : Callback) (files : list (option File)) :
  forall i : nat,
    (snd (rendered engine i files cb) = Normal tt <-> all_render engine files) /\
    (snd (rendered engine i files cb) = Normal tt \/
     snd (rendered engine i files cb)
     = Throw (TypeError_message engine (ReadOfNull "addEventListener"))).
Proof.
  unfold all_render.
  induction files as [ | [f0 | ] files IH]; intros i; cbn [rendered].
  - split; [ | left; reflexivity]. split; [ | reflexivity]. intros _ j f H. discriminate H.
  - unfold render_item. destruct (file_item_texts engine f0) as [ [n sz] | ] eqn:Hf0.
    + destruct (IH (S i)) as [Hiff Hcases].
      destruct (rendered engine (S i) files cb) as [items c]. cbn [snd] in *.
      split; [ | exact Hcases]. rewrite Hiff. split.
      * intros H [ | j] f Hj.
        -- cbn in Hj. injection Hj as <-. rewrite Hf0. discriminate.
        -- apply (H j f Hj).
      * intros H j f Hj. apply (H (S j) f Hj).
    + cbn [snd]. split; [ | right; reflexivity]. split; [discriminate | ].
      intros H. exfalso. apply (H 0%nat f0 eq_refl Hf0).
  - destruct (IH (S i)) as [Hiff Hcases]. split; [ | exact Hcases]. rewrite Hiff. split.
    + intros H [ | j] f Hj; [discriminate Hj | apply (H j f Hj)].
    + intros H j f Hj. apply (H (S j) f Hj).
Qed.

(** X1. [renderFileList] replaces the children of its container by the
    items of the entries that are files, in the order of the array, up to
    the first file whose markup has lost the remove button: an item is
    rendered if and only if it shows what the markup of the file at some
    index shows, its remove button is bound to that index and to the given
    callback, and every file before it was rendered; the indices of the
    rendered items increase. The call completes exactly when every file is
    rendered, and throws the [TypeError] of the missing button otherwise.
    An entry that is not a file is skipped and the files after it keep
    their indices; a file with a plain name shows its name and its size. *)
Theorem renderFileList_items :
  forall (engine : Engine) (container : Zone) (files : list (option File))
         (onRemove : Callback) (s : State),
    let items := file_list container (after (renderFileList engine container files onRemove) s) in
    let completion := snd (renderFileList engine container files onRemove s) in
    (forall item : FileItem,
        item ∈ items <->
        exists f shown,
          files !! item_index item = Some (Some f) /\
          file_item_texts engine f = Some shown /\
          item = mkFileItem (fst shown) (snd shown) (item_index item) onRemove /\
          (forall j g, (j < item_index item)%nat -> files !! j = Some (Some g) ->
                       file_item_texts engine g <> None)) /\
    StronglySorted lt (item_index <$> items) /\
    (completion = Normal tt <-> all_render engine files) /\
    (completion = Normal tt \/
     completion = Throw (TypeError_message engine (ReadOfNull "addEventListener"))) /\
    (forall f, plain_name f -> file_item_texts engine f = Some (name f, size_label engine f)).
Proof.
  intros engine container files onRemove s. cbv zeta. unfold after.
  rewrite renderFileList_rendered. cbn [fst snd]. rewrite file_list_set.
  split; [ | split; [ | split; [ | split] ] ].
  - intros item. rewrite rendered_elem. split.
    + intros (j & f & t & Hj & Ht & -> & Hearlier). exists f, t. cbn [item_index].
      repeat split; assumption.
    + intros (f & t & Hj & Ht & Hitem & Hearlier). exists (item_index item), f, t.
      repeat split; assumption.
  - apply rendered_sorted.
  - apply rendered_completes.
  - apply rendered_completes.
  - intros f. apply plain_name_texts.
Qed.

(** ** Selecting files *)

Lemma rendered_one (engine : Engine) (f : File) (cb : Callback) :
  rendered engine 0 [Some f] cb
  = match file_item_texts engine f with
    | Some shown => ([mkFileItem (fst shown) (snd shown) 0 cb], Normal tt)
    | None => ([], Throw (TypeError_message engine (ReadOfNull "addEventListener")))
    end.
Proof.
  cbn [rendered]. unfold render_item.
  destruct (file_item_texts engine f) as [ [n sz] | ]; reflexivity.
Qed.

(** X2. The slots of the purchase order and of the template hold one file:
    a selection without files changes nothing; a selection of files keeps
    the first one only, replaces what the slot held and leaves the
    timesheets and the other slot as they are. When the markup of the name
    keeps the remove button, the file is the single item of the list, with
    the removal callback of the slot, and the button is recomputed; when it
    does not, the list is left empty, the handler throws and the surfaces
    stay as they were. A file with a plain name is shown by its name and
    size. *)
Theorem single_file_slots_replace :
  forall (engine : Engine) (s : State),
    after (po_onFiles engine []) s = s /\
    after (tpl_onFiles engine []) s = s /\
    (forall f rest,
        let s' := after (po_onFiles engine (f :: rest)) s in
        poPdf s' = Some f /\
        timesheetFiles s' = timesheetFiles s /\ tsFileList s' = tsFileList s /\
        templateFile s' = templateFile s /\ tplFileList s' = tplFileList s /\
        match file_item_texts engine f with
        | Some shown =>
            poFileList s' = [mkFileItem (fst shown) (snd shown) 0 PoRemove] /\
            snd (po_onFiles engine (f :: rest) s) = Normal tt /\
            (enabled s' <-> ready s')
        | None =>
            poFileList s' = [] /\
            snd (po_onFiles engine (f :: rest) s)
            = Throw (TypeError_message engine (ReadOfNull "addEventListener")) /\
            surfaces s' = surfaces s
        end /\
        (plain_name f ->
         poFileList s' = [mkFileItem (name f) (size_label engine f) 0 PoRemove])) /\
    (forall f rest,
        let s' := after (tpl_onFiles engine (f :: rest)) s in
        templateFile s' = Some f /\
        timesheetFiles s' = timesheetFiles s /\ tsFileList s' = tsFileList s /\
        poPdf s' = poPdf s /\ poFileList s' = poFileList s /\
        match file_item_texts engine f with
        | Some shown =>
            tplFileList s' = [mkFileItem (fst shown) (snd shown) 0 TplRemove] /\
            snd (tpl_onFiles engine (f :: rest) s) = Normal tt /\
            (enabled s' <-> ready s')
        | None =>
            tplFileList s' = [] /\
            snd (tpl_onFiles engine (f :: rest) s)
            = Throw (TypeError_message engine (ReadOfNull "addEventListener")) /\
            surfaces s' = surfaces s
        end /\
        (plain_name f ->
         tplFileList s' = [mkFileItem (name f) (size_label engine f) 0 TplRemove])).
Proof.
  intros engine s. split; [reflexivity | split; [reflexivity | split] ];
    intros f rest; cbv zeta; unfold after;
    rewrite ?po_onFiles_run, ?tpl_onFiles_run; cbv zeta; rewrite rendered_one;
    (destruct (file_item_texts engine f) as [shown | ] eqn:Hf;
     [ | repeat split; intros Hplain; rewrite (plain_name_texts engine f Hplain) in Hf;
         discriminate Hf ]);
    cbn [fst snd];
    (split; [reflexivity | ]); (split; [reflexivity | ]); (split; [reflexivity | ]);
    (split; [reflexivity | ]); (split; [reflexivity | ]);
    (split; [ split; [reflexivity | split; [reflexivity | ] ] | ]).
  - match goal with
    | |- context [updateGenerateBtn ?s0] => exact (updateGenerateBtn_enabled s0)
    end.
  - intros Hplain. rewrite (plain_name_texts engine f Hplain) in Hf. injection Hf as <-.
    reflexivity.
  - match goal with
    | |- context [updateGenerateBtn ?s0] => exact (updateGenerateBtn_enabled s0)
    end.
  - intros Hplain. rewrite (plain_name_texts engine f Hplain) in Hf. injection Hf as <-.
    reflexivity.
Qed.

(** The rendering stops at the first file whose markup has lost the remove
    button: the files before it are shown. *)
Lemma rendered_stops (engine : Engine) (cb : Callback) (before : list File)
    (texts : list (string * string)) (g : File) (rest : list File) :
  Forall2 (fun f t => file_item_texts engine f = Some t) before texts ->
  file_item_texts engine g = None ->
  forall i,
    rendered engine i (Some <$> (before ++ g :: rest)%list) cb
    = (imap (fun j t => mkFileItem (fst t) (snd t) (i + j) cb) texts,
       Throw (TypeError_message engine (ReadOfNull "addEventListener"))).
Proof.
  intros Hbefore Hg. induction Hbefore as [ | f t before texts Hf _ IH]; intros i.
  - cbn [app fmap list_fmap rendered]. unfold render_item. rewrite Hg. reflexivity.
  - cbn [app fmap list_fmap rendered]. unfold render_item. rewrite Hf. destruct t as [n sz].
    change (list_fmap File (option File) Some (before ++ g :: rest)%list)
      with (Some <$> (before ++ g :: rest)%list).
    rewrite IH, imap_cons. cbn [fst snd]. rewrite Nat.add_0_r. do 2 f_equal.
    apply imap_ext. intros j x _. cbn. f_equal. lia.
Qed.

(** X3. The slot of the timesheets appends: the files selected are added
    after the files already held, in their order, nothing is dropped, and
    the purchase order and the template are left as they are. The list is
    then rendered anew from the files held. When all of them have plain
    names, there is one item per file held, the item of the file at index
    [i] showing its name and size and bound to [i], and the button is
    recomputed. When the markup of a file held has lost the remove button,
    the files before it are shown, the files from it on are held and not
    shown, the handler throws and the surfaces stay as they were. *)
Theorem timesheets_append :
  forall (engine : Engine) (files : list File) (s : State),
    let s' := after (ts_onFiles engine files) s in
    let held := (timesheetFiles s ++ files)%list in
    timesheetFiles s' = held /\
    poPdf s' = poPdf s /\ poFileList s' = poFileList s /\
    templateFile s' = templateFile s /\ tplFileList s' = tplFileList s /\
    (Forall plain_name held ->
     tsFileList s' = imap (fun i f => mkFileItem (name f) (size_label engine f) i TsRemove) held /\
     length (tsFileList s') = (length (timesheetFiles s) + length files)%nat /\
     snd (ts_onFiles engine files s) = Normal tt /\
     (enabled s' <-> ready s')) /\
    (forall before texts g rest,
        held = (before ++ g :: rest)%list ->
        Forall2 (fun f t => file_item_texts engine f = Some t) before texts ->
        file_item_texts engine g = None ->
        tsFileList s' = imap (fun i t => mkFileItem (fst t) (snd t) i TsRemove) texts /\
        length (tsFileList s') = length before /\
        snd (ts_onFiles engine files s)
        = Throw (TypeError_message engine (ReadOfNull "addEventListener")) /\
        surfaces s' = surfaces s).
Proof.
  intros engine files s. cbv zeta. unfold after. rewrite ts_onFiles_run. cbv zeta.
  split; [ | split; [ | split; [ | split; [ | split; [ | split] ] ] ] ].
  - destruct (snd (rendered engine 0 (Some <$> (timesheetFiles s ++ files)%list) TsRemove));
      reflexivity.
  - destruct (snd (rendered engine 0 (Some <$> (timesheetFiles s ++ files)%list) TsRemove));
      reflexivity.
  - destruct (snd (rendered engine 0 (Some <$> (timesheetFiles s ++ files)%list) TsRemove));
      reflexivity.
  - destruct (snd (rendered engine 0 (Some <$> (timesheetFiles s ++ files)%list) TsRemove));
      reflexivity.
  - destruct (snd (rendered engine 0 (Some <$> (timesheetFiles s ++ files)%list) TsRemove));
      reflexivity.
  - intros Hplain. rewrite (rendered_plain engine TsRemove _ 0 Hplain). cbn [fst snd].
    split; [reflexivity | split; [ | split; [reflexivity | ] ] ].
    + cbn. rewrite length_imap, length_app. reflexivity.
    + match goal with
      | |- context [updateGenerateBtn ?s0] => exact (updateGenerateBtn_enabled s0)
      end.
  - intros before texts g rest Hheld Hbefore Hg. rewrite Hheld.
    rewrite (rendered_stops engine TsRemove before texts g rest Hbefore Hg 0). cbn [fst snd].
    split; [reflexivity | split; [ | split; reflexivity] ].
    cbn. rewrite length_imap. symmetry. apply (Forall2_length _ _ _ Hbefore).
Qed.

(** X4. The handlers of a selection and of a removal write the slots, the
    file lists and the enabled state of the generate button, and nothing
    else: the stored result, the result view, the status line, the error
    banner and its text, the configuration and the health indicator are as
    before, however the handler completes. *)
Theorem selection_writes_selection_only :
  forall (engine : Engine) (s : State),
    let kept (s' : State) :=
      lastResult s' = lastResult s /\ view s' = view s /\
      configTextarea s' = configTextarea s /\ strictCheckbox s' = strictCheckbox s /\
      healthDot s' = healthDot s /\ healthLabel s' = healthLabel s /\
      set_generateBtn_disabled (generateBtn_disabled (surfaces s)) (surfaces s')
      = surfaces s in
    (forall z files, kept (after (onFiles engine z files) s)) /\
    (forall item, kept (after (remove_click engine item) s)).
Proof.
  intros engine s. cbv zeta.
  set (proj := fun s' : State =>
                 (lastResult s', view s', configTextarea s', strictCheckbox s',
                  healthDot s', healthLabel s',
                  set_generateBtn_disabled (generateBtn_disabled (surfaces s)) (surfaces s'))).
  assert (Hkept : forall s', proj s' = proj s ->
            lastResult s' = lastResult s /\ view s' = view s /\
            configTextarea s' = configTextarea s /\ strictCheckbox s' = strictCheckbox s /\
            healthDot s' = healthDot s /\ healthLabel s' = healthLabel s /\
            set_generateBtn_disabled (generateBtn_disabled (surfaces s)) (surfaces s')
            = surfaces s).
  { intros s' H. unfold proj in H.
    destruct (surfaces s) eqn:Hs, (surfaces s') eqn:Hs'. cbn in H.
    injection H; intros; subst. repeat split; try assumption. }
  split.
  - intros z files. apply Hkept. apply (frames_after proj).
    destruct z; cbn [onFiles]; unfold po_onFiles, ts_onFiles, tpl_onFiles, updateGenerateBtn;
      try destruct files; frame.
  - intros item. apply Hkept. apply (frames_after proj).
    unfold remove_click. destruct (item_onRemove item); cbn [call_onRemove];
      unfold updateGenerateBtn; frame.
Qed.

(** X5. The size shown beside a file name is the size in KB below 1 MiB and
    in MB from 1 MiB on, with one fraction digit, rounded to the nearest
    tenth of the unit. *)
Theorem size_label_rounds :
  forall (engine : Engine) (f : File),
    0 <= size f < 2 ^ 53 ->
    exists n : Z,
      0 <= n /\
      if size f <? 1024 * 1024
      then size_label engine f = (digits (n / 10) ++ "." ++ digits_fixed 1 n) ++ " KB" /\
           Z.abs (1024 * n - 10 * size f) <= 512
      else size_label engine f = (digits (n / 10) ++ "." ++ digits_fixed 1 n) ++ " MB" /\
           Z.abs (1024 * 1024 * n - 10 * size f) <= 512 * 1024.
Proof.
  intros engine f [Hlo Hhi]. unfold size_label, Number_toFixed, Qhuge, sign_text, Qnegative.
  change (2 ^ 53) with 9007199254740992 in Hhi.
  destruct (Z.ltb_spec (size f) (1024 * 1024)) as [Hkb | Hmb].
  - exists (round_scaled (size f # 1024) 1). cbn [Qnum Qden].
    destruct (Z.leb_spec (10 ^ 21 * Z.pos 1024) (Z.abs (size f)));
      [change (10 ^ 21) with 1000000000000000000000 in *; lia | ].
    destruct (Z.ltb_spec (size f) 0); [lia | ].
    unfold round_scaled. cbn [Qnum Qden]. change (10 ^ Z.of_nat 1) with 10.
    rewrite (Z.abs_eq (size f)) by exact Hlo.
    split; [apply Z.div_pos; lia | ]. split; [reflexivity | lia].
  - exists (round_scaled (size f # (1024 * 1024)) 1). cbn [Qnum Qden].
    destruct (Z.leb_spec (10 ^ 21 * Z.pos (1024 * 1024)) (Z.abs (size f)));
      [change (10 ^ 21) with 1000000000000000000000 in *; lia | ].
    destruct (Z.ltb_spec (size f) 0); [lia | ].
    unfold round_scaled. cbn [Qnum Qden]. change (10 ^ Z.of_nat 1) with 10.
    rewrite (Z.abs_eq (size f)) by exact Hlo.
    split; [apply Z.div_pos; lia | ]. split; [reflexivity | lia].
Qed.

(** A file of 1.5 MiB. *)
Lemma size_label_rounds_witness :
  exists n : Z,
    0 <= n /\
    size_label Reference.engine sheet_c = (digits (n / 10) ++ "." ++ digits_fixed 1 n) ++ " MB" /\
    Z.abs (1024 * 1024 * n - 10 * size sheet_c) <= 512 * 1024.
Proof.
  apply (size_label_rounds Reference.engine sheet_c). cbn. lia.
Defined.

(** ** What a click sends *)

Ltac member := repeat first [ apply list_elem_of_here | apply list_elem_of_further ].

Lemma getAll_app (k : string) (a b : list (string * FormValue)) :
  getAll k (a ++ b) = (getAll k a ++ getAll k b)%list.
Proof. apply omap_app. Qed.

Lemma getAll_repeated (k field : string) (files : list File) :
  getAll k ((fun ts => (field, FormFile ts)) <$> files)
  = if String.eqb field k then FormFile <$> files else [].
Proof.
  unfold getAll. induction files as [ | f files IH]; cbn.
  - destruct (String.eqb field k); reflexivity.
  - cbn in IH. rewrite IH. destruct (String.eqb field k); reflexivity.
Qed.

(** X6. The form [generateInvoice] posts holds, under [timesheets], every
    timesheet file once and in the order of the list, under [po_pdf],
    [template], [engineer_config] and [strict] one value each (the two
    files, the configuration as [JSON.stringify] writes it, and the text
    [true] or [false]), and no other entry. *)
Theorem formData_fields :
  forall (engine : Engine) (poPdf template : File) (timesheets : list File)
         (engineerConfig : JsVal) (strict : bool),
    let form :=
      generateInvoice_formData engine (Some poPdf) timesheets (Some template)
        engineerConfig strict in
    getAll "timesheets" form = FormFile <$> timesheets /\
    getAll "po_pdf" form = [FormFile poPdf] /\
    getAll "template" form = [FormFile template] /\
    getAll "engineer_config" form = [FormText (JSON_stringify engine engineerConfig)] /\
    getAll "strict" form = [FormText (if strict then "true" else "false")] /\
    length form = (length timesheets + 4)%nat /\
    (forall k, k ∈ fst <$> form ->
               k ∈ ["po_pdf"; "timesheets"; "template"; "engineer_config"; "strict"]).
Proof.
  intros engine poPdf template timesheets engineerConfig strict. cbv zeta.
  unfold generateInvoice_formData.
  repeat split.
  - rewrite !getAll_app, getAll_repeated. cbn. apply app_nil_r.
  - rewrite !getAll_app, getAll_repeated. reflexivity.
  - rewrite !getAll_app, getAll_repeated. reflexivity.
  - rewrite !getAll_app, getAll_repeated. reflexivity.
  - rewrite !getAll_app, getAll_repeated. reflexivity.
  - rewrite !length_app, length_fmap. cbn. lia.
  - intros k Hk. rewrite !fmap_app, <- list_fmap_compose in Hk.
    rewrite !elem_of_app in Hk. destruct Hk as [Hk | [Hk | Hk] ].
    + cbn in Hk. apply elem_of_cons in Hk. destruct Hk as [-> | Hk]; [member | ].
      apply elem_of_nil in Hk. contradiction.
    + apply list_elem_of_fmap in Hk. destruct Hk as (f & -> & _). cbn. member.
    + cbn in Hk. repeat (apply elem_of_cons in Hk; destruct Hk as [-> | Hk]; [member | ]).
      apply elem_of_nil in Hk. contradiction.
Qed.

(** X7. A click on the enabled button with a configuration that parses
    sends exactly one request: it carries the purchase order, the
    timesheets and the template selected at the click, the parsed
    configuration and the strict flag. The status line is shown with its
    text, the result section and the error banner are hidden, the button is
    disabled, and the error text, the selection and the stored result are
    as before. *)
Theorem generate_click_request :
  forall (engine : Engine) (w : World) (config : JsVal),
    generateBtn_disabled (surfaces (page w)) = false ->
    JSON_parse engine (configTextarea (page w)) = Normal config ->
    let s := page w in
    step engine w ClickGenerate =
    mkWorld
      (set_surfaces
         (mkSurfaces true false "Processing... This may take 10-30 seconds." true true
            (errorText (surfaces s))) s)
      (in_flight w ++ [generateInvoice_request engine (poPdf s) (timesheetFiles s)
                         (templateFile s) config (strictCheckbox s)]).
Proof.
  intros engine w config Henabled Hparse. cbv zeta.
  unfold step. rewrite Henabled. unfold generate_click. rewrite Hparse.
  reflexivity.
Qed.

(** The ready page with a configuration of one property. *)
Lemma generate_click_request_witness :
  let text := "{ " ++ Reference.quote "site" ++ " : " ++ Reference.quote "A" ++ " }" in
  let sent := "{" ++ Reference.quote "site" ++ ":" ++ Reference.quote "A" ++ "}" in
  let w := ready_world text in
  in_flight (step Reference.engine w ClickGenerate)
  = [mkRequest (Some (mkFile "po.pdf" 300000)) [sheet_a]
       (Some (mkFile "template.xlsx" 20000)) sent "false"] /\
  generateBtn_disabled (surfaces (page (step Reference.engine w ClickGenerate))) = true.
Proof.
  pose proof (generate_click_request Reference.engine
                (ready_world ("{ " ++ Reference.quote "site" ++ " : "
                                ++ Reference.quote "A" ++ " }"))
                (VObj [("site", VStr "A")]) eq_refl eq_refl) as H.
  cbv zeta in H |- *. rewrite H. split; reflexivity.
Defined.

(** ** When a request settles *)

(** Every exception of a generation attempt is caught. *)
Lemma generate_settle_completes (engine : Engine) (outcome : FetchOutcome) (s : State) :
  snd (generate_settle engine outcome s) = Normal tt.
Proof.
  unfold generate_settle, try_finally, try_catch.
  match goal with
  | |- context [match ?body s with _ => _ end] => destruct (body s) as [s1 [ [] | m]]
  end; reflexivity.
Qed.

(** X8. However a generation attempt ends (a result, a reported failure, a
    failed transport, a response the page cannot show), the handler
    completes without an exception of its own, the status line is hidden
    again, and the generate button is enabled exactly when the selection is
    complete; the selection, the file lists, the configuration and the
    health indicator are untouched. *)
Theorem generate_settle_cleans_up :
  forall (engine : Engine) (outcome : FetchOutcome) (s : State),
    let s' := after (generate_settle engine outcome) s in
    snd (generate_settle engine outcome s) = Normal tt /\
    statusSection_hidden (surfaces s') = true /\
    (generateBtn_disabled (surfaces s') = false <->
       poPdf s <> None /\ templateFile s <> None /\ timesheetFiles s <> []) /\
    (poPdf s', timesheetFiles s', templateFile s') = (poPdf s, timesheetFiles s, templateFile s) /\
    (poFileList s', tsFileList s', tplFileList s') = (poFileList s, tsFileList s, tplFileList s) /\
    (configTextarea s', strictCheckbox s') = (configTextarea s, strictCheckbox s) /\
    (healthDot s', healthLabel s') = (healthDot s, healthLabel s).
Proof.
  intros engine outcome s. cbv zeta.
  assert (Hsel : (fun x => (poPdf x, timesheetFiles x, templateFile x))
                   (after (generate_settle engine outcome) s)
                 = (poPdf s, timesheetFiles s, templateFile s)).
  { apply (frames_after (fun x => (poPdf x, timesheetFiles x, templateFile x))).
    apply generate_settle_frames; reflexivity. }
  cbv beta in Hsel.
  split; [apply generate_settle_completes | ].
  split; [ | split; [ | split; [exact Hsel | split; [ | split ] ] ] ].
  - unfold generate_settle. rewrite try_finally_after. reflexivity.
  - injection Hsel as Hpo Hts Htpl. rewrite <- Hpo, <- Hts, <- Htpl.
    unfold generate_settle. rewrite try_finally_after.
    unfold after at 1 4 5 6. unfold modify_surfaces. rewrite bind_modify.
    match goal with
    | |- context [updateGenerateBtn ?s0] =>
        change (fst (updateGenerateBtn s0)) with (after updateGenerateBtn s0);
        exact (updateGenerateBtn_enabled s0)
    end.
  - apply (frames_after (fun x => (poFileList x, tsFileList x, tplFileList x))).
    apply generate_settle_frames; reflexivity.
  - apply (frames_after (fun x => (configTextarea x, strictCheckbox x))).
    apply generate_settle_frames; reflexivity.
  - apply (frames_after (fun x => (healthDot x, healthLabel x))).
    apply generate_settle_frames; reflexivity.
Qed.

Lemma generateInvoice_not_ok (engine : Engine) (response : Response) :
  ok response = false -> exists m, generateInvoice engine (Fulfilled response) = Throw m.
Proof.
  intros Hok. unfold generateInvoice. rewrite Hok. cbn [negb]. cbv zeta.
  destruct (or_catch _ _) as [d | m0]; cbn; [ | eexists; reflexivity ].
  destruct (Error_message engine d) as [m | m]; eexists; reflexivity.
Qed.

(** X9. A response whose status is not ok is never shown as a result,
    whatever its body says, a body with [success] true included:
    [generateInvoice] throws, the banner shows the message after
    ["Request failed: "], the result section is hidden, and the stored
    result and the result view stay as they were. *)
Theorem not_ok_is_a_failure :
  forall (engine : Engine) (response : Response) (s : State),
    ok response = false ->
    exists m,
      generateInvoice engine (Fulfilled response) = Throw m /\
      let s' := after (generate_settle engine (Fulfilled response)) s in
      errorText (surfaces s') = "Request failed: " ++ m /\
      errorSection_hidden (surfaces s') = false /\
      resultsSection_hidden (surfaces s') = true /\
      lastResult s' = lastResult s /\
      view s' = view s.
Proof.
  intros engine response s Hok.
  destruct (generateInvoice_not_ok engine response Hok) as [m Hm].
  exists m. split; [exact Hm | ]. cbv zeta.
  rewrite (generate_settle_failure engine (Fulfilled response) m s Hm).
  repeat split.
Qed.

(** The sample result under the status 500. *)
Lemma not_ok_is_a_failure_witness :
  let s' := after (generate_settle Reference.engine
                     (Fulfilled (mkResponse 500 (Normal (VObj sample_result)))))
              loaded_page in
  errorText (surfaces s') = "Request failed: HTTP 500" /\
  resultsSection_hidden (surfaces s') = true /\
  lastResult s' = VNull.
Proof.
  destruct (not_ok_is_a_failure Reference.engine
              (mkResponse 500 (Normal (VObj sample_result))) loaded_page eq_refl)
    as (m & Hm & H).
  cbv zeta in H |- *. destruct H as (_ & _ & H3 & H4 & _).
  split; [reflexivity | ]. split; [exact H3 | exact H4].
Defined.

(** ** A response of the documented shape *)

Lemma Get_number (engine : Engine) (fields : list (string * JsVal)) (k : string) (q : Q) :
  has_number fields k q -> Get engine (VObj fields) k = Normal (VNum q).
Proof. unfold has_number. intros H. cbn. rewrite H. reflexivity. Qed.

Lemma Get_string (engine : Engine) (fields : list (string * JsVal)) (k t : string) :
  has_string fields k t -> Get engine (VObj fields) k = Normal (VStr t).
Proof. unfold has_string. intros H. cbn. rewrite H. reflexivity. Qed.

Lemma engineer_row_data (engine : Engine) (fields : list (string * JsVal))
    (hours rate cost : string) (h : HoursData) :
  has_hours fields hours rate cost h ->
  engineer_row engine (VObj fields) hours rate cost = Normal (row_of engine h).
Proof.
  intros (Hh & Hr & Hc). unfold engineer_row.
  rewrite (Get_number engine fields hours _ Hh), (Get_number engine fields rate _ Hr),
    (Get_number engine fields cost _ Hc).
  reflexivity.
Qed.

Lemma engineer_card_data (engine : Engine) (v : JsVal) (e : EngineerData) :
  is_engineer v e -> engineer_card engine v = Normal (card_of engine e).
Proof.
  intros (fields & -> & Hname & Hcat & Htotal & Hn & Ho & Hh). unfold engineer_card.
  rewrite (Get_string engine fields "name" _ Hname),
    (Get_string engine fields "category" _ Hcat),
    (Get_number engine fields "total_cost" _ Htotal),
    (engineer_row_data engine fields _ _ _ _ Hn),
    (engineer_row_data engine fields _ _ _ _ Ho),
    (engineer_row_data engine fields _ _ _ _ Hh).
  reflexivity.
Qed.

Lemma set_engineer_cards_app (cards more : list Card) (s : State) :
  set_view (set_engineer_cards ((engineer_cards (view (set_view (set_engineer_cards cards (view s)) s))) ++ more)
              (view (set_view (set_engineer_cards cards (view s)) s)))
    (set_view (set_engineer_cards cards (view s)) s)
  = set_view (set_engineer_cards (cards ++ more) (view s)) s.
Proof. reflexivity. Qed.

(** The loop over engineers of the documented shape appends their cards in
    order. *)
Lemma append_cards_data (engine : Engine) (engs : list JsVal) (es : list EngineerData)
    (cards : list Card) (s : State) :
  Forall2 is_engineer engs es ->
  append_cards engine engs (set_view (set_engineer_cards cards (view s)) s)
  = (set_view (set_engineer_cards (cards ++ (card_of engine <$> es)) (view s)) s, Normal tt).
Proof.
  intros H. revert cards. induction H as [ | eng e engs es Heng _ IH]; intros cards.
  - cbn. rewrite app_nil_r. reflexivity.
  - cbn [append_cards]. rewrite (engineer_card_data engine eng e Heng).
    rewrite bind_eval_Normal. unfold modify_view. rewrite bind_modify.
    cbv beta. rewrite set_engineer_cards_app. rewrite IH.
    rewrite <- app_assoc. reflexivity.
Qed.

(** The loop stops at the first engineer whose card cannot be built, with
    the cards before it appended. *)
Lemma append_cards_stops (engine : Engine) (good : list JsVal) (es : list EngineerData)
    (bad : JsVal) (rest : list JsVal) (m : string) (cards : list Card) (s : State) :
  Forall2 is_engineer good es ->
  engineer_card engine bad = Throw m ->
  append_cards engine (good ++ bad :: rest) (set_view (set_engineer_cards cards (view s)) s)
  = (set_view (set_engineer_cards (cards ++ (card_of engine <$> es)) (view s)) s, Throw m).
Proof.
  intros H Hbad. revert cards. induction H as [ | eng e engs es Heng _ IH]; intros cards.
  - cbn [app append_cards]. rewrite Hbad. rewrite bind_eval_Throw.
    cbn. rewrite app_nil_r. reflexivity.
  - cbn [app append_cards]. rewrite (engineer_card_data engine eng e Heng).
    rewrite bind_eval_Normal. unfold modify_view. rewrite bind_modify.
    cbv beta. rewrite set_engineer_cards_app. rewrite IH.
    rewrite <- app_assoc. reflexivity.
Qed.

Ltac js_run :=
  repeat first
    [ rewrite bind_modify
    | rewrite bind_eval_Normal
    | rewrite bind_eval_Throw
    | progress cbv beta ].

(** [showResults] up to the loop over the engineers, for a summary of the
    documented shape. *)
Lemma showResults_summary (engine : Engine) (fields : list (string * JsVal)) (sv : JsVal)
    (d : SummaryData) (s : State) :
  own_property fields "summary" = Some sv ->
  is_summary sv d ->
  showResults engine (VObj fields) s =
  (engineers ← eval (Get engine (VObj fields) "engineers");
   engs ← eval (iterate engine engineers);
   append_cards engine engs;;
   modify_view (set_dl_excel (Some (VObj fields)));;
   modify_view (set_dl_audit (Some (VObj fields))))
    (set_view
       (set_engineer_cards []
          (mkResultsView
             ("$" ++ Number_toLocaleString engine (sum_grand_total_usd d))
             (sum_contract_number d)
             (Number_toFixed engine (sum_total_hours d) 0)
             (Number_text engine (sum_total_engineers d))
             (Number_toFixed engine (sum_total_normal_hours d) 0)
             (Number_toFixed engine (sum_total_ot_hours d) 0)
             (Number_toFixed engine (sum_total_hot_hours d) 0)
             (engineer_cards (view s)) (dl_excel (view s)) (dl_audit (view s))))
       (set_surfaces
          (set_errorSection_hidden true (set_resultsSection_hidden false (surfaces s))) s)).
Proof.
  intros Hsummary (sf & -> & Hgt & Hcn & Hth & Hte & Hnh & Hoh & Hhh).
  unfold showResults, modify_surfaces, modify_view, show_field, show_hours.
  rewrite !bind_modify.
  assert (Hs : Get engine (VObj fields) "summary" = Normal (VObj sf))
    by (cbn; rewrite Hsummary; reflexivity).
  rewrite Hs. js_run.
  rewrite (Get_number engine sf _ _ Hgt). js_run. cbn [dollars toLocaleString mbind Completion_bind].
  js_run.
  rewrite (Get_string engine sf _ _ Hcn). js_run. cbn [textContent_of nullish ToString]. js_run.
  rewrite (Get_number engine sf _ _ Hth). js_run. cbn [toFixed]. js_run.
  rewrite (Get_number engine sf _ _ Hte). js_run. cbn [textContent_of nullish ToString]. js_run.
  rewrite (Get_number engine sf _ _ Hnh). js_run. cbn [toFixed]. js_run.
  rewrite (Get_number engine sf _ _ Hoh). js_run. cbn [toFixed]. js_run.
  rewrite (Get_number engine sf _ _ Hhh). js_run. cbn [toFixed]. js_run.
  reflexivity.
Qed.

Lemma showResults_data (engine : Engine) (fields : list (string * JsVal)) (sv : JsVal)
    (d : SummaryData) (engs : list JsVal) (es : list EngineerData) (s : State) :
  own_property fields "summary" = Some sv ->
  is_summary sv d ->
  own_property fields "engineers" = Some (VArr engs) ->
  Forall2 is_engineer engs es ->
  showResults engine (VObj fields) s =
  (set_view (view_of engine d es (VObj fields))
     (set_surfaces
        (set_errorSection_hidden true (set_resultsSection_hidden false (surfaces s))) s),
   Normal tt).
Proof.
  intros Hsummary Hd Hengs Hes.
  rewrite (showResults_summary engine fields sv d s Hsummary Hd).
  assert (He : Get engine (VObj fields) "engineers" = Normal (VArr engs))
    by (cbn; rewrite Hengs; reflexivity).
  rewrite He. js_run. cbn [iterate]. js_run.
  match goal with
  | |- (?c ≫= ?k) (set_view (set_engineer_cards [] ?v) ?s0) = _ =>
      rewrite (bind_result c k (set_view (set_engineer_cards [] v) s0) _ tt
                 (append_cards_data engine engs es [] (set_view v s0) Hes))
  end.
  reflexivity.
Qed.

Lemma showResults_stops (engine : Engine) (fields : list (string * JsVal)) (sv : JsVal)
    (d : SummaryData) (good : list JsVal) (es : list EngineerData) (bad : JsVal)
    (rest : list JsVal) (m : string) (s : State) :
  own_property fields "summary" = Some sv ->
  is_summary sv d ->
  own_property fields "engineers" = Some (VArr (good ++ bad :: rest)) ->
  Forall2 is_engineer good es ->
  engineer_card engine bad = Throw m ->
  showResults engine (VObj fields) s =
  (set_view
     (set_dl_audit (dl_audit (view s))
        (set_dl_excel (dl_excel (view s)) (view_of engine d es (VObj fields))))
     (set_surfaces
        (set_errorSection_hidden true (set_resultsSection_hidden false (surfaces s))) s),
   Throw m).
Proof.
  intros Hsummary Hd Hengs Hes Hbad.
  rewrite (showResults_summary engine fields sv d s Hsummary Hd).
  assert (He : Get engine (VObj fields) "engineers" = Normal (VArr (good ++ bad :: rest)))
    by (cbn; rewrite Hengs; reflexivity).
  rewrite He. js_run. cbn [iterate]. js_run.
  match goal with
  | |- (?c ≫= ?k) (set_view (set_engineer_cards [] ?v) ?s0) = _ =>
      rewrite (bind_thrown c k (set_view (set_engineer_cards [] v) s0) _ m
                 (append_cards_stops engine good es bad rest m [] (set_view v s0) Hes Hbad))
  end.
  reflexivity.
Qed.

(** A response with a truthy [success]: the page after the attempt, from
    what [showResults] does. *)
Lemma generate_settle_shows (engine : Engine) (outcome : FetchOutcome)
    (fields : list (string * JsVal)) (s s2 : State) (c : Completion unit) :
  generateInvoice engine outcome = Normal (VObj fields) ->
  truthy (default VUndefined (own_property fields "success")) = true ->
  showResults engine (VObj fields) (set_lastResult (VObj fields) s) = (s2, c) ->
  after (generate_settle engine outcome) s =
  after (modify_surfaces (set_statusSection_hidden true);; updateGenerateBtn)
    match c with
    | Normal _ => s2
    | Throw m => after (showError engine (VStr ("Request failed: " ++ m))) s2
    end.
Proof.
  intros Hgen Hsuccess Hshow.
  unfold after at 1. rewrite (generate_settle_response engine outcome _ s Hgen).
  change (fst (try_finally ?b ?c0 ?s0)) with (after (try_finally b c0) s0).
  rewrite try_finally_after. f_equal.
  unfold after, try_catch. cbn [Get]. rewrite bind_eval_Normal, Hsuccess, Hshow.
  destruct c; reflexivity.
Qed.

(** X10. A response of the documented shape with [success] true is shown in
    full: the grand total and the costs as dollar amounts, the hours
    rounded to whole numbers, the rates with two fraction digits, one card
    per engineer in the order of the response, replacing the cards shown
    before, and both download buttons bound to this response. The result
    section is shown, the error banner hidden, and the response is the
    stored result. The grand total reads ["$"] and the thousandths nearest
    to the decimal of the Number; the total of hours, below 10^21, reads
    the integer nearest to the Number. *)
Theorem documented_response_is_rendered :
  forall (engine : Engine) (response : Response) (fields : list (string * JsVal))
         (sv : JsVal) (d : SummaryData) (engs : list JsVal) (es : list EngineerData)
         (s : State),
    ok response = true ->
    body_json response = Normal (VObj fields) ->
    own_property fields "success" = Some (VBool true) ->
    own_property fields "summary" = Some sv ->
    is_summary sv d ->
    own_property fields "engineers" = Some (VArr engs) ->
    Forall2 is_engineer engs es ->
    let s' := after (generate_settle engine (Fulfilled response)) s in
    view s' = view_of engine d es (VObj fields) /\
    length (engineer_cards (view s')) = length engs /\
    resultsSection_hidden (surfaces s') = false /\
    errorSection_hidden (surfaces s') = true /\
    errorText (surfaces s') = errorText (surfaces s) /\
    lastResult s' = VObj fields /\
    (exists text,
        grand_total (view s') = "$" ++ text /\
        amount_text (Qnum (sum_grand_total_usd d) <? 0)
          (Qabs (decimal_value (Number_decimal engine (sum_grand_total_usd d)))) text) /\
    (Qhuge (sum_total_hours d) = false ->
     whole_text (Qnum (sum_total_hours d) <? 0) (Qabs (sum_total_hours d))
       (total_hours (view s'))).
Proof.
  intros engine response fields sv d engs es s Hok Hbody Hsuccess Hsummary Hd Hengs Hes.
  cbv zeta.
  rewrite (generate_settle_shows engine (Fulfilled response) fields s _ _
             ltac:(rewrite generateInvoice_ok by exact Hok; exact Hbody)
             ltac:(rewrite Hsuccess; reflexivity)
             (showResults_data engine fields sv d engs es _ Hsummary Hd Hengs Hes)).
  split; [reflexivity | ]. split; [ | repeat split ].
  - change (length (card_of engine <$> es) = length engs).
    rewrite length_fmap. symmetry. eapply Forall2_length. exact Hes.
  - eexists. split; [reflexivity | ]. apply Number_toLocaleString_nearest.
  - intros Hhuge. apply (Number_toFixed_whole engine _ Hhuge).
Qed.

Lemma sample_summary_is_summary : is_summary (VObj sample_summary) sample_summary_data.
Proof. exists sample_summary. repeat split. Qed.

Lemma sample_engineer_is_engineer : is_engineer sample_engineer sample_engineer_data.
Proof. eexists. split; [reflexivity | ]. repeat split. Qed.

Lemma sample_engineers_are_engineers :
  Forall2 is_engineer [sample_engineer] [sample_engineer_data].
Proof. constructor; [exact sample_engineer_is_engineer | constructor]. Qed.

(** The sample response. *)
Lemma documented_response_is_rendered_witness :
  let s' := after (generate_settle Reference.engine sample_success) loaded_page in
  view s' = view_of Reference.engine sample_summary_data [sample_engineer_data]
              (VObj sample_result) /\
  length (engineer_cards (view s')) = 1%nat /\
  resultsSection_hidden (surfaces s') = false /\
  errorSection_hidden (surfaces s') = true /\
  errorText (surfaces s') = "" /\
  lastResult s' = VObj sample_result.
Proof.
  pose proof (documented_response_is_rendered Reference.engine
                (mkResponse 200 (Normal (VObj sample_result))) sample_result
                (VObj sample_summary) sample_summary_data [sample_engineer]
                [sample_engineer_data] loaded_page
                eq_refl eq_refl eq_refl eq_refl sample_summary_is_summary eq_refl
                sample_engineers_are_engineers) as H.
  cbv zeta in H |- *. destruct H as (H1 & H2 & H3 & H4 & H5 & H6 & _).
  repeat split; assumption.
Defined.

(** X11. A response with [success] true whose list of engineers holds, after
    engineers of the documented shape, an entry whose card cannot be built
    (an entry that is null, an engineer without a rate) is not shown: the
    banner shows the message of the exception after ["Request failed: "]
    and the result section is hidden. By then the response is the stored
    result, the summary and the cards of the engineers before the entry are
    written, and the download buttons are still bound as before. *)
Theorem malformed_engineer_is_a_failure :
  forall (engine : Engine) (response : Response) (fields : list (string * JsVal))
         (sv : JsVal) (d : SummaryData) (good : list JsVal) (es : list EngineerData)
         (bad : JsVal) (rest : list JsVal) (m : string) (s : State),
    ok response = true ->
    body_json response = Normal (VObj fields) ->
    own_property fields "success" = Some (VBool true) ->
    own_property fields "summary" = Some sv ->
    is_summary sv d ->
    own_property fields "engineers" = Some (VArr (good ++ bad :: rest)) ->
    Forall2 is_engineer good es ->
    engineer_card engine bad = Throw m ->
    let s' := after (generate_settle engine (Fulfilled response)) s in
    errorText (surfaces s') = "Request failed: " ++ m /\
    errorSection_hidden (surfaces s') = false /\
    resultsSection_hidden (surfaces s') = true /\
    lastResult s' = VObj fields /\
    engineer_cards (view s') = card_of engine <$> es /\
    dl_excel (view s') = dl_excel (view s) /\
    dl_audit (view s') = dl_audit (view s) /\
    (exists text,
        grand_total (view s') = "$" ++ text /\
        amount_text (Qnum (sum_grand_total_usd d) <? 0)
          (Qabs (decimal_value (Number_decimal engine (sum_grand_total_usd d)))) text).
Proof.
  intros engine response fields sv d good es bad rest m s
    Hok Hbody Hsuccess Hsummary Hd Hengs Hes Hbad.
  cbv zeta.
  rewrite (generate_settle_shows engine (Fulfilled response) fields s _ _
             ltac:(rewrite generateInvoice_ok by exact Hok; exact Hbody)
             ltac:(rewrite Hsuccess; reflexivity)
             (showResults_stops engine fields sv d good es bad rest m _
                Hsummary Hd Hengs Hes Hbad)).
  split; [reflexivity | ]. split; [reflexivity | ]. split; [reflexivity | ].
  split; [reflexivity | ]. split; [reflexivity | ]. split; [reflexivity | ].
  split; [reflexivity | ].
  eexists. split; [reflexivity | ]. apply Number_toLocaleString_nearest.
Qed.

(** The sample response with a second engineer that is null. *)
Lemma malformed_engineer_is_a_failure_witness :
  let fields :=
    [("success", VBool true); ("summary", VObj sample_summary);
     ("engineers", VArr [sample_engineer; VNull])] in
  let s' := after (generate_settle Reference.engine
                     (Fulfilled (mkResponse 200 (Normal (VObj fields))))) loaded_page in
  errorText (surfaces s')
    = "Request failed: Cannot read properties of null (reading 'name')" /\
  resultsSection_hidden (surfaces s') = true /\
  engineer_cards (view s') = [card_of Reference.engine sample_engineer_data] /\
  dl_excel (view s') = None.
Proof.
  pose proof (malformed_engineer_is_a_failure Reference.engine
                (mkResponse 200 (Normal (VObj
                   [("success", VBool true); ("summary", VObj sample_summary);
                    ("engineers", VArr [sample_engineer; VNull])])))
                [("success", VBool true); ("summary", VObj sample_summary);
                 ("engineers", VArr [sample_engineer; VNull])]
                (VObj sample_summary) sample_summary_data
                [sample_engineer] [sample_engineer_data] VNull []
                "Cannot read properties of null (reading 'name')" loaded_page
                eq_refl eq_refl eq_refl eq_refl sample_summary_is_summary eq_refl
                sample_engineers_are_engineers eq_refl) as H.
  cbv zeta in H |- *. destruct H as (H1 & _ & H3 & _ & H5 & H6 & _).
  split; [exact H1 | ]. split; [exact H3 | ]. split; [exact H5 | exact H6].
Defined.

(** ** Responses of another shape *)

(** X12. A response whose [success] is missing or falsy and whose [errors]
    is missing or null (an object without these properties, a bare
    string, number or array) shows ["Unknown error"] in the banner, hides
    the result section and becomes the stored result. *)
Theorem missing_errors_show_unknown_error :
  forall (engine : Engine) (response : Response) (result success errors : JsVal)
         (s : State),
    ok response = true ->
    body_json response = Normal result ->
    Get engine result "success" = Normal success ->
    truthy success = false ->
    Get engine result "errors" = Normal errors ->
    nullish errors = true ->
    let s' := after (generate_settle engine (Fulfilled response)) s in
    errorText (surfaces s') = "Unknown error" /\
    errorSection_hidden (surfaces s') = false /\
    resultsSection_hidden (surfaces s') = true /\
    lastResult s' = result /\
    view s' = view s.
Proof.
  intros engine response result success errors s Hok Hbody Hsuccess Hfalsy Herrors Hnull.
  cbv zeta. unfold after.
  rewrite (generate_settle_response engine (Fulfilled response) result s
             ltac:(rewrite generateInvoice_ok by exact Hok; exact Hbody)).
  unfold try_finally, try_catch, error_list.
  rewrite Hsuccess, bind_eval_Normal, Hfalsy, Herrors.
  destruct errors; try discriminate Hnull; repeat split.
Qed.

(** A body that is the empty object. *)
Lemma missing_errors_show_unknown_error_witness :
  let s' := after (generate_settle Reference.engine
                     (Fulfilled (mkResponse 200 (Normal (VObj []))))) loaded_page in
  errorText (surfaces s') = "Unknown error" /\
  errorSection_hidden (surfaces s') = false /\
  resultsSection_hidden (surfaces s') = true /\
  lastResult s' = VObj [] /\
  view s' = view loaded_page.
Proof.
  apply (missing_errors_show_unknown_error Reference.engine
           (mkResponse 200 (Normal (VObj []))) (VObj []) VUndefined VUndefined loaded_page);
    reflexivity.
Defined.

(** X13. A response that is stored and then cannot be read (a body that is
    null, whose [success] cannot be read) ends in the banner: it shows the
    message of the exception after ["Request failed: "], the result section
    is hidden, the result view is untouched, and the unreadable body is the
    stored result. *)
Theorem unreadable_result_is_a_failure :
  forall (engine : Engine) (response : Response) (result : JsVal) (m : string) (s : State),
    ok response = true ->
    body_json response = Normal result ->
    Get engine result "success" = Throw m ->
    let s' := after (generate_settle engine (Fulfilled response)) s in
    errorText (surfaces s') = "Request failed: " ++ m /\
    errorSection_hidden (surfaces s') = false /\
    resultsSection_hidden (surfaces s') = true /\
    lastResult s' = result /\
    view s' = view s.
Proof.
  intros engine response result m s Hok Hbody Hsuccess. cbv zeta. unfold after.
  rewrite (generate_settle_response engine (Fulfilled response) result s
             ltac:(rewrite generateInvoice_ok by exact Hok; exact Hbody)).
  unfold try_finally, try_catch.
  rewrite Hsuccess, bind_eval_Throw. repeat split.
Qed.

(** The body [null]. *)
Lemma unreadable_result_is_a_failure_witness :
  let s' := after (generate_settle Reference.engine
                     (Fulfilled (mkResponse 200 (JSON_parse Reference.engine "null"))))
              loaded_page in
  errorText (surfaces s')
    = "Request failed: Cannot read properties of null (reading 'success')" /\
  errorSection_hidden (surfaces s') = false /\
  resultsSection_hidden (surfaces s') = true /\
  lastResult s' = VNull /\
  view s' = view loaded_page.
Proof.
  apply (unreadable_result_is_a_failure Reference.engine
           (mkResponse 200 (JSON_parse Reference.engine "null")) VNull
           "Cannot read properties of null (reading 'success')" loaded_page);
    reflexivity.
Defined.

(** ** A detail that is not a text *)

Lemma ToString_VArr (engine : Engine) (l : list JsVal) :
  ToString engine (VArr l) = Array_join engine l ",".
Proof. reflexivity. Qed.

Lemma Array_join_objects (engine : Engine) (objs : list (list (string * JsVal)))
    (sep : string) :
  Forall (fun fields => own_property fields "toString" = None) objs ->
  Array_join engine (VObj <$> objs) sep
  = Normal (String.concat sep (replicate (length objs) "[object Object]")).
Proof.
  intros H. unfold Array_join.
  assert (Hparts : mapM (element_text engine) (VObj <$> objs)
                   = Normal (replicate (length objs) "[object Object]")).
  { induction H as [ | fields objs Hfields _ IH]; [reflexivity | ].
    cbn. cbn in IH. rewrite Hfields, IH. reflexivity. }
  rewrite Hparts. reflexivity.
Qed.

(** X14. A status that is not ok whose error body carries a [detail] that is
    a list of objects (the validation errors of the backend framework) is
    shown as the text of that list: one ["[object Object]"] per entry,
    separated by commas, after ["Request failed: "]; the [errors] of the
    body and the status code are not consulted. *)
Theorem structured_detail_is_shown_as_objects :
  forall (engine : Engine) (response : Response) (fields : list (string * JsVal))
         (objs : list (list (string * JsVal))) (s : State),
    ok response = false ->
    body_json response = Normal (VObj fields) ->
    own_property fields "detail" = Some (VArr (VObj <$> objs)) ->
    Forall (fun o => own_property o "toString" = None) objs ->
    let s' := after (generate_settle engine (Fulfilled response)) s in
    errorText (surfaces s')
    = "Request failed: " ++ String.concat "," (replicate (length objs) "[object Object]") /\
    errorSection_hidden (surfaces s') = false /\
    resultsSection_hidden (surfaces s') = true.
Proof.
  intros engine response fields objs s Hok Hbody Hdetail Hobjs. cbv zeta.
  assert (Hgen : generateInvoice engine (Fulfilled response)
                 = Throw (String.concat "," (replicate (length objs) "[object Object]"))).
  { unfold generateInvoice. rewrite Hok, Hbody. cbn [negb]. cbv zeta.
    unfold error_detail. cbn [mbind Completion_bind Get]. rewrite Hdetail.
    cbn [default from_option id js_or truthy or_catch Error_message].
    change ((ToString engine (VArr (VObj <$> objs)) ≫= (fun m : string => Throw m))
            = (Throw (String.concat "," (replicate (length objs) "[object Object]"))
               : Completion JsVal)).
    rewrite ToString_VArr, (Array_join_objects engine objs "," Hobjs). reflexivity. }
  rewrite (generate_settle_failure engine (Fulfilled response) _ s Hgen).
  repeat split.
Qed.

(** A status 422 with two validation errors. *)
Lemma structured_detail_is_shown_as_objects_witness :
  let body :=
    VObj [("detail", VArr [VObj [("loc", VArr [VStr "body"; VStr "po_pdf"]);
                                 ("msg", VStr "field required")];
                           VObj [("loc", VArr [VStr "body"; VStr "template"]);
                                 ("msg", VStr "field required")]])] in
  let s' := after (generate_settle Reference.engine
                     (Fulfilled (mkResponse 422 (Normal body)))) loaded_page in
  errorText (surfaces s') = "Request failed: [object Object],[object Object]" /\
  errorSection_hidden (surfaces s') = false /\
  resultsSection_hidden (surfaces s') = true.
Proof.
  apply (structured_detail_is_shown_as_objects Reference.engine
           (mkResponse 422 (Normal (VObj [("detail", VArr [
              VObj [("loc", VArr [VStr "body"; VStr "po_pdf"]); ("msg", VStr "field required")];
              VObj [("loc", VArr [VStr "body"; VStr "template"]);
                    ("msg", VStr "field required")]])])))
           [("detail", VArr [
              VObj [("loc", VArr [VStr "body"; VStr "po_pdf"]); ("msg", VStr "field required")];
              VObj [("loc", VArr [VStr "body"; VStr "template"]);
                    ("msg", VStr "field required")]])]
           [[("loc", VArr [VStr "body"; VStr "po_pdf"]); ("msg", VStr "field required")];
            [("loc", VArr [VStr "body"; VStr "template"]); ("msg", VStr "field required")]]
           loaded_page); try reflexivity.
  repeat constructor.
Defined.

(** ** The health poll *)

(** X15. A health poll writes the class of the dot and the label, and
    nothing else: [health-dot healthy] and [API Connected] when the request
    is answered with an ok status, [health-dot unhealthy] and [API Offline]
    when it is answered with any other status or rejects. The indicator
    tells the last poll only: what an earlier poll showed is overwritten. *)
Theorem health_poll_shows_last_outcome :
  forall (outcome : FetchOutcome) (s : State),
    let healthy :=
      match outcome with
      | Fulfilled response => ok response
      | Rejected _ => false
      end in
    after (checkBackendHealth outcome) s
    = set_healthLabel (if healthy then "API Connected" else "API Offline")
        (set_healthDot (if healthy then "health-dot healthy" else "health-dot unhealthy") s) /\
    (forall earlier,
        after (checkBackendHealth outcome) (after (checkBackendHealth earlier) s)
        = after (checkBackendHealth outcome) s) /\
    (forall engine w,
        in_flight (step engine w (HealthSettle outcome)) = in_flight w /\
        surfaces (page (step engine w (HealthSettle outcome))) = surfaces (page w) /\
        lastResult (page (step engine w (HealthSettle outcome))) = lastResult (page w)).
Proof.
  intros outcome s. cbv zeta. split; [ | split ].
  - destruct outcome as [response | m]; unfold after, checkBackendHealth, checkHealth, or_catch;
      [destruct (ok response) | ]; reflexivity.
  - intros earlier.
    destruct outcome as [response | m], earlier as [response' | m'];
      unfold after, checkBackendHealth, checkHealth, or_catch;
      try destruct (ok response); try destruct (ok response'); reflexivity.
  - intros engine w. destruct outcome as [response | m];
      unfold step, after, checkBackendHealth, checkHealth, or_catch;
      [destruct (ok response) | ]; repeat split.
Qed.

(** ** Removing what was selected *)

(** X16. A purchase order, or a template, is selected and the remove
    button of the first item of its list is clicked. When the markup of the
    name has kept the remove button, the click empties the slot and its
    list again and leaves the generate button disabled. When it has not,
    there is no item to click: the slot keeps the file, its list is empty
    and the surfaces are as before the selection. Either way the
    timesheets, the other slot and the requests in flight are as before
    the selection. *)
Theorem select_then_remove_clears_slot :
  forall (engine : Engine) (w : World) (f : File) (rest : list File),
    let after_po := run engine w [SelectFiles PoZone (f :: rest); ClickRemove PoZone 0] in
    let after_tpl := run engine w [SelectFiles TplZone (f :: rest); ClickRemove TplZone 0] in
    (timesheetFiles (page after_po) = timesheetFiles (page w) /\
     templateFile (page after_po) = templateFile (page w) /\
     in_flight after_po = in_flight w /\
     poFileList (page after_po) = [] /\
     match file_item_texts engine f with
     | Some _ =>
         poPdf (page after_po) = None /\
         generateBtn_disabled (surfaces (page after_po)) = true
     | None =>
         poPdf (page after_po) = Some f /\
         surfaces (page after_po) = surfaces (page w)
     end) /\
    (timesheetFiles (page after_tpl) = timesheetFiles (page w) /\
     poPdf (page after_tpl) = poPdf (page w) /\
     in_flight after_tpl = in_flight w /\
     tplFileList (page after_tpl) = [] /\
     match file_item_texts engine f with
     | Some _ =>
         templateFile (page after_tpl) = None /\
         generateBtn_disabled (surfaces (page after_tpl)) = true
     | None =>
         templateFile (page after_tpl) = Some f /\
         surfaces (page after_tpl) = surfaces (page w)
     end).
Proof.
  intros engine w f rest. cbv zeta. unfold run. cbn [fold_left].
  assert (Hpo : step engine w (SelectFiles PoZone (f :: rest))
                = mkWorld (fst (po_onFiles engine (f :: rest) (page w))) (in_flight w))
    by reflexivity.
  assert (Htpl : step engine w (SelectFiles TplZone (f :: rest))
                 = mkWorld (fst (tpl_onFiles engine (f :: rest) (page w))) (in_flight w))
    by reflexivity.
  rewrite Hpo, Htpl, po_onFiles_run, tpl_onFiles_run. cbv zeta. rewrite !rendered_one.
  destruct w as [ [po ts tpl ? ? ? ? ? ? ? ? ? ?] requests].
  destruct (file_item_texts engine f) as [shown | ]; cbn; repeat split.
  destruct po; [ | reflexivity]. destruct ts; reflexivity.
Qed.

(** After a selection of timesheets with plain names, the file held at an
    index and the item rendered at that index. *)
Lemma timesheets_append_lookup (engine : Engine) (files : list File) (s : State)
    (k : nat) (f : File) :
  Forall plain_name (timesheetFiles s ++ files)%list ->
  (timesheetFiles s ++ files)%list !! k = Some f ->
  timesheetFiles (after (ts_onFiles engine files) s) = (timesheetFiles s ++ files)%list /\
  tsFileList (after (ts_onFiles engine files) s) !! k
  = Some (mkFileItem (name f) (size_label engine f) k TsRemove).
Proof.
  intros Hplain Hk. unfold after. rewrite ts_onFiles_run. cbv zeta.
  rewrite (rendered_plain engine TsRemove _ 0 Hplain). cbn [fst snd].
  split; [reflexivity | ].
  transitivity (imap (fun j g => mkFileItem (name g) (size_label engine g) (0 + j) TsRemove)
                  (timesheetFiles s ++ files)%list !! k); [reflexivity | ].
  rewrite list_lookup_imap, Hk. reflexivity.
Qed.

(** X17. After a selection of timesheets, all of plain names, the rendered
    list is in step with the list held, so the first click on a remove
    button removes from the list held exactly the file whose name the
    clicked item shows; the files before and after it keep their order. *)
Theorem first_removal_removes_clicked_file :
  forall (engine : Engine) (w : World) (files : list File) (k : nat) (f : File),
    Forall plain_name (timesheetFiles (page w) ++ files)%list ->
    (timesheetFiles (page w) ++ files)%list !! k = Some f ->
    let w1 := step engine w (SelectFiles TsZone files) in
    let w2 := step engine w1 (ClickRemove TsZone k) in
    item_name <$> tsFileList (page w1) !! k = Some (name f) /\
    timesheetFiles (page w2) = delete k (timesheetFiles (page w) ++ files)%list /\
    S (length (timesheetFiles (page w2))) = length (timesheetFiles (page w1)) /\
    poPdf (page w2) = poPdf (page w) /\ templateFile (page w2) = templateFile (page w).
Proof.
  intros engine w files k f Hplain Hk. cbv zeta.
  destruct (timesheets_append_lookup engine files (page w) k f Hplain Hk) as [Hfiles Hitem].
  set (w1 := step engine w (SelectFiles TsZone files)).
  assert (Hpage : page w1 = after (ts_onFiles engine files) (page w)) by reflexivity.
  rewrite <- Hpage in Hfiles, Hitem.
  rewrite (ts_remove_click engine w1 k _ Hitem eq_refl). cbn [page item_index].
  rewrite Hitem, Hfiles. split; [reflexivity | ]. split; [reflexivity | ]. split.
  - change (S (length (delete k (timesheetFiles (page w) ++ files)%list))
            = length (timesheetFiles (page w) ++ files)%list).
    rewrite length_delete by (rewrite Hk; eauto).
    apply lookup_lt_Some in Hk. lia.
  - assert (Hslots : (poPdf (page w1), templateFile (page w1))
                     = (poPdf (page w), templateFile (page w))).
    { rewrite Hpage.
      apply (frames_after (fun x => (poPdf x, templateFile x))).
      unfold ts_onFiles, updateGenerateBtn. frame. }
    injection Hslots as H1 H2. split; assumption.
Qed.

(** Three timesheets, then the button of the second. *)
Lemma first_removal_removes_clicked_file_witness :
  let w1 := step Reference.engine loaded (SelectFiles TsZone [sheet_a; sheet_b; sheet_c]) in
  let w2 := step Reference.engine w1 (ClickRemove TsZone 1) in
  item_name <$> tsFileList (page w1) !! 1%nat = Some "b.pdf" /\
  timesheetFiles (page w2) = [sheet_a; sheet_c].
Proof.
  pose proof (first_removal_removes_clicked_file Reference.engine loaded
                [sheet_a; sheet_b; sheet_c] 1 sheet_b
                ltac:(repeat constructor) eq_refl) as H.
  cbv zeta in H |- *. destruct H as (H1 & H2 & _). split; [exact H1 | exact H2].
Defined.

(** ** Invariants along the events of the page *)

Lemma slot_shown_frames (engine : Engine) (s s' : State) :
  (poPdf s', poFileList s', templateFile s', tplFileList s')
  = (poPdf s, poFileList s, templateFile s, tplFileList s) ->
  slots_in_sync engine s -> slots_in_sync engine s'.
Proof.
  unfold slots_in_sync. intros H. injection H as -> -> -> ->. auto.
Qed.

Lemma call_onRemove_in_sync (engine : Engine) (cb : Callback) (idx : nat) (s : State) :
  slots_in_sync engine s -> slots_in_sync engine (after (call_onRemove engine cb idx) s).
Proof.
  intros [Hpo Htpl]. destruct cb; split; try exact Hpo; try exact Htpl; reflexivity.
Qed.

Lemma onFiles_in_sync (engine : Engine) (z : Zone) (files : list File) (s : State) :
  slots_in_sync engine s -> slots_in_sync engine (after (onFiles engine z files) s).
Proof.
  intros [Hpo Htpl]. unfold after.
  destruct z; cbn [onFiles]; try (destruct files as [ | f files]; [split; assumption | ]);
    rewrite ?po_onFiles_run, ?ts_onFiles_run, ?tpl_onFiles_run; cbv zeta;
    match goal with
    | |- context [snd (rendered ?e ?i ?l ?cb)] => destruct (snd (rendered e i l cb)) as [u | m]
    end;
    split; try exact Hpo; try exact Htpl; reflexivity.
Qed.

Lemma step_in_sync (engine : Engine) (w : World) (e : Event) :
  slots_in_sync engine (page w) -> slots_in_sync engine (page (step engine w e)).
Proof.
  intros H. destruct e as [z files | z k | text | checked | | k outcome | outcome];
    cbn [step].
  - cbn [page]. apply onFiles_in_sync. exact H.
  - destruct (file_list z (page w) !! k) as [item | ]; [ | exact H].
    cbn [page]. apply call_onRemove_in_sync. exact H.
  - exact H.
  - exact H.
  - destruct (generateBtn_disabled (surfaces (page w))); [exact H | ].
    eapply (slot_shown_frames engine (page w)); [ | exact H].
    assert (Hclick : (fun x => (poPdf x, poFileList x, templateFile x, tplFileList x))
                       (fst (generate_click engine (page w)))
                     = (poPdf (page w), poFileList (page w),
                        templateFile (page w), tplFileList (page w)))
      by (apply (generate_click_frames
                   (fun x => (poPdf x, poFileList x, templateFile x, tplFileList x)));
          reflexivity).
    cbv beta in Hclick.
    destruct (generate_click engine (page w)) as [s' [request | ] ]; exact Hclick.
  - destruct (in_flight w !! k); [ | exact H]. cbn [page].
    eapply (slot_shown_frames engine (page w)); [ | exact H].
    apply (frames_after (fun x => (poPdf x, poFileList x, templateFile x, tplFileList x))).
    apply generate_settle_frames; reflexivity.
  - cbn [page]. eapply (slot_shown_frames engine (page w)); [ | exact H].
    apply (frames_after (fun x => (poPdf x, poFileList x, templateFile x, tplFileList x))).
    unfold checkBackendHealth. frame.
Qed.

Lemma slot_shown_plain (engine : Engine) (f : File) (cb : Callback) (l : list FileItem) :
  slot_shown engine (Some f) cb l -> plain_name f ->
  l = [mkFileItem (name f) (size_label engine f) 0 cb].
Proof.
  unfold slot_shown. intros -> Hplain.
  rewrite rendered_one, (plain_name_texts engine f Hplain). reflexivity.
Qed.

(** X18. The lists of the two single-file slots stay in step with the slots
    along every sequence of events: the list of a slot shows what a
    rendering of the file in the slot shows, and nothing when the slot is
    empty. So whenever the slot of the purchase order (of the template)
    holds a file with a plain name, its list shows exactly that file by its
    name and size, with the removal callback of the slot; a file whose
    markup has lost the remove button is held and not shown. *)
Theorem slot_lists_stay_in_sync :
  forall (engine : Engine) (events : list Event) (w : World),
    slots_in_sync engine (page w) ->
    let s' := page (run engine w events) in
    slots_in_sync engine s' /\
    (forall f, poPdf s' = Some f -> plain_name f ->
               poFileList s' = [mkFileItem (name f) (size_label engine f) 0 PoRemove]) /\
    (forall f, templateFile s' = Some f -> plain_name f ->
               tplFileList s' = [mkFileItem (name f) (size_label engine f) 0 TplRemove]) /\
    (forall f, poPdf s' = Some f -> file_item_texts engine f = None -> poFileList s' = []) /\
    (forall f, templateFile s' = Some f -> file_item_texts engine f = None ->
               tplFileList s' = []).
Proof.
  intros engine events w H. cbv zeta.
  assert (Hsync : slots_in_sync engine (page (run engine w events))).
  { revert w H. unfold run.
    induction events as [ | e events IH]; intros w H; [exact H | ].
    cbn [fold_left]. apply IH. apply step_in_sync. exact H. }
  split; [exact Hsync | ]. destruct Hsync as [Hpo Htpl].
  split; [ | split; [ | split] ]; intros f Hf.
  - rewrite Hf in Hpo. apply slot_shown_plain. exact Hpo.
  - rewrite Hf in Htpl. apply slot_shown_plain. exact Htpl.
  - intros Hnone. rewrite Hf in Hpo. unfold slot_shown in Hpo.
    rewrite rendered_one, Hnone in Hpo. exact Hpo.
  - intros Hnone. rewrite Hf in Htpl. unfold slot_shown in Htpl.
    rewrite rendered_one, Hnone in Htpl. exact Htpl.
Qed.

(** A purchase order whose name opens a comment, and a template. *)
Lemma slot_lists_stay_in_sync_witness :
  let broken := mkFile "a<!--b.pdf" 10 in
  let s' := page (run Reference.engine loaded
                    [ SelectFiles PoZone [sheet_a]; SelectFiles PoZone [broken];
                      SelectFiles TplZone [sheet_b]; ClickGenerate ]) in
  poPdf s' = Some broken /\ poFileList s' = [] /\
  tplFileList s' = [mkFileItem "b.pdf" "4.0 KB" 0 TplRemove].
Proof.
  cbv zeta.
  pose proof (slot_lists_stay_in_sync Reference.engine
                [ SelectFiles PoZone [sheet_a]; SelectFiles PoZone [mkFile "a<!--b.pdf" 10];
                  SelectFiles TplZone [sheet_b]; ClickGenerate ]
                loaded ltac:(split; reflexivity)) as H.
  cbv zeta in H. destruct H as (_ & _ & Htpl & Hpo & _).
  split; [reflexivity | ]. split.
  - apply (Hpo (mkFile "a<!--b.pdf" 10)); reflexivity.
  - apply (Htpl sheet_b); reflexivity.
Defined.

Lemma held_is_shown_frames (engine : Engine) (s s' : State) :
  (timesheetFiles s', tsFileList s') = (timesheetFiles s, tsFileList s) ->
  held_is_shown engine s -> held_is_shown engine s'.
Proof.
  unfold held_is_shown. intros H. injection H as -> ->. auto.
Qed.

Lemma sublist_Some_inv {A} (k : list A) :
  forall l : list (option A), sublist l (Some <$> k) -> exists ts, l = Some <$> ts.
Proof.
  induction k as [ | x k IH]; intros l H.
  - apply sublist_nil_r in H. subst l. exists []. reflexivity.
  - rewrite fmap_cons in H. apply sublist_cons_r in H.
    destruct H as [H | (l' & -> & H)].
    + apply IH. exact H.
    + destruct (IH l' H) as [ts ->]. exists (x :: ts). reflexivity.
Qed.

Lemma fmap_Some_Forall2 {A C} (f : A -> option C) :
  forall (l : list A) (ts : list C),
    f <$> l = Some <$> ts -> Forall2 (fun a t => f a = Some t) l ts.
Proof.
  induction l as [ | a l IH]; intros [ | t ts] H; try discriminate H; constructor.
  - injection H as H _. exact H.
  - apply IH. injection H as _ H. exact H.
Qed.

Lemma Forall2_fmap_Some {A C} (f : A -> option C) (l : list A) (ts : list C) :
  Forall2 (fun a t => f a = Some t) l ts -> f <$> l = Some <$> ts.
Proof.
  induction 1 as [ | a t l ts Ha _ IH]; [reflexivity | ].
  rewrite !fmap_cons, Ha, IH. reflexivity.
Qed.

Lemma shown_of_rendered (cb : Callback) (ts : list (string * string)) (i : nat) :
  Some ∘ shown_of_item <$> imap (fun j t => mkFileItem (fst t) (snd t) (i + j) cb) ts
  = Some <$> ts.
Proof.
  apply list_eq. intros j. rewrite !list_lookup_fmap, list_lookup_imap.
  destruct (ts !! j) as [ [n sz] | ]; reflexivity.
Qed.

Lemma call_onRemove_held (engine : Engine) (cb : Callback) (idx : nat) (s : State) :
  held_is_shown engine s -> held_is_shown engine (after (call_onRemove engine cb idx) s).
Proof.
  intros H. destruct cb; try exact H.
  unfold after. rewrite ts_remove_stops. unfold held_is_shown in *. cbn.
  etransitivity; [ | exact H].
  apply fmap_sublist, sublist_delete.
Qed.

(** A selection of timesheets with plain names renders every file held. *)
Lemma ts_onFiles_held (engine : Engine) (files : list File) (s : State) :
  Forall plain_name files ->
  held_is_shown engine s -> held_is_shown engine (after (ts_onFiles engine files) s).
Proof.
  intros Hplain H. unfold held_is_shown in H.
  rewrite (list_fmap_compose shown_of_item Some) in H.
  destruct (sublist_Some_inv _ _ H) as [ts Hts].
  apply fmap_Some_Forall2 in Hts.
  assert (Hall := Forall2_app Hts (plain_names_texts engine files Hplain)).
  unfold after. rewrite ts_onFiles_run. cbv zeta.
  rewrite (rendered_texts engine TsRemove _ _ Hall 0). cbn [fst snd].
  unfold held_is_shown.
  match goal with
  | |- sublist (_ <$> timesheetFiles ?s1) (_ <$> tsFileList ?s1) =>
      change (timesheetFiles s1) with (timesheetFiles s ++ files)%list;
      change (tsFileList s1)
        with (imap (fun j t => mkFileItem (fst t) (snd t) (0 + j) TsRemove)
                (ts ++ ((fun f => (name f, size_label engine f)) <$> files))%list)
  end.
  apply Forall2_fmap_Some in Hall. rewrite shown_of_rendered, Hall. reflexivity.
Qed.

Lemma step_held (engine : Engine) (w : World) (e : Event) :
  selects_plain_timesheets e ->
  held_is_shown engine (page w) -> held_is_shown engine (page (step engine w e)).
Proof.
  intros Hplain H. destruct e as [z files | z k | text | checked | | k outcome | outcome];
    cbn [step].
  - cbn [page]. destruct z; cbn [onFiles].
    + eapply (held_is_shown_frames engine (page w)); [ | exact H].
      apply (frames_after (fun x => (timesheetFiles x, tsFileList x))).
      unfold po_onFiles, updateGenerateBtn. destruct files; frame.
    + apply ts_onFiles_held; [exact Hplain | exact H].
    + eapply (held_is_shown_frames engine (page w)); [ | exact H].
      apply (frames_after (fun x => (timesheetFiles x, tsFileList x))).
      unfold tpl_onFiles, updateGenerateBtn. destruct files; frame.
  - destruct (file_list z (page w) !! k) as [item | ]; [ | exact H].
    cbn [page]. apply call_onRemove_held. exact H.
  - exact H.
  - exact H.
  - destruct (generateBtn_disabled (surfaces (page w))); [exact H | ].
    eapply (held_is_shown_frames engine (page w)); [ | exact H].
    assert (Hclick : (fun x => (timesheetFiles x, tsFileList x))
                       (fst (generate_click engine (page w)))
                     = (timesheetFiles (page w), tsFileList (page w)))
      by (apply (generate_click_frames (fun x => (timesheetFiles x, tsFileList x)));
          reflexivity).
    cbv beta in Hclick.
    destruct (generate_click engine (page w)) as [s' [request | ] ]; exact Hclick.
  - destruct (in_flight w !! k); [ | exact H]. cbn [page].
    eapply (held_is_shown_frames engine (page w)); [ | exact H].
    apply (frames_after (fun x => (timesheetFiles x, tsFileList x))).
    apply generate_settle_frames; reflexivity.
  - cbn [page]. eapply (held_is_shown_frames engine (page w)); [ | exact H].
    apply (frames_after (fun x => (timesheetFiles x, tsFileList x))).
    unfold checkBackendHealth. frame.
Qed.

(** X19. Along every sequence of events in which the timesheets selected
    have plain names, the timesheets that will be uploaded are among the
    rendered items, in the same order, each item showing what the markup of
    its file shows: a removal may leave items on the page whose file is
    gone, but no event makes the list hold a file that the page does not
    show. A timesheet whose markup has lost the remove button breaks this:
    it is held and not shown. *)
Theorem held_timesheets_are_shown :
  forall (engine : Engine) (events : list Event) (w : World),
    Forall selects_plain_timesheets events ->
    held_is_shown engine (page w) ->
    held_is_shown engine (page (run engine w events)) /\
    (forall g,
        file_item_texts engine g = None ->
        let s' := after (ts_onFiles engine [g]) (page (run engine w events)) in
        last (timesheetFiles s') = Some g /\
        ~ held_is_shown engine s').
Proof.
  intros engine events w Hplain H.
  assert (Hheld : held_is_shown engine (page (run engine w events))).
  { revert w H. unfold run.
    induction Hplain as [ | e events He _ IH]; intros w H; [exact H | ].
    cbn [fold_left]. apply IH. apply step_held; [exact He | exact H]. }
  split; [exact Hheld | ].
  intros g Hg. cbv zeta. unfold after. rewrite ts_onFiles_run. cbv zeta.
  destruct (snd (rendered engine 0
                   (Some <$> (timesheetFiles (page (run engine w events)) ++ [g])%list)
                   TsRemove)); cbn [fst];
    (split; [apply last_snoc | ]);
    intros Hshown; unfold held_is_shown in Hshown;
    rewrite (list_fmap_compose shown_of_item Some) in Hshown;
    apply sublist_Some_inv in Hshown; destruct Hshown as [ts Hts];
    apply fmap_Some_Forall2 in Hts;
    apply Forall2_app_inv_l in Hts; destruct Hts as (ts1 & ts2 & _ & Hlast & _);
    inversion Hlast as [ | ? t ? ? Ht _ ]; subst; congruence.
Qed.

(** Three timesheets, two removals through stale buttons, one more
    timesheet. *)
Lemma held_timesheets_are_shown_witness :
  held_is_shown Reference.engine
    (page (run Reference.engine loaded
             [ SelectFiles TsZone [sheet_a; sheet_b; sheet_c]; ClickRemove TsZone 0;
               ClickRemove TsZone 1; SelectFiles TsZone [sheet_b] ])).
Proof.
  apply (held_timesheets_are_shown Reference.engine).
  - repeat constructor.
  - apply sublist_nil_l.
Defined.

(** A call of [showResults] that returns has bound both download buttons
    to its argument. *)
Lemma showResults_binds (engine : Engine) (result : JsVal) :
  ensures (fun s => dl_excel (view s) = Some result /\ dl_audit (view s) = Some result)
    (showResults engine result).
Proof.
  unfold showResults.
  repeat lazymatch goal with
         | |- ensures _ (modify_view (set_dl_excel _) ≫= _) => fail
         | |- ensures _ (_ ≫= _) => apply ensures_bind; intros ?
         end.
  intros s s' u H. injection H as <-. split; reflexivity.
Qed.

Lemma onFiles_attempt (engine : Engine) (z : Zone) (files : list File) :
  frames attempt_part (onFiles engine z files).
Proof.
  destruct z; cbn [onFiles]; unfold po_onFiles, ts_onFiles, tpl_onFiles, updateGenerateBtn;
    destruct files; frame.
Qed.

Lemma remove_click_attempt (engine : Engine) (item : FileItem) :
  frames attempt_part (remove_click engine item).
Proof.
  unfold remove_click. destruct (item_onRemove item); cbn [call_onRemove];
    unfold updateGenerateBtn; frame.
Qed.

Lemma cleanup_attempt :
  frames attempt_part (modify_surfaces (set_statusSection_hidden true);; updateGenerateBtn).
Proof. unfold modify_surfaces, updateGenerateBtn. frame. Qed.

Lemma downloads_bound_hidden (s : State) :
  resultsSection_hidden (surfaces s) = true -> downloads_bound s.
Proof. unfold downloads_bound. intros H H'. congruence. Qed.

Lemma downloads_bound_frames (s s' : State) :
  attempt_part s' = attempt_part s -> downloads_bound s -> downloads_bound s'.
Proof.
  unfold downloads_bound, attempt_part. intros H. injection H as -> _ _ -> ->. auto.
Qed.

Lemma showError_hides (engine : Engine) (msg : JsVal) (s : State) :
  resultsSection_hidden (surfaces (after (showError engine msg) s)) = true.
Proof.
  pose proof (showError_flags engine msg s) as H. unfold hidden_flags in H.
  injection H as H _. exact H.
Qed.

(** However a generation attempt ends, it leaves the result section hidden
    or the download buttons bound to the result it stored. *)
Lemma generate_settle_bound (engine : Engine) (outcome : FetchOutcome) (s : State) :
  downloads_bound (after (generate_settle engine outcome) s).
Proof.
  destruct (generateInvoice engine outcome) as [result | m] eqn:Hgen.
  - unfold after. rewrite (generate_settle_response engine outcome result s Hgen).
    change (fst (try_finally ?b ?c0 ?s0)) with (after (try_finally b c0) s0).
    rewrite try_finally_after.
    eapply downloads_bound_frames; [apply (frames_after attempt_part), cleanup_attempt | ].
    assert (Hlast : lastResult (set_lastResult result s) = result) by reflexivity.
    revert Hlast. generalize (set_lastResult result s). intros s1 Hlast.
    unfold after, try_catch.
    destruct ((success ← eval (Get engine result "success");
               if truthy success then showResults engine result
               else (msg ← eval (error_list engine result); showError engine msg)) s1)
      as [s2 [u | m] ] eqn:E.
    + unfold mbind, Js_bind, eval in E.
      destruct (Get engine result "success") as [success | m]; [ | discriminate E].
      destruct (truthy success).
      * intros _. destruct (showResults_binds engine result s1 s2 u E) as [Hx Ha].
        cbn [fst]. rewrite Hx, Ha.
        assert (H2 : lastResult s2 = lastResult s1).
        { change s2 with (fst (s2, Normal u : Completion unit)). rewrite <- E.
          apply (frames_after lastResult). apply showResults_frames; reflexivity. }
        rewrite H2, Hlast. split; reflexivity.
      * destruct (error_list engine result) as [msg | m]; [ | discriminate E].
        apply downloads_bound_hidden. cbn [fst].
        change s2 with (fst (s2, Normal u : Completion unit)). rewrite <- E.
        apply (showError_hides engine msg s1).
    + apply downloads_bound_hidden. apply showError_hides.
  - rewrite (generate_settle_failure engine outcome m s Hgen).
    apply downloads_bound_hidden. reflexivity.
Qed.

Lemma step_bound (engine : Engine) (w : World) (e : Event) :
  downloads_bound (page w) -> downloads_bound (page (step engine w e)).
Proof.
  intros H. destruct e as [z files | z k | text | checked | | k outcome | outcome];
    cbn [step].
  - cbn [page]. eapply downloads_bound_frames; [ | exact H].
    apply (frames_after attempt_part), onFiles_attempt.
  - destruct (file_list z (page w) !! k) as [item | ]; [ | exact H].
    cbn [page]. eapply downloads_bound_frames; [ | exact H].
    apply (frames_after attempt_part), remove_click_attempt.
  - exact H.
  - exact H.
  - destruct (generateBtn_disabled (surfaces (page w))); [exact H | ].
    unfold generate_click.
    destruct (JSON_parse engine (configTextarea (page w))) as [config | m]; cbn [page];
      apply downloads_bound_hidden; [reflexivity | apply showError_hides].
  - destruct (in_flight w !! k); [ | exact H].
    cbn [page]. apply generate_settle_bound.
  - cbn [page]. eapply downloads_bound_frames; [ | exact H].
    apply (frames_after attempt_part). unfold checkBackendHealth. frame.
Qed.

(** X20. Along every sequence of events, while the result section is shown
    both download buttons save the stored result: an attempt that stores a
    new result either shows it and rebinds the buttons or hides the result
    section, and no other event shows the section or writes the buttons or
    the stored result. *)
Theorem downloads_follow_lastResult :
  forall (engine : Engine) (events : list Event) (w : World),
    downloads_bound (page w) ->
    downloads_bound (page (run engine w events)).
Proof.
  intros engine events. unfold run.
  induction events as [ | e events IH]; intros w H; [exact H | ].
  cbn [fold_left]. apply IH. apply step_bound. exact H.
Qed.

(** A complete selection, a click, and the answer of the backend. *)
Lemma downloads_follow_lastResult_witness :
  let s := page (run Reference.engine (ready_world "{}") [ClickGenerate; Settle 0 sample_success]) in
  resultsSection_hidden (surfaces s) = false /\
  dl_excel (view s) = Some (VObj sample_result) /\ dl_audit (view s) = Some (lastResult s).
Proof.
  cbv zeta.
  pose proof (downloads_follow_lastResult Reference.engine
                [ClickGenerate; Settle 0 sample_success] (ready_world "{}")
                ltac:(apply downloads_bound_hidden; vm_compute; reflexivity)) as H.
  assert (Hshown : resultsSection_hidden
                     (surfaces (page (run Reference.engine (ready_world "{}")
                                        [ClickGenerate; Settle 0 sample_success]))) = false)
    by (vm_compute; reflexivity).
  destruct (H Hshown) as [Hx Ha].
  split; [exact Hshown | ]. split; [ | exact Ha].
  rewrite Hx. vm_compute. reflexivity.
Defined.

Lemma banner_filled_hidden (s : State) :
  errorSection_hidden (surfaces s) = true -> banner_filled s.
Proof. unfold banner_filled. intros H H'. congruence. Qed.

Lemma banner_filled_frames (s s' : State) :
  attempt_part s' = attempt_part s -> banner_filled s -> banner_filled s'.
Proof.
  unfold banner_filled, attempt_part. intros H. injection H as _ -> -> _ _. auto.
Qed.

(** On a text, [showError] completes and shows the text. *)
Lemma showError_banner (engine : Engine) (t : string) (s : State) :
  t <> "" -> banner_filled (after (showError engine (VStr t)) s).
Proof. intros Ht _. exact Ht. Qed.

(** What [result.errors?.join(LF) || "Unknown error"] evaluates to is a text
    that is not empty. *)
Lemma error_list_text (engine : Engine) (result msg : JsVal) :
  error_list engine result = Normal msg -> exists t, msg = VStr t /\ t <> "".
Proof.
  unfold error_list. intros H.
  destruct (Get engine result "errors") as [es | m]; [ | discriminate H].
  cbn in H.
  destruct (optional_join engine es LF) as [j | m] eqn:Hj; [ | discriminate H].
  cbn in H.
  assert (Hshape : j = VUndefined \/ exists t, j = VStr t).
  { destruct es; cbn in Hj; try discriminate Hj;
      try (injection Hj as <-; left; reflexivity).
    destruct (Array_join engine l LF) as [t | m]; [ | discriminate Hj].
    injection Hj as <-. right. exists t. reflexivity. }
  destruct Hshape as [-> | [t ->] ].
  - injection H as <-. exists "Unknown error". split; [reflexivity | discriminate].
  - unfold js_or in H. destruct t as [ | a t].
    + injection H as <-. exists "Unknown error". split; [reflexivity | discriminate].
    + injection H as <-. exists (String a t). split; [reflexivity | discriminate].
Qed.

(** However a generation attempt ends, it leaves the error banner hidden or
    filled. *)
Lemma generate_settle_banner (engine : Engine) (outcome : FetchOutcome) (s : State) :
  banner_filled (after (generate_settle engine outcome) s).
Proof.
  destruct (generateInvoice engine outcome) as [result | m] eqn:Hgen.
  - unfold after. rewrite (generate_settle_response engine outcome result s Hgen).
    change (fst (try_finally ?b ?c0 ?s0)) with (after (try_finally b c0) s0).
    rewrite try_finally_after.
    eapply banner_filled_frames; [apply (frames_after attempt_part), cleanup_attempt | ].
    generalize (set_lastResult result s). intros s1.
    unfold after, try_catch.
    destruct ((success ← eval (Get engine result "success");
               if truthy success then showResults engine result
               else (msg ← eval (error_list engine result); showError engine msg)) s1)
      as [s2 [u | m] ] eqn:E.
    + unfold mbind, Js_bind, eval in E.
      destruct (Get engine result "success") as [success | m]; [ | discriminate E].
      destruct (truthy success).
      * apply banner_filled_hidden. cbn [fst].
        pose proof (showResults_flags engine result s1) as Hf.
        unfold after in Hf. rewrite E in Hf. injection Hf as _ Hf. exact Hf.
      * destruct (error_list engine result) as [msg | m] eqn:Hmsg; [ | discriminate E].
        destruct (error_list_text engine result msg Hmsg) as (t & -> & Ht).
        cbn [fst]. change s2 with (fst (s2, Normal u : Completion unit)). rewrite <- E.
        apply (showError_banner engine t s1 Ht).
    + apply (showError_banner engine). discriminate.
  - rewrite (generate_settle_failure engine outcome m s Hgen).
    eapply banner_filled_frames.
    + apply (frames_after attempt_part). unfold updateGenerateBtn. frame.
    + intros _. cbn. discriminate.
Qed.

Lemma step_banner (engine : Engine) (w : World) (e : Event) :
  banner_filled (page w) -> banner_filled (page (step engine w e)).
Proof.
  intros H. destruct e as [z files | z k | text | checked | | k outcome | outcome];
    cbn [step].
  - cbn [page]. eapply banner_filled_frames; [ | exact H].
    apply (frames_after attempt_part), onFiles_attempt.
  - destruct (file_list z (page w) !! k) as [item | ]; [ | exact H].
    cbn [page]. eapply banner_filled_frames; [ | exact H].
    apply (frames_after attempt_part), remove_click_attempt.
  - exact H.
  - exact H.
  - destruct (generateBtn_disabled (surfaces (page w))); [exact H | ].
    unfold generate_click.
    destruct (JSON_parse engine (configTextarea (page w))) as [config | m]; cbn [page].
    + apply banner_filled_hidden. reflexivity.
    + apply (showError_banner engine). discriminate.
  - destruct (in_flight w !! k); [ | exact H].
    cbn [page]. apply generate_settle_banner.
  - cbn [page]. eapply banner_filled_frames; [ | exact H].
    apply (frames_after attempt_part). unfold checkBackendHealth. frame.
Qed.

(** X21. Along every sequence of events the error banner is never shown
    empty: every text the handlers pass to [showError] is a string that is
    not empty (a fixed prefix before a message, or the joined errors with
    [Unknown error] in place of an empty text), and no other event shows
    the banner or writes its text. *)
Theorem error_banner_is_never_empty :
  forall (engine : Engine) (events : list Event) (w : World),
    banner_filled (page w) ->
    banner_filled (page (run engine w events)).
Proof.
  intros engine events. unfold run.
  induction events as [ | e events IH]; intros w H; [exact H | ].
  cbn [fold_left]. apply IH. apply step_banner. exact H.
Qed.

(** A complete selection, a click, and a report whose only error is the
    empty string. *)
Lemma error_banner_is_never_empty_witness :
  let s := page (run Reference.engine (ready_world "{}")
                   [ClickGenerate; Settle 0 (Fulfilled (mkResponse 200 (Normal empty_error)))]) in
  errorSection_hidden (surfaces s) = false /\ errorText (surfaces s) <> "".
Proof.
  cbv zeta.
  pose proof (error_banner_is_never_empty Reference.engine
                [ClickGenerate; Settle 0 (Fulfilled (mkResponse 200 (Normal empty_error)))]
                (ready_world "{}")
                ltac:(apply banner_filled_hidden; vm_compute; reflexivity)) as H.
  assert (Hshown : errorSection_hidden
                     (surfaces
                        (page (run Reference.engine (ready_world "{}")
                                 [ClickGenerate;
                                  Settle 0 (Fulfilled (mkResponse 200 (Normal empty_error)))])))
                   = false)
    by (vm_compute; reflexivity).
  split; [exact Hshown | exact (H Hshown)].
Defined.
